(** * Water Value Database: summary tables, charts and pipeline runner

    A shallow embedding of the reporting scripts
      scripts/01_summary_tables.py
      scripts/02_completeness_heatmap.py
      scripts/03_analytical_charts.py
      scripts/04_run_pipeline.py
    together with the properties their specification states.

    Conventions of the embedding.
    - A data frame is a list of rows; a cell that SQLite holds as NULL
      (pandas NaN/None) is [None].
    - Counts are natural numbers.  A percentage is held in tenths of a
      percent, the one decimal place that [round(pct, 1)] keeps: the
      binary64 value 66.7 is [Tenths 667].  The quotient is taken exactly
      and rounded half to even, as numpy's [rint] does.
      At an exact tie binary64 arithmetic may round either way; the
      properties below use only that a rounded value is within half a
      tenth of the exact one, and the values of the three-row example,
      which are no ties.
    - Python exceptions are the [Raise] results of [result].
    - What the scripts print ([_print] and the report buffer) is not part
      of the embedding; the files they write are, the CSV files byte for
      byte. *)

From Stdlib Require Import String Ascii List Arith PeanoNat ZArith QArith Lia Bool.
From Stdlib Require Import Permutation Sorted DecimalString.
From Stdlib Require Import Floats.PrimFloat Numbers.Cyclic.Int63.Uint63.
Import ListNotations.
Local Open Scope string_scope.
Local Open Scope list_scope.
Local Open Scope nat_scope.

(* ================================================================== *)
(** * Python values, exceptions and a few builtins                     *)
(* ================================================================== *)

Inductive exn : Type :=
| FileNotFoundError (msg : string)
| ZeroDivisionError
| ValueError
| IndexError.

Inductive result (A : Type) : Type :=
| Ok (a : A)
| Raise (e : exn).
Arguments Ok {A} a.
Arguments Raise {A} e.

Definition bind {A B} (r : result A) (k : A -> result B) : result B :=
  match r with
  | Ok a => k a
  | Raise e => Raise e
  end.

Notation "x <- r ;; k" := (bind r (fun x => k))
  (at level 61, r at next level, right associativity).

(** A one-decimal float: finite values in tenths, and the two non-finite
    values a numpy division by zero produces. *)
Inductive float1 : Type :=
| Tenths (t : nat)
| Inf
| NaN.

Inductive value : Type :=
| VStr (s : string)
| VInt (n : nat)
| VFloat (x : float1).

(** A row built as a Python dict literal: keys in insertion order. *)
Definition record := list (string * value).
(** [pd.DataFrame(rows)]: the rows in order. *)
Definition table := list record.

Fixpoint get (key : string) (r : record) : option value :=
  match r with
  | [] => None
  | (k, v) :: r' => if String.eqb k key then Some v else get key r'
  end.

(** [row[key]] of an integer column. *)
Definition Count_of (key : string) (r : record) : nat :=
  match get key r with
  | Some (VInt n) => n
  | _ => 0
  end.

(** [str(n)] for a non-negative integer. *)
Definition str_of_nat (n : nat) : string := NilZero.string_of_uint (Nat.to_uint n).

Definition str_of_Z (z : Z) : string := NilZero.string_of_int (Z.to_int z).

(** [f"{x:.1f}"] and [repr] of a one-decimal float. *)
Definition str_of_tenths (t : nat) : string :=
  str_of_nat (t / 10) ++ "." ++ str_of_nat (t mod 10).

Definition str_of_float1 (x : float1) : string :=
  match x with
  | Tenths t => str_of_tenths t
  | Inf => "inf"
  | NaN => "nan"
  end.

(** Quotient [num / den] rounded to the nearest integer, ties to even. *)
Definition round_half_even (num den : nat) : nat :=
  let q := num / den in
  let r := num mod den in
  if 2 * r <? den then q
  else if den <? 2 * r then S q
  else if Nat.even q then q else S q.

(** [round(count / n_total * 100, 1)] for a numpy [int64] count: numpy
    divides by zero without raising.  The value is held in tenths, as the
    exact share rounded half to even.  The code rounds the binary64 value
    of the share, which gives the same tenth except where the exact share
    is a tie between two tenths: there binary64 may give the other one (23
    of 80 is 28.75: 28.7 in binary64, [Tenths 288] here; see
    [Binary64.percentage] below).  Both are within half a tenth of the
    exact share, and the properties of the tables state of a percentage
    no more than that. *)
Definition np_percentage (count n_total : nat) : float1 :=
  if n_total =? 0 then (if count =? 0 then NaN else Inf)
  else Tenths (round_half_even (1000 * count) n_total).

(** The same expression when [count] is a Python [int]: the division
    raises for a zero divisor. *)
Definition py_percentage (count n_total : nat) : result float1 :=
  if n_total =? 0 then Raise ZeroDivisionError
  else Ok (Tenths (round_half_even (1000 * count) n_total)).

(** The same computation in binary64, for a check of the convention on
    given counts: [rint] by way of 2^52, which rounds a non-negative
    value below 2^51 to the nearest integer, ties to even. *)
Module Binary64.

Definition of_nat (n : nat) : float := PrimFloat.of_uint63 (Uint63.of_Z (Z.of_nat n)).

Definition two52 : float := PrimFloat.of_uint63 (Uint63.of_Z 4503599627370496%Z).

Definition rint (x : float) : float := PrimFloat.sub (PrimFloat.add x two52) two52.

(** numpy's [round(x, 1)]. *)
Definition round1 (x : float) : float :=
  PrimFloat.div (rint (PrimFloat.mul x (of_nat 10))) (of_nat 10).

(** [round(count / n_total * 100, 1)]. *)
Definition percentage (count n_total : nat) : float :=
  round1 (PrimFloat.mul (PrimFloat.div (of_nat count) (of_nat n_total)) (of_nat 100)).

(** The binary64 value nearest to a number of tenths. *)
Definition of_tenths (t : nat) : float := PrimFloat.div (of_nat t) (of_nat 10).

End Binary64.

(** [sorted(l, key=...)] and [list.sort]: a stable sort, given as the
    insertion sort that yields the same list as any stable sort.
    [le x y] says that [x] may stand before [y]. *)
Section StableSort.
Context {A : Type} (le : A -> A -> bool).

Fixpoint insert_sorted (x : A) (l : list A) : list A :=
  match l with
  | [] => [x]
  | y :: t => if le x y then x :: y :: t else y :: insert_sorted x t
  end.

Definition stable_sort (l : list A) : list A :=
  fold_right insert_sorted [] l.
End StableSort.

(** [key=lambda x: x["Count"], reverse=True]. *)
Definition by_key_desc {A} (key : A -> nat) (x y : A) : bool := key y <=? key x.

(** Python's [str] order (code points, which is the byte order of UTF-8). *)
Definition str_le (a b : string) : bool := String.leb a b.

(* ================================================================== *)
(** * The pandas operations the scripts use                            *)
(* ================================================================== *)

Module Pandas.

(** A [Series] of counts indexed by label. *)
Definition counts := list (string * nat).

Fixpoint bump (k : string) (acc : counts) : counts :=
  match acc with
  | [] => [(k, 1)]
  | (k', c) :: t => if String.eqb k' k then (k', S c) :: t else (k', c) :: bump k t
  end.

(** The hash-table pass of [value_counts]: labels in order of first
    appearance, NULL cells dropped ([dropna=True]). *)
Definition tally (col : list (option string)) : counts :=
  fold_left (fun acc cell => match cell with
                             | Some k => bump k acc
                             | None => acc
                             end) col [].

(** [Series.value_counts()]: counts in descending order.  pandas leaves
    the order among equal counts to the sort it delegates to; here such
    labels keep their order of first appearance. *)
Definition value_counts (col : list (option string)) : counts :=
  stable_sort (by_key_desc snd) (tally col).

(** [Series.sort_index()] on a label index. *)
Definition sort_index (s : counts) : counts :=
  stable_sort (fun x y => str_le (fst x) (fst y)) s.

Definition index (s : counts) : list string := map fst s.

(** [s.get(label)], [None] when the label is not in the index. *)
Fixpoint lookup (label : string) (s : counts) : option nat :=
  match s with
  | [] => None
  | (k, c) :: t => if String.eqb k label then Some c else lookup label t
  end.

(** [s[label]] for a label taken from the index itself. *)
Definition at_label (s : counts) (label : string) : nat :=
  match lookup label s with Some c => c | None => 0 end.

(** [Series.nunique()]: the number of distinct non-null values. *)
Definition nunique (col : list (option string)) : nat := length (tally col).

(** [Series.notna().sum()]. *)
Definition notna_sum {A} (col : list (option A)) : nat :=
  length (filter (fun c => match c with Some _ => true | None => false end) col).

(** [df.groupby(key).size()]: group sizes by ascending key, NULL keys
    dropped. *)
Definition groupby_size (col : list (option string)) : counts :=
  sort_index (tally col).

Definition max_count (s : counts) : nat := fold_right Nat.max 0 (map snd s).

(** [Series.idxmax()]: the first label that carries the largest value. *)
Definition idxmax (s : counts) : option string :=
  match filter (fun e => snd e =? max_count s) s with
  | [] => None
  | (k, _) :: _ => Some k
  end.

(** [Series.mode()]: the most frequent values, in ascending order. *)
Definition mode (col : list (option string)) : list string :=
  let t := tally col in
  index (sort_index (filter (fun e => snd e =? max_count t) t)).

(** [Series.min()] and [Series.max()] of a numeric column; [None] is the
    NaN of an empty or all-null column. *)
Definition fold_opt (f : Z -> Z -> Z) (col : list (option Z)) : option Z :=
  fold_left (fun acc c => match c, acc with
                          | Some y, Some a => Some (f a y)
                          | Some y, None => Some y
                          | None, _ => acc
                          end) col None.
Definition col_min := fold_opt Z.min.
Definition col_max := fold_opt Z.max.

(** The characters that make [csv.QUOTE_MINIMAL] quote a field. *)
Definition dquote : ascii := ascii_of_nat 34.
Definition newline : ascii := ascii_of_nat 10.
Definition creturn : ascii := ascii_of_nat 13.

Fixpoint needs_quote (s : string) : bool :=
  match s with
  | EmptyString => false
  | String c s' =>
      Ascii.eqb c "," || Ascii.eqb c dquote || Ascii.eqb c newline
      || Ascii.eqb c creturn || needs_quote s'
  end.

Fixpoint double_quotes (s : string) : string :=
  match s with
  | EmptyString => EmptyString
  | String c s' =>
      if Ascii.eqb c dquote then String c (String c (double_quotes s'))
      else String c (double_quotes s')
  end.

Definition csv_quote (s : string) : string :=
  if needs_quote s
  then String dquote (double_quotes s ++ String dquote EmptyString)
  else s.

Definition csv_field (v : value) : string :=
  match v with
  | VStr s => csv_quote s
  | VInt n => str_of_nat n
  | VFloat NaN => EmptyString   (* [na_rep] *)
  | VFloat x => str_of_float1 x
  end.

Fixpoint join (sep : string) (l : list string) : string :=
  match l with
  | [] => EmptyString
  | [x] => x
  | x :: t => x ++ sep ++ join sep t
  end.

Definition csv_line (fields : list string) : string :=
  join "," fields ++ String newline EmptyString.

(** The byte order mark that the encoding [utf-8-sig] writes first. *)
Definition utf8_bom : string :=
  String (ascii_of_nat 239) (String (ascii_of_nat 187) (String (ascii_of_nat 191) EmptyString)).

(** [DataFrame.to_csv(path, index=False, encoding="utf-8-sig")]: the
    header of column names, then one line per row.  The columns are the
    keys of the rows, which all rows of a table share. *)
Definition to_csv (columns : list string) (t : table) : string :=
  utf8_bom ++ csv_line (map csv_quote columns)
  ++ String.concat EmptyString (map (fun r => csv_line (map (fun kv => csv_field (snd kv)) r)) t).

End Pandas.

(* ================================================================== *)
(** * The relational store                                             *)
(* ================================================================== *)

(** A row of the [classification] table (the columns the scripts read). *)
Record ClassRow : Type := {
  Classification : option string;
  Method_clean : option string;
  Study_region_clean : option string;
  Decade : option string;
  Year_numeric : option Z
}.

Definition ClassFrame := list ClassRow.

(** A row of the [water_values] table.  [Paper_year] stands for the
    column of that name, or for [Year] in a table that has no
    [Paper_year] column; of [WV_median_raw] only the nullness is read. *)
Record WvRow : Type := {
  ID : option string;
  Country_clean : option string;
  Continent : option string;
  wv_Method_clean : option string;
  Method_detail : option string;
  Purpose_clean : option string;
  units_clean : option string;
  Paper_year : option Z;
  WV_median_raw : option Z
}.

Definition WvFrame := list WvRow.

Record Database : Type := {
  classification : ClassFrame;
  water_values : WvFrame
}.

(* ================================================================== *)
(** * Files, the clock and the programs that use them                  *)
(* ================================================================== *)

(** What a script leaves at a path.  CSV files are held byte for byte;
    the text files by their parts (the [Generated:] time stamp and the
    values that are formatted into the body); an image by its name; a
    directory that was made and may be empty. *)
Inductive content : Type :=
| Csv (bytes : string)
| FormattedTables (generated : string) (sections : list (string * table))
| Report (generated : string)
| Captions (generated : string)
| Caption
| Figure (name : string)
| Directory.

(** The surroundings of one run: the SQLite file at its fixed path
    ([None] when the file does not exist), the reading of
    [datetime.now()], and the files under the output directories. *)
Record World : Type := {
  store : option Database;
  now : string;
  files : list (string * content)
}.

Definition prog (A : Type) : Type := World -> result A * World.

Definition ret {A} (a : A) : prog A := fun w => (Ok a, w).

Definition lift {A} (r : result A) : prog A := fun w => (r, w).

Definition seq_prog {A B} (p : prog A) (k : A -> prog B) : prog B :=
  fun w => match p w with
           | (Ok a, w') => k a w'
           | (Raise e, w') => (Raise e, w')
           end.

Notation "x <<- p ;; k" := (seq_prog p (fun x => k))
  (at level 61, p at next level, right associativity).

(** [open(path, "w")] and the write that follows, in a directory that
    the script has made with [mkdir(parents=True, exist_ok=True)]: the file
    is replaced. *)
Definition write (path : string) (c : content) : prog unit :=
  fun w => (Ok tt,
            {| store := store w; now := now w;
               files := (path, c)
                        :: filter (fun f => negb (String.eqb (fst f) path)) (files w) |}).

(** Whether [dir] is a directory: it was made as one, or a file lies
    under it.  The second and third generator make [figures/] themselves
    before their first write; their directory is recorded through the
    files written into it. *)
Definition is_dir (dir : string) (w : World) : bool :=
  existsb (fun f => match snd f with
                    | Directory => String.eqb (fst f) dir
                    | _ => false
                    end || String.prefix (dir ++ "/") (fst f))
          (files w).

(** [open(dir / name, "w")] and the write that follows, where the script
    has not made the directory: [open] raises FileNotFoundError when the
    directory does not exist. *)
Definition open_write (dir name : string) (c : content) : prog unit :=
  fun w => if is_dir dir w then write (dir ++ "/" ++ name) c w
           else (Raise (FileNotFoundError
                          ("[Errno 2] No such file or directory: '"
                           ++ dir ++ "/" ++ name ++ "'")),
                 w).

Definition read_file (path : string) (w : World) : option content :=
  match filter (fun f => String.eqb (fst f) path) (files w) with
  | [] => None
  | f :: _ => Some (snd f)
  end.

Definition timestamp : prog string := fun w => (Ok (now w), w).

Definition SQLITE_PATH : string := "data/water_value_database.db".

(** [load_data] of the three generators: the check that stands before
    the connection is opened. *)
Definition load_data : prog Database :=
  fun w => match store w with
           | None =>
               (Raise (FileNotFoundError
                         ("SQLite database not found: " ++ SQLITE_PATH
                          ++ String (ascii_of_nat 10)
                               "Run 01_data_preparation.py and 02_derived_variables.py first.")),
                w)
           | Some db => (Ok db, w)
           end.

(* ================================================================== *)
(** * scripts/01_summary_tables.py                                     *)
(* ================================================================== *)

Module SummaryTables.

Definition CATEGORY_NAMES : list (string * string) :=
  [ ("A", "Hydropower scheduling and water values");
    ("B", "Stochastic programming for hydropower");
    ("C", "Hydro-economic modelling");
    ("D", "Irrigation and agricultural water value");
    ("E", "Urban and municipal water value");
    ("F", "Environmental and ecological water value");
    ("G", "Multi-purpose reservoir operation");
    ("H", "Water markets and pricing");
    ("R", "Review / Other") ].

Fixpoint dict_get (key : string) (d : list (string * string)) (default : string) : string :=
  match d with
  | [] => default
  | (k, v) :: t => if String.eqb k key then v else dict_get key t default
  end.

(** Table 1: papers by classification category. *)
Definition generate_classification_table (df : ClassFrame) : table :=
  let n_total := length df in
  let counts := Pandas.sort_index (Pandas.value_counts (map Classification df)) in
  let rows :=
    map (fun cat =>
           let count := Pandas.at_label counts cat in
           [ ("Category", VStr cat);
             ("Category_Name",
               VStr (dict_get cat CATEGORY_NAMES "[Category name — see article.txt]"));
             ("Count", VInt count);
             ("Percentage", VFloat (np_percentage count n_total)) ])
        (stable_sort str_le (Pandas.index counts)) in
  rows ++ [ [ ("Category", VStr "Total");
              ("Category_Name", VStr EmptyString);
              ("Count", VInt n_total);
              ("Percentage", VFloat (Tenths 1000)) ] ].

(** Table 2: papers by method type. *)
Definition generate_method_table (df : ClassFrame) : table :=
  let n_total := length df in
  let counts := Pandas.value_counts (map Method_clean df) in
  let rows :=
    map (fun '(method, count) =>
           [ ("Method", VStr method);
             ("Count", VInt count);
             ("Percentage", VFloat (np_percentage count n_total)) ])
        counts in
  let rows := stable_sort (by_key_desc (Count_of "Count")) rows in
  rows ++ [ [ ("Method", VStr "Total");
              ("Count", VInt n_total);
              ("Percentage", VFloat (Tenths 1000)) ] ].

Definition always_show : list string := ["Not specified"; "Synthetic/Theoretical"].

Definition mem (s : string) (l : list string) : bool := existsb (String.eqb s) l.

(** The accumulators of the bucketing loop of Table 3. *)
Record Buckets : Type := {
  main_entries : list (string * nat);
  other_count : nat;
  n_other_entries : nat
}.

Definition bucket_step (b : Buckets) (entry : string * nat) : Buckets :=
  let '(region, count) := entry in
  if mem region always_show then
    {| main_entries := main_entries b ++ [(region, count)];
       other_count := other_count b; n_other_entries := n_other_entries b |}
  else if 3 <=? count then
    {| main_entries := main_entries b ++ [(region, count)];
       other_count := other_count b; n_other_entries := n_other_entries b |}
  else
    {| main_entries := main_entries b;
       other_count := other_count b + count;
       n_other_entries := n_other_entries b + 1 |}.

Definition region_buckets (raw_counts : Pandas.counts) : Buckets :=
  fold_left bucket_step raw_counts
            {| main_entries := []; other_count := 0; n_other_entries := 0 |}.

Definition region_row (n_total : nat) (entry : string * nat) : record :=
  [ ("Country_or_Region", VStr (fst entry));
    ("Count", VInt (snd entry));
    ("Percentage", VFloat (np_percentage (snd entry) n_total)) ].

Definition other_label (n : nat) : string :=
  "Other (" ++ str_of_nat n ++ " countries/regions)".

(** The rows of Table 3 ahead of the sort: one per main entry, then the
    bucket row when the bucket is not empty. *)
Definition region_rows_unsorted (n_total : nat) (b : Buckets) : list record :=
  map (region_row n_total) (main_entries b) ++
  (if 0 <? other_count b
   then [ region_row n_total (other_label (n_other_entries b), other_count b) ]
   else []).

(** Table 3: papers by study region / country. *)
Definition generate_region_table (df : ClassFrame) : result table :=
  let n_total := length df in
  let raw_counts := Pandas.value_counts (map Study_region_clean df) in
  let b := region_buckets raw_counts in
  let rows := region_rows_unsorted n_total b in
  let rows := stable_sort (by_key_desc (Count_of "Count")) rows in
  let table := rows ++ [ [ ("Country_or_Region", VStr "Total");
                           ("Count", VInt n_total);
                           ("Percentage", VFloat (Tenths 1000)) ] ] in
  (* the share of "Not specified" for the printed note *)
  _ <- match Pandas.lookup "Not specified" raw_counts with
       | Some c => Ok (np_percentage c n_total)
       | None => py_percentage 0 n_total
       end ;;
  Ok table.

Definition decade_order : list string :=
  ["Pre-2000"; "2000–2004"; "2005–2009"; "2010–2014"; "2015–2019"; "2020–2025"].

(** One pass of the loop of Table 4: [decade_counts.get(decade, 0)] is a
    numpy count when the label is present and the Python [0] otherwise. *)
Definition year_row (decade_counts : Pandas.counts) (n_total : nat) (decade : string)
  : result record :=
  match Pandas.lookup decade decade_counts with
  | Some count =>
      Ok [ ("Year_Range", VStr decade);
           ("Count", VInt count);
           ("Percentage", VFloat (np_percentage count n_total)) ]
  | None =>
      pct <- py_percentage 0 n_total ;;
      Ok [ ("Year_Range", VStr decade);
           ("Count", VInt 0);
           ("Percentage", VFloat pct) ]
  end.

Fixpoint for_each {A B} (f : A -> result B) (l : list A) : result (list B) :=
  match l with
  | [] => Ok []
  | x :: t => y <- f x ;; ys <- for_each f t ;; Ok (y :: ys)
  end.

(** Table 4: papers by publication year range. *)
Definition generate_year_table (df : ClassFrame) : result table :=
  let n_total := length df in
  let decade_counts := Pandas.value_counts (map Decade df) in
  rows <- for_each (year_row decade_counts n_total) decade_order ;;
  Ok (rows ++ [ [ ("Year_Range", VStr "Total");
                  ("Count", VInt n_total);
                  ("Percentage", VFloat (Tenths 1000)) ] ]).

(** Table 5: water value summary statistics, a two-column table of
    strings. *)
Definition first_mode (col : list (option string)) : result string :=
  match Pandas.mode col with
  | [] => Raise IndexError          (* [.iloc[0]] of an empty Series *)
  | m :: _ => Ok m
  end.

(** [int(x)] of a column minimum or maximum: NaN cannot be converted. *)
Definition int_of (x : option Z) : result Z :=
  match x with
  | Some z => Ok z
  | None => Raise ValueError
  end.

Definition stat (name val : string) : record :=
  [ ("Statistic", VStr name); ("Value", VStr val) ].

Definition generate_wv_summary_table (df_class : ClassFrame) (df_wv : WvFrame)
  : result table :=
  let n_papers_with_wv := Pandas.nunique (map ID df_wv) in
  let n_data_points := length df_wv in
  let n_countries := Pandas.nunique (map Country_clean df_wv) in
  let n_continents := Pandas.nunique (map Continent df_wv) in
  let n_methods_clean := Pandas.nunique (map wv_Method_clean df_wv) in
  let n_methods_detail := Pandas.nunique (map Method_detail df_wv) in
  let n_purposes := Pandas.nunique (map Purpose_clean df_wv) in
  let n_units := Pandas.nunique (map units_clean df_wv) in
  yr_min <- int_of (Pandas.col_min (map Paper_year df_wv)) ;;
  yr_max <- int_of (Pandas.col_max (map Paper_year df_wv)) ;;
  most_common_purpose <- first_mode (map Purpose_clean df_wv) ;;
  most_common_unit <- first_mode (map units_clean df_wv) ;;
  most_common_country <- first_mode (map Country_clean df_wv) ;;
  most_common_method <- first_mode (map wv_Method_clean df_wv) ;;
  let points_per_paper := Pandas.groupby_size (map ID df_wv) in
  let max_points := Pandas.max_count points_per_paper in
  max_paper_id <- match Pandas.idxmax points_per_paper with
                  | Some k => Ok k
                  | None => Raise ValueError   (* [idxmax] of an empty Series *)
                  end ;;
  (* [f"{points_per_paper.mean():.1f}"] and the share of filled medians:
     exact quotients rounded half to even, where the code formats the
     binary64 value; they can differ by a tenth at an exact tie *)
  let avg_points :=
    round_half_even (10 * Pandas.notna_sum (map ID df_wv)) (length points_per_paper) in
  let n_median_filled := Pandas.notna_sum (map WV_median_raw df_wv) in
  let pct_median := round_half_even (1000 * n_median_filled) n_data_points in
  Ok [ stat "Total papers reporting numerical water values" (str_of_nat n_papers_with_wv);
       stat "Total water value data points" (str_of_nat n_data_points);
       stat "Countries represented" (str_of_nat n_countries);
       stat "Continents represented" (str_of_nat n_continents);
       stat "Method categories (manuscript-level)" (str_of_nat n_methods_clean);
       stat "Method types (detailed)" (str_of_nat n_methods_detail);
       stat "Purpose categories" (str_of_nat n_purposes);
       stat "Unique unit types" (str_of_nat n_units);
       stat "Publication year range" (str_of_Z yr_min ++ "–" ++ str_of_Z yr_max);
       stat "Most common purpose" most_common_purpose;
       stat "Most common unit" most_common_unit;
       stat "Most common country" most_common_country;
       stat "Most common method" most_common_method;
       stat "Average data points per paper" (str_of_tenths avg_points);
       stat "Maximum data points (single paper)"
            (str_of_nat max_points ++ " (ID: " ++ max_paper_id ++ ")");
       stat "WV_median_raw completeness"
            (str_of_nat n_median_filled ++ "/" ++ str_of_nat n_data_points
             ++ " (" ++ str_of_tenths pct_median ++ "%)") ].

(** The rows of one purpose: [groupby("Purpose_clean")]. *)
Definition group_of (purpose : string) (df_wv : WvFrame) : WvFrame :=
  filter (fun r => match Purpose_clean r with
                   | Some p => String.eqb p purpose
                   | None => false
                   end) df_wv.

Definition purpose_row (n_total : nat) (df_wv : WvFrame) (purpose : string) : record :=
  let g := group_of purpose df_wv in
  [ ("Purpose", VStr purpose);
    ("Data_Points_Count", VInt (length g));
    ("Papers_Count", VInt (Pandas.nunique (map ID g)));
    ("Countries_Count", VInt (Pandas.nunique (map Country_clean g)));
    ("Continents_Count", VInt (Pandas.nunique (map Continent g)));
    ("Pct_of_Data_Points", VFloat (np_percentage (length g) n_total)) ].

(** Table 6: water values by purpose. *)
Definition generate_wv_purpose_table (df_wv : WvFrame) : table :=
  let n_total := length df_wv in
  let purposes := Pandas.index (Pandas.groupby_size (map Purpose_clean df_wv)) in
  let purpose_stats :=
    stable_sort (by_key_desc (Count_of "Data_Points_Count"))
                (map (purpose_row n_total df_wv) purposes) in
  purpose_stats ++
  [ [ ("Purpose", VStr "Total");
      ("Data_Points_Count", VInt n_total);
      ("Papers_Count", VInt (Pandas.nunique (map ID df_wv)));
      ("Countries_Count", VInt (Pandas.nunique (map Country_clean df_wv)));
      ("Continents_Count", VInt (Pandas.nunique (map Continent df_wv)));
      ("Pct_of_Data_Points", VFloat (Tenths 1000)) ] ].

(** The six tables of a run, [tables["table_1"]] to [tables["table_6"]]. *)
Record Tables : Type := {
  table_1 : table; table_2 : table; table_3 : table;
  table_4 : table; table_5 : table; table_6 : table
}.

Definition columns (t : table) : list string :=
  match t with
  | [] => []
  | r :: _ => map fst r
  end.

Definition csv_names (t : Tables) : list (string * table) :=
  [ ("table_1_classification.csv", table_1 t);
    ("table_2_methods.csv", table_2 t);
    ("table_3_regions.csv", table_3 t);
    ("table_4_years.csv", table_4 t);
    ("table_5_wv_summary.csv", table_5 t);
    ("table_6_wv_purpose.csv", table_6 t) ].

Definition TABLES_DIR : string := "tables".
Definition FIGURES_DIR : string := "figures".

Definition path_in (dir name : string) : string := dir ++ "/" ++ name.

Fixpoint write_all (l : list (string * content)) : prog unit :=
  match l with
  | [] => ret tt
  | (path, c) :: t => _ <<- write path c ;; write_all t
  end.

(** The percentage of the first row of Table 3 labelled "Not specified",
    for the caption of Table 3. *)
Definition not_spec_pct (t3 : table) : string :=
  match filter (fun r => match get "Country_or_Region" r with
                         | Some (VStr s) => String.eqb s "Not specified"
                         | _ => false
                         end) t3 with
  | r :: _ => match get "Percentage" r with
              | Some (VFloat x) => str_of_float1 x
              | _ => "0.0"
              end
  | [] => "0.0"
  end.

Definition captions (t3 : table) : list string :=
  [
    ("Table 1. Distribution of 277 classified papers across nine "
     ++ "classification categories. Category definitions are provided "
     ++ "in the companion article [REF-companion].")%string;
    ("Table 2. Distribution of optimization and analysis methods "
     ++ "used across the 277 classified papers, grouped by manuscript-"
     ++ "level method categories (Method_clean) and broad methodological "
     ++ "approach (Method_category).")%string;
    ("Table 3. Geographic distribution of study regions across the "
     ++ "277 classified papers. Countries or regions with fewer than 3 "
     ++ "papers are grouped under 'Other'. Approximately " ++ not_spec_pct t3 ++ "% "
     ++ "of papers did not specify a study region.")%string;
    ("Table 4. Temporal distribution of the 277 classified papers "
     ++ "by publication year range.")%string;
    ("Table 5. Summary statistics of the water value dataset "
     ++ "extracted from papers reporting numerical water values.")%string;
    ("Table 6. Distribution of water value data points by water use "
     ++ "purpose, showing the number of data points, papers, countries, "
     ++ "and continents represented for each purpose category.")%string ].

(** [export_tables]: the six CSV files, then the formatted text file,
    in [tables/], which [TABLES_DIR.mkdir(parents=True, exist_ok=True)]
    makes first. *)
Definition export_tables (t : Tables) : prog unit :=
  _ <<- write_all (map (fun '(filename, tab) =>
                          (path_in TABLES_DIR filename, Csv (Pandas.to_csv (columns tab) tab)))
                       (csv_names t)) ;;
  generated <<- timestamp ;;
  write (path_in TABLES_DIR "all_tables_formatted.txt")
        (FormattedTables generated
           (combine (captions (table_3 t)) (map snd (csv_names t)))).

(** [save_report]: the script makes [tables/] in [export_tables] but
    never [figures/], where the report goes. *)
Definition save_report : prog unit :=
  generated <<- timestamp ;;
  open_write FIGURES_DIR "summary_tables_report.txt" (Report generated).

(** [main] of 01_summary_tables.py. *)
Definition main : prog Tables :=
  db <<- load_data ;;
  let df_class := classification db in
  let df_wv := water_values db in
  let t1 := generate_classification_table df_class in
  let t2 := generate_method_table df_class in
  t3 <<- lift (generate_region_table df_class) ;;
  t4 <<- lift (generate_year_table df_class) ;;
  t5 <<- lift (generate_wv_summary_table df_class df_wv) ;;
  let t6 := generate_wv_purpose_table df_wv in
  let tables := {| table_1 := t1; table_2 := t2; table_3 := t3;
                   table_4 := t4; table_5 := t5; table_6 := t6 |} in
  _ <<- export_tables tables ;;
  _ <<- save_report ;;
  ret tables.

End SummaryTables.

(* ================================================================== *)
(** * scripts/02_completeness_heatmap.py                               *)
(* ================================================================== *)

Module Completeness.

Definition FIGURES_DIR : string := "figures".

(** ** [calculate_completeness] *)

Definition DERIVED_COLS_CLASSIFICATION : list string :=
  [ "Year_numeric"; "Decade"; "Has_water_value";
    "Method_clean"; "Method_category"; "Method_detail";
    "Study_region_clean"; "Study_region_continent" ].

Definition DERIVED_COLS_WATERVALUE : list string :=
  [ "Country_clean"; "Purpose_clean"; "Continent";
    "Method_clean"; "Method_category"; "Method_detail";
    "units_clean" ].

(** A frame as [isna()] sees it: each column with its name and, row by
    row, whether the cell is NULL.  The columns of a frame have the same
    number of rows. *)
Definition NullFrame := list (string * list bool).

Definition mem (s : string) (l : list string) : bool := existsb (String.eqb s) l.

(** [exclude_map.get(name, set())]. *)
Definition exclude_map (name : string) : list string :=
  if String.eqb name "01_Screening" then []
  else if String.eqb name "02_Classification" then DERIVED_COLS_CLASSIFICATION
  else if String.eqb name "03_WaterValue" then DERIVED_COLS_WATERVALUE
  else [].

Definition non_null (isna : list bool) : nat := length (filter negb isna).

(** [((1 - isna().mean()) * 100).round(0).astype(int)] of one column:
    the share of cells that are not NULL, in percent, rounded half to even.
    The mean of no row is NaN, which [astype(int)] refuses.  The share is
    held exactly; the code rounds its binary64 value, which gives the same
    integer except where the exact share is a tie between two integers (1
    cell of 40 is 2.5: 3 in binary64, 2 here).  Both are within half a
    point of the exact share, and the properties of the percentages state
    no more than that. *)
Definition column_pct (isna : list bool) : result nat :=
  match isna with
  | [] => Raise ValueError
  | _ => Ok (round_half_even (100 * non_null isna) (length isna))
  end.

(** The kept columns of one frame with their percentages. *)
Definition frame_completeness (name : string) (df : NullFrame)
  : result (list (string * nat)) :=
  let exclude := exclude_map name in
  let cols := filter (fun c => negb (mem (fst c) exclude)) df in
  SummaryTables.for_each (fun c => pct <- column_pct (snd c) ;; Ok (fst c, pct)) cols.

Definition calculate_completeness (dfs : list (string * NullFrame))
  : result (list (string * list (string * nat))) :=
  SummaryTables.for_each
    (fun '(name, df) => pct <- frame_completeness name df ;; Ok (name, pct)) dfs.

(** The mark printed beside a percentage. *)
Definition icon (val : nat) : string :=
  if val =? 100 then "✓" else if 50 <=? val then "⚠" else "✗".

(** The three counts of [print_completeness_summary]: columns at 100 %,
    between, and at 0 %. *)
Definition summary_counts (pct : list nat) : nat * nat * nat :=
  (length (filter (fun v => v =? 100) pct),
   length (filter (fun v => (0 <? v) && (v <? 100)) pct),
   length (filter (fun v => v =? 0) pct)).

Section Main.
(** The outcome of [calculate_completeness] and of drawing the heat map
    with matplotlib, which are not embedded: [Ok] or the exception
    raised. *)
Variable heatmap : Database -> result unit.

(** [main] of 02_completeness_heatmap.py: the files it leaves. *)
Definition main : prog unit :=
  db <<- load_data ;;
  _ <<- lift (heatmap db) ;;
  _ <<- write (FIGURES_DIR ++ "/fig_completeness_heatmap.png")
              (Figure "fig_completeness_heatmap") ;;
  _ <<- write (FIGURES_DIR ++ "/fig_completeness_heatmap.pdf")
              (Figure "fig_completeness_heatmap") ;;
  _ <<- write (FIGURES_DIR ++ "/fig_completeness_heatmap_caption.txt") Caption ;;
  generated <<- timestamp ;;
  write (FIGURES_DIR ++ "/completeness_heatmap_report.txt") (Report generated).
End Main.

End Completeness.

(* ================================================================== *)
(** * scripts/03_analytical_charts.py                                  *)
(* ================================================================== *)

Module Charts.

Definition FIGURES_DIR : string := "figures".

Definition METHOD_ORDER : list string :=
  ["LP"; "MILP"; "SDP"; "SDDP"; "Econ-Engi"; "Other"; "Not available"].

Definition mem (s : string) (l : list string) : bool := existsb (String.eqb s) l.

(** ** Chart 1: the series behind the trend lines *)

(** The index of [pd.crosstab(Year_numeric, Method_clean)]: the years of
    the rows that have both cells. *)
Definition crosstab_years (df : ClassFrame) : list Z :=
  flat_map (fun r => match Year_numeric r, Method_clean r with
                     | Some y, Some _ => [y]
                     | _, _ => []
                     end) df.

(** [year_totals[y]]: the row sum over the columns of [METHOD_ORDER]. *)
Definition year_total (df : ClassFrame) (y : Z) : nat :=
  length (filter (fun r => match Year_numeric r, Method_clean r with
                           | Some y', Some m => Z.eqb y' y && mem m METHOD_ORDER
                           | _, _ => false
                           end) df).

(** [range(a, b)] over the integers. *)
Definition range (a b : Z) : list Z :=
  map (fun i => (a + Z.of_nat i)%Z) (seq 0 (Z.to_nat (b - a))).

Definition min_list (l : list Z) : option Z :=
  match l with
  | [] => None
  | x :: t => Some (fold_left Z.min t x)
  end.

Definition max_list (l : list Z) : option Z :=
  match l with
  | [] => None
  | x :: t => Some (fold_left Z.max t x)
  end.

(** The first year that opens a three-year window holding two papers. *)
Definition start_year (df : ClassFrame) (year_min year_max : Z) : Z :=
  match filter (fun yr => 2 <=? year_total df yr + year_total df (yr + 1)
                                 + year_total df (yr + 2))
               (range year_min year_max) with
  | [] => year_min
  | yr :: _ => yr
  end.

(** [annual_totals]: the papers of each year from [start_year] to
    [year_max], years without papers counted as 0.  [int()] of the NaN
    that an empty index gives raises [ValueError]. *)
Definition annual_totals (df : ClassFrame) : result (list nat) :=
  match min_list (crosstab_years df), max_list (crosstab_years df) with
  | Some year_min, Some year_max =>
      let start := start_year df year_min year_max in
      Ok (map (year_total df) (range start (year_max + 1)))
  | _, _ => Raise ValueError
  end.

(** [Series.rolling(window, center=True, min_periods).mean()] on a series
    without NaN: the window of index [i] ends before [i + 1 + offset] and
    spans [window] places, cut to the series; the mean is undefined
    ([None], pandas' NaN) below [min_periods] observations. *)
Definition window_bounds (window n i : nat) : nat * nat :=
  let offset := (window - 1) / 2 in
  let stop := Nat.min (i + 1 + offset) n in
  let start := Nat.min (i + 1 + offset - window) n in
  (start, stop).

Definition window_values (window : nat) (xs : list nat) (i : nat) : list nat :=
  let '(start, stop) := window_bounds window (length xs) i in
  firstn (stop - start) (skipn start xs).

Definition rolling_mean (window min_periods : nat) (xs : list nat) : list (option Q) :=
  map (fun i => let w := window_values window xs i in
                if length w <? min_periods then None
                else Some (Z.of_nat (list_sum w) # Pos.of_nat (length w)))
      (seq 0 (length xs)).

Definition ma_3yr (annual : list nat) : list (option Q) := rolling_mean 3 2 annual.
Definition ma_5yr (annual : list nat) : list (option Q) := rolling_mean 5 3 annual.

(** ** Chart 2: the bars of the geographic distribution *)

Definition special_categories : list string := ["Not specified"; "Synthetic/Theoretical"].

Definition special_counts (region_counts : Pandas.counts) : Pandas.counts :=
  filter (fun e => mem (fst e) special_categories) region_counts.

Definition regular_counts (region_counts : Pandas.counts) : Pandas.counts :=
  filter (fun e => negb (mem (fst e) special_categories)) region_counts.

Definition regular_sorted (region_counts : Pandas.counts) : Pandas.counts :=
  stable_sort (by_key_desc snd) (regular_counts region_counts).

Definition top_15 (region_counts : Pandas.counts) : Pandas.counts :=
  firstn 15 (regular_sorted region_counts).

Definition beyond_15 (region_counts : Pandas.counts) : Pandas.counts :=
  skipn 15 (regular_sorted region_counts).

Definition other_label (n : nat) : string := "Other (" ++ str_of_nat n ++ " regions)".

(** [display_data], bottom bar first. *)
Definition display_data (region_counts : Pandas.counts) : list (string * nat) :=
  let other_count := list_sum (map snd (beyond_15 region_counts)) in
  let n_other := length (beyond_15 region_counts) in
  flat_map (fun cat => match Pandas.lookup cat (special_counts region_counts) with
                       | Some c => [(cat, c)]
                       | None => []
                       end) ["Not specified"; "Synthetic/Theoretical"]
  ++ (if 0 <? other_count then [(other_label n_other, other_count)] else [])
  ++ rev (top_15 region_counts).

(** The bars of Chart 2, up to the calls that can fail before the figure
    is saved: the share of "Not specified" that is printed, and
    [max(counts)] for the axis limit. *)
Definition create_geographic_distribution (df : ClassFrame)
  : result (list (string * nat)) :=
  let n_total := length df in
  let region_counts := Pandas.value_counts (map Study_region_clean df) in
  let bars := display_data region_counts in
  _ <- match Pandas.lookup "Not specified" (special_counts region_counts) with
       | Some c => Ok (np_percentage c n_total)
       | None => py_percentage 0 n_total
       end ;;
  match bars with
  | [] => Raise ValueError        (* [max()] of an empty sequence *)
  | _ => Ok bars
  end.

(** ** Chart 5: the category by method table *)

Definition CATEGORY_ORDER : list string := ["A"; "B"; "C"; "D"; "E"; "F"; "G"; "H"; "R"].

(** The category and the method of the rows that have both:
    [pd.crosstab] drops the others. *)
Definition both_cells (df : ClassFrame) : list (string * string) :=
  flat_map (fun r => match Classification r, Method_clean r with
                     | Some c, Some m => [(c, m)]
                     | _, _ => []
                     end) df.

(** [crosstab.index] and [crosstab.columns]: the labels that occur, in
    ascending order. *)
Definition crosstab_index (df : ClassFrame) : list string :=
  Pandas.index (Pandas.groupby_size (map (fun p => Some (fst p)) (both_cells df))).

Definition crosstab_columns (df : ClassFrame) : list string :=
  Pandas.index (Pandas.groupby_size (map (fun p => Some (snd p)) (both_cells df))).

Definition crosstab_cell (df : ClassFrame) (c m : string) : nat :=
  length (filter (fun p => String.eqb (fst p) c && String.eqb (snd p) m) (both_cells df)).

(** [for c in labels: if c not in order: order.append(c)]. *)
Definition append_missing (order labels : list string) : list string :=
  fold_left (fun order c => if mem c order then order else order ++ [c]) labels order.

(** The labels of a predefined order that are present, then the others. *)
Definition label_order (predefined present : list string) : list string :=
  append_missing (filter (fun c => mem c present) predefined) present.

Definition row_order (df : ClassFrame) : list string :=
  label_order CATEGORY_ORDER (crosstab_index df).

Definition col_order (df : ClassFrame) : list string :=
  label_order METHOD_ORDER (crosstab_columns df).

(** [crosstab.reindex(index=row_order, columns=col_order, fill_value=0)]:
    the rows of the heat map, each with its label and its counts. *)
Definition category_method_table (df : ClassFrame) : list (string * list nat) :=
  map (fun c => (c, map (crosstab_cell df c) (col_order df))) (row_order df).

Section Main.
(** The outcome of the aggregation and drawing of one chart with
    matplotlib and seaborn, by the name of its figure: [Ok] or the
    exception raised.  The drawing is not embedded. *)
Variable draw : string -> Database -> result unit.

Definition figure_names : list string :=
  [ "fig_year_method_stacked"; "fig_geographic_distribution";
    "fig_wv_datapoints_by_year"; "fig_continent_purpose_heatmap";
    "fig_category_method_heatmap" ].

(** One [create_*] call: the chart is drawn, then [_save_figure] writes
    the PNG and the PDF. *)
Definition create_chart (db : Database) (name : string) : prog unit :=
  _ <<- lift (draw name db) ;;
  _ <<- write (FIGURES_DIR ++ "/" ++ name ++ ".png") (Figure name) ;;
  write (FIGURES_DIR ++ "/" ++ name ++ ".pdf") (Figure name).

Fixpoint create_charts (db : Database) (names : list string) : prog unit :=
  match names with
  | [] => ret tt
  | name :: rest => _ <<- create_chart db name ;; create_charts db rest
  end.

(** [main] of 03_analytical_charts.py: the files it leaves. *)
Definition main : prog unit :=
  db <<- load_data ;;
  _ <<- create_charts db figure_names ;;
  generated <<- timestamp ;;
  _ <<- write (FIGURES_DIR ++ "/fig_analytical_charts_captions.txt") (Captions generated) ;;
  generated' <<- timestamp ;;
  write (FIGURES_DIR ++ "/analytical_charts_report.txt") (Report generated').
End Main.

End Charts.

(* ================================================================== *)
(** * scripts/04_run_pipeline.py                                       *)
(* ================================================================== *)

Module Pipeline.

Local Open Scope Z_scope.

(** Paths are written from [REPO_ROOT]. *)
Definition SCRIPTS_DIR : string := "scripts".
Definition FIGURES_DIR : string := "figures".
Definition DB_PATH : string := "data/water_value_database.db".

Record Step : Type := {
  number : Z;
  name : string;
  script : string;
  description : string;
  outputs : list string
}.

Definition fig (file : string) : string := (FIGURES_DIR ++ "/" ++ file)%string.

Definition STEPS : list Step :=
  [ {| number := 1; name := "Summary Tables"; script := "01_summary_tables.py";
       description := "Generate summary statistics tables "
                      ++ "(classification, methods, regions, years, water values)";
       outputs := [ fig "table_1_classification.csv"; fig "table_2_methods.csv";
                    fig "table_3_regions.csv"; fig "table_4_years.csv";
                    fig "table_5_wv_summary.csv"; fig "table_6_wv_purpose.csv" ] |};
    {| number := 2; name := "Completeness Heatmap"; script := "02_completeness_heatmap.py";
       description := "Generate data completeness heatmap figure";
       outputs := [ fig "fig_completeness_heatmap.png";
                    fig "fig_completeness_heatmap.pdf" ] |};
    {| number := 3; name := "Analytical Charts"; script := "03_analytical_charts.py";
       description := "Generate analytical figures "
                      ++ "(year distribution, geographic, method, water value box plot, "
                      ++ "category-method heatmap)";
       outputs := [ fig "fig_year_method_stacked.png";
                    fig "fig_geographic_distribution.png";
                    fig "fig_wv_datapoints_by_year.png";
                    fig "fig_continent_purpose_heatmap.png";
                    fig "fig_category_method_heatmap.png" ] |} ].

(** How [subprocess.run] ends. *)
Inductive outcome : Type :=
| Completed (returncode : Z)
| TimeoutExpired
| OtherException (msg : string).

(** The lines the runner prints, by their kind. *)
Inductive message : Type :=
| DatabaseNotFound            (* "✗ DATABASE NOT FOUND" *)
| DatabaseFound               (* "✓ Database found" *)
| InvalidStep (n : Z)         (* "✗ Invalid step number" *)
| StepBanner (n : Z)          (* "Step n: name" *)
| ScriptNotFound (path : string)
| Timeout                     (* "✗ TIMEOUT: Script exceeded 5 minute limit" *)
| Error (msg : string)        (* "✗ ERROR" *)
| Failed (returncode : Z)     (* "✗ FAILED: Exit code" *)
| MissingOutputs (paths : list string)  (* "⚠ MISSING OUTPUTS:" *)
| CompletedWithWarnings       (* "⚠ Step completed with warnings" *)
| CompletedSuccessfully (n : Z)
| Halted (n : Z)              (* "✗ Pipeline halted at step n" *)
| Summary (pass fail skip : nat)
| AllCompleted                (* "✓ ALL STEPS COMPLETED SUCCESSFULLY" *)
| Incomplete.                 (* "✗ PIPELINE INCOMPLETE" *)

(** The state of a run: the paths that exist, and what was printed. *)
Record State : Type := {
  fs : list string;
  console : list message
}.

Definition exists_path (path : string) (st : State) : bool :=
  existsb (String.eqb path) (fs st).

Definition print (m : message) (st : State) : State :=
  {| fs := fs st; console := (console st ++ [m])%list |}.

Definition mkdir (path : string) (st : State) : State :=
  if exists_path path st then st
  else {| fs := path :: fs st; console := console st |}.

Section Runner.
(** The child process: given the script and the paths that exist, how
    the call of [subprocess.run] ends and the paths that exist then. *)
Variable spawn : string -> list string -> outcome * list string.

Definition check_prerequisites (st : State) : bool * State :=
  if negb (exists_path DB_PATH st) then (false, print DatabaseNotFound st)
  else (true, print DatabaseFound st).

Definition run_step (step : Step) (st : State) : bool * State :=
  let st := print (StepBanner (number step)) st in
  let script_path := (SCRIPTS_DIR ++ "/" ++ script step)%string in
  if negb (exists_path script_path st) then
    (false, print (ScriptNotFound script_path) st)
  else
    let '(result, fs') := spawn script_path (fs st) in
    let st := {| fs := fs'; console := console st |} in
    match result with
    | TimeoutExpired => (false, print Timeout st)
    | OtherException e => (false, print (Error e) st)
    | Completed returncode =>
        if negb (returncode =? 0) then (false, print (Failed returncode) st)
        else
          let missing_outputs :=
            filter (fun output_path => negb (exists_path output_path st)) (outputs step) in
          match missing_outputs with
          | _ :: _ =>
              (true, print CompletedWithWarnings (print (MissingOutputs missing_outputs) st))
          | [] => (true, print (CompletedSuccessfully (number step)) st)
          end
    end.

(** The loop over [steps_to_run]; [halt] is [args.step == 0]. *)
Fixpoint run_steps (halt : bool) (steps : list Step) (results : list (Z * bool))
  (st : State) : list (Z * bool) * State :=
  match steps with
  | [] => (results, st)
  | step :: rest =>
      let '(success, st) := run_step step st in
      let results := (results ++ [(number step, success)])%list in
      if negb success && halt then (results, print (Halted (number step)) st)
      else run_steps halt rest results st
  end.

(** How [parser.parse_args()] ends: with the namespace, whose [step] is
    the integer given after [--step], or 0 without the option; or in the
    [SystemExit] of argparse, with status 2 after the usage message (an
    argument it does not know, a value that [int] refuses, as in
    [--step abc]) and with status 0 after the help text of [-h]. *)
Inductive parse_result : Type :=
| Namespace (step : Z)
| UsageError
| HelpShown.

(** What a run of [main] leaves: the exit code of the process, the
    [results] dictionary and the final state.  [main] below is the body
    of the source's [main] from [check_prerequisites()] on, for the value
    [args.step] of a parsed command line; the run starts from the paths
    that exist, with none of the messages printed. *)
Record Run : Type := {
  exit_code : Z;
  results : list (Z * bool);
  final : State
}.

Definition main (step_arg : Z) (files : list string) : Run :=
  let st := {| fs := files; console := [] |} in
  let '(ok, st) := check_prerequisites st in
  if negb ok then {| exit_code := 1; results := []; final := st |}
  else
    let selected := filter (fun s => number s =? step_arg) STEPS in
    if (0 <? step_arg) && (match selected with [] => true | _ => false end) then
      {| exit_code := 1; results := []; final := print (InvalidStep step_arg) st |}
    else
      let steps_to_run := if 0 <? step_arg then selected else STEPS in
      let st := mkdir FIGURES_DIR st in
      let '(results, st) := run_steps (step_arg =? 0) steps_to_run [] st in
      let n_pass := length (filter (fun r => snd r) results) in
      let n_fail := length (filter (fun r => negb (snd r)) results) in
      let n_skip := (length STEPS - length results)%nat in
      let st := print (Summary n_pass n_fail n_skip) st in
      if ((n_fail =? 0) && (n_skip =? 0))%nat then
        {| exit_code := 0; results := results; final := print AllCompleted st |}
      else if (0 <? n_fail)%nat then
        {| exit_code := 1; results := results; final := print Incomplete st |}
      else
        {| exit_code := 0; results := results; final := st |}.

(** The source's [main] from its first line: the command line is parsed
    before the database is looked for, and argparse ends the process by
    itself when it refuses the command line or prints the help. *)
Definition run_pipeline (args : parse_result) (files : list string) : Run :=
  match args with
  | Namespace step => main step files
  | UsageError =>
      {| exit_code := 2; results := []; final := {| fs := files; console := [] |} |}
  | HelpShown =>
      {| exit_code := 0; results := []; final := {| fs := files; console := [] |} |}
  end.

End Runner.

End Pipeline.

(* ================================================================== *)
(** * The vocabulary of the properties, and sample inputs              *)
(* ================================================================== *)

(** ** Counting and totals *)

Definition occurrences (k : string) (col : list (option string)) : nat :=
  length (filter (fun c => match c with
                           | Some x => String.eqb x k
                           | None => false
                           end) col).

Definition keys_of (c : Pandas.counts) : list string := map fst c.

Definition tally_step (acc : Pandas.counts) (cell : option string) : Pandas.counts :=
  match cell with
  | Some k => Pandas.bump k acc
  | None => acc
  end.

(** The rows of a table other than the Total row, which is the last. *)
Definition body (t : table) : list record := removelast t.

Definition total_row (t : table) : record := last t [].

Definition tenths_of (key : string) (r : record) : nat :=
  match get key r with
  | Some (VFloat (Tenths t)) => t
  | _ => 0
  end.

Definition finite_pct (key : string) (r : record) : Prop :=
  exists t, get key r = Some (VFloat (Tenths t)).

(** The counts of the body add up to the count of the Total row. *)
Definition counts_add_up (ckey : string) (t : table) : Prop :=
  list_sum (map (Count_of ckey) (body t)) = Count_of ckey (total_row t).

(** The percentages of the body are finite and add up to 100.0 up to
    the rounding of each entry: in tenths, the sum is within half a
    tenth per row of 1000. *)
Definition percentages_add_up (pkey : string) (t : table) : Prop :=
  Forall (finite_pct pkey) (body t) /\
  2 * 1000 <= 2 * list_sum (map (tenths_of pkey) (body t)) + length (body t) /\
  2 * list_sum (map (tenths_of pkey) (body t)) <= 2 * 1000 + length (body t).

Definition totals_agree (lkey ckey pkey : string) (t : table) : Prop :=
  get lkey (total_row t) = Some (VStr "Total") /\
  counts_add_up ckey t /\ percentages_add_up pkey t.

(** A body row whose percentage is the rounded share of its count. *)
Definition row_ok (ckey pkey : string) (n : nat) (r : record) : Prop :=
  get pkey r = Some (VFloat (np_percentage (Count_of ckey r) n)).

(** An entry of [raw_counts] that is listed on a row of its own, and one
    that goes to the bucket. *)
Definition listed (e : string * nat) : bool :=
  SummaryTables.mem (fst e) SummaryTables.always_show || (3 <=? snd e).

Definition bucketed (e : string * nat) : bool := negb (listed e).

(** The row of Table 4 for one label. *)
Definition year_record (decade_counts : Pandas.counts) (n_total : nat) (decade : string)
  : record :=
  [ ("Year_Range", VStr decade);
    ("Count", VInt (Pandas.at_label decade_counts decade));
    ("Percentage", VFloat (np_percentage (Pandas.at_label decade_counts decade) n_total)) ].

(** ** Sample inputs *)

Definition paper (cat method region decade : string) (year : Z) : ClassRow :=
  {| Classification := Some cat; Method_clean := Some method;
     Study_region_clean := Some region; Decade := Some decade;
     Year_numeric := Some year |}.

Definition observation (id country continent purpose : string) : WvRow :=
  {| ID := Some id; Country_clean := Some country; Continent := Some continent;
     wv_Method_clean := Some "LP"; Method_detail := Some "LP";
     Purpose_clean := Some purpose; units_clean := Some "USD/m3";
     Paper_year := Some 2012%Z; WV_median_raw := None |}.

Definition sample_class : ClassFrame :=
  [ paper "A" "LP" "Norway" "2010–2014" 2012;
    paper "A" "SDP" "Brazil" "2015–2019" 2016;
    paper "B" "LP" "Not specified" "2015–2019" 2017 ].

Definition sample_wv : WvFrame :=
  [ observation "P1" "Norway" "Europe" "Hydropower";
    observation "P1" "Norway" "Europe" "Agriculture";
    observation "P2" "Brazil" "South America" "Hydropower" ].

(** ** Table 3 *)

Definition region_col (df : ClassFrame) : list (option string) :=
  map Study_region_clean df.

Definition buckets_of (df : ClassFrame) : SummaryTables.Buckets :=
  SummaryTables.region_buckets (Pandas.value_counts (region_col df)).

(** The rows of Table 3 that list one region each, and the bucket row
    (none when the bucket is empty), as the code builds them ahead of the
    sort. *)
Definition listed_rows (df : ClassFrame) : list record :=
  map (SummaryTables.region_row (length df)) (SummaryTables.main_entries (buckets_of df)).

Definition other_rows (df : ClassFrame) : list record :=
  if 0 <? SummaryTables.other_count (buckets_of df)
  then [ SummaryTables.region_row (length df)
           (SummaryTables.other_label (SummaryTables.n_other_entries (buckets_of df)),
            SummaryTables.other_count (buckets_of df)) ]
  else [].

(** A region that occurs, fewer than 3 times, and is not a sentinel. *)
Definition below_threshold (df : ClassFrame) (region : string) : Prop :=
  0 < occurrences region (region_col df) /\
  occurrences region (region_col df) < 3 /\
  ~ In region SummaryTables.always_show.

Definition region_paper (region : string) : ClassRow :=
  paper "A" "LP" region "2015–2019" 2016.

(** Seven papers: one region above the threshold, two below it. *)
Definition sample_regions : ClassFrame :=
  [ region_paper "Norway"; region_paper "Chile"; region_paper "Norway";
    region_paper "Peru"; region_paper "Chile"; region_paper "Norway";
    region_paper "Peru" ].

Definition count_desc (a b : record) : Prop := Count_of "Count" b <= Count_of "Count" a.

(** The reading of C4 as it is stated: the listing rows in descending
    count, then the bucket row, then the Total row. *)
Definition other_appended_last (df : ClassFrame) (t : table) : Prop :=
  exists listing,
    Permutation listing (listed_rows df) /\
    StronglySorted count_desc listing /\
    body t = listing ++ other_rows df.

(** ** Chart 2 *)

Definition key_desc (a b : string * nat) : Prop := snd b <= snd a.

(** The bars of the sentinel categories, the bar of the remainder, and
    the bars of single regions, in the order of [display_data]. *)
Definition sentinel_bars (df : ClassFrame) : list (string * nat) :=
  flat_map (fun cat =>
              match Pandas.lookup cat
                      (Charts.special_counts (Pandas.value_counts (region_col df))) with
              | Some c => [(cat, c)]
              | None => []
              end) Charts.special_categories.

Definition remainder_bar (df : ClassFrame) : list (string * nat) :=
  match Charts.beyond_15 (Pandas.value_counts (region_col df)) with
  | [] => []
  | rest => [ (("Other (" ++ str_of_nat (length rest) ++ " regions)")%string,
               list_sum (map snd rest)) ]
  end.

Definition region_bars (df : ClassFrame) : list (string * nat) :=
  rev (Charts.top_15 (Pandas.value_counts (region_col df))).

(** The reading of C3 as it is stated: the regions with a bar of their
    own in Chart 2 are the regions with a row of their own in Table 3. *)
Definition same_rule_as_table3 (df : ClassFrame) : Prop :=
  forall region,
    In region (map fst (sentinel_bars df ++ region_bars df)) <->
    In region (map fst (SummaryTables.main_entries (buckets_of df))).

(** ** Chart 1 *)

(** The periods of the series of length [n] that fall inside the window
    centered at index [i]: the indices within [(window - 1) / 2] of [i]. *)
Definition periods_in_window (window n i : nat) : nat :=
  length (filter (fun j => (i <=? j + (window - 1) / 2) && (j <=? i + (window - 1) / 2))
                 (seq 0 n)).

(** ** The pipeline runner *)

(** The numbers of the steps whose banner was printed: the steps that
    were started. *)
Definition banners (st : Pipeline.State) : list Z :=
  flat_map (fun m => match m with
                     | Pipeline.StepBanner n => [n]
                     | _ => []
                     end) (Pipeline.console st).

Definition script_path (step : Pipeline.Step) : string :=
  (Pipeline.SCRIPTS_DIR ++ "/" ++ Pipeline.script step)%string.

(** The expected outputs of a step that are not among the paths [paths]. *)
Definition missing_from (paths : list string) (step : Pipeline.Step) : list string :=
  filter (fun output_path => negb (existsb (String.eqb output_path) paths))
         (Pipeline.outputs step).

(** The runs of [steps_to_run] that stop at the first failure. *)
Inductive halted_run : list Pipeline.Step -> list (Z * bool) -> Prop :=
| halted_done : halted_run [] []
| halted_pass step rest l :
    halted_run rest l -> halted_run (step :: rest) ((Pipeline.number step, true) :: l)
| halted_fail step rest :
    halted_run (step :: rest) [(Pipeline.number step, false)].

(** A child process that ends with exit code 0 and writes nothing, and
    the paths of a checkout: the database and the three scripts. *)
Definition spawn_idle (script : string) (paths : list string)
  : Pipeline.outcome * list string :=
  (Pipeline.Completed 0, paths).

Definition checkout : list string :=
  [ "data/water_value_database.db"; "scripts/01_summary_tables.py";
    "scripts/02_completeness_heatmap.py"; "scripts/03_analytical_charts.py" ].

(** A child process that fails in the second script. *)
Definition spawn_failing (script : string) (paths : list string)
  : Pipeline.outcome * list string :=
  if String.eqb script "scripts/02_completeness_heatmap.py"
  then (Pipeline.Completed 1, paths)
  else (Pipeline.Completed 0, paths).

(** The exception of [load_data]. *)
Definition database_not_found : exn :=
  FileNotFoundError
    ("SQLite database not found: data/water_value_database.db"
     ++ String (ascii_of_nat 10)
          "Run 01_data_preparation.py and 02_derived_variables.py first.").

(** ** Files *)

(** The bytes of the CSV file at a path, when there is one. *)
Definition csv_part (c : content) : option string :=
  match c with
  | Csv bytes => Some bytes
  | _ => None
  end.

Definition csv_at (path : string) (w : World) : option string :=
  match read_file path w with
  | Some c => csv_part c
  | None => None
  end.

(** The same surroundings at another time. *)
Definition set_clock (t : string) (w : World) : World :=
  {| store := store w; now := t; files := files w |}.

Definition apply_writes (l : list (string * content)) (w : World) : World :=
  fold_left (fun w pc => snd (write (fst pc) (snd pc) w)) l w.

Fixpoint last_write (path : string) (l : list (string * content)) : option content :=
  match l with
  | [] => None
  | (p, c) :: t =>
      match last_write path t with
      | Some c' => Some c'
      | None => if String.eqb p path then Some c else None
      end
  end.

(** The tables of a run, and the files that [export_tables] and
    [save_report] write for them at the time [t], in the order of
    writing; the report is written when [figures/] is there. *)
Definition build_tables (db : Database) : result SummaryTables.Tables :=
  t3 <- SummaryTables.generate_region_table (classification db) ;;
  t4 <- SummaryTables.generate_year_table (classification db) ;;
  t5 <- SummaryTables.generate_wv_summary_table (classification db) (water_values db) ;;
  Ok {| SummaryTables.table_1 :=
          SummaryTables.generate_classification_table (classification db);
        SummaryTables.table_2 := SummaryTables.generate_method_table (classification db);
        SummaryTables.table_3 := t3;
        SummaryTables.table_4 := t4;
        SummaryTables.table_5 := t5;
        SummaryTables.table_6 := SummaryTables.generate_wv_purpose_table (water_values db) |}.

Definition csv_writes (T : SummaryTables.Tables) : list (string * content) :=
  map (fun '(filename, tab) =>
         (SummaryTables.path_in SummaryTables.TABLES_DIR filename,
          Csv (Pandas.to_csv (SummaryTables.columns tab) tab)))
      (SummaryTables.csv_names T).

Definition text_writes (T : SummaryTables.Tables) (t : string) : list (string * content) :=
  [ (SummaryTables.path_in SummaryTables.TABLES_DIR "all_tables_formatted.txt",
     FormattedTables t (combine (SummaryTables.captions (SummaryTables.table_3 T))
                                (map snd (SummaryTables.csv_names T)))) ].

Definition report_path : string :=
  SummaryTables.path_in SummaryTables.FIGURES_DIR "summary_tables_report.txt".

Definition report_writes (w : World) : list (string * content) :=
  if is_dir SummaryTables.FIGURES_DIR w then [ (report_path, Report (now w)) ] else [].

Definition tables_writes (w : World) : list (string * content) :=
  match store w with
  | None => []
  | Some db =>
      match build_tables db with
      | Ok T => csv_writes T ++ text_writes T (now w) ++ report_writes w
      | Raise _ => []
      end
  end.

(** The exception of [open] in [save_report] of the first generator. *)
Definition report_not_writable : exn :=
  FileNotFoundError
    "[Errno 2] No such file or directory: 'figures/summary_tables_report.txt'".

(** What stands before the first write of the first generator:
    [load_data] and the six tables. *)
Definition tables_of (w : World) : result SummaryTables.Tables :=
  match store w with
  | None => Raise database_not_found
  | Some db => build_tables db
  end.

(** The files that the other two generators write: images, captions and
    reports, no CSV file. *)
Definition heatmap_writes (heatmap : Database -> result unit) (w : World)
  : list (string * content) :=
  match store w with
  | None => []
  | Some db =>
      match heatmap db with
      | Ok _ =>
          [ ((Completeness.FIGURES_DIR ++ "/fig_completeness_heatmap.png")%string,
             Figure "fig_completeness_heatmap");
            ((Completeness.FIGURES_DIR ++ "/fig_completeness_heatmap.pdf")%string,
             Figure "fig_completeness_heatmap");
            ((Completeness.FIGURES_DIR ++ "/fig_completeness_heatmap_caption.txt")%string,
             Caption);
            ((Completeness.FIGURES_DIR ++ "/completeness_heatmap_report.txt")%string,
             Report (now w)) ]
      | Raise _ => []
      end
  end.

(** The figures saved until a chart fails, and whether all charts were
    drawn. *)
Fixpoint figure_writes (draw : string -> Database -> result unit) (db : Database)
  (names : list string) : list (string * content) * bool :=
  match names with
  | [] => ([], true)
  | name :: rest =>
      match draw name db with
      | Ok _ =>
          let '(l, ok) := figure_writes draw db rest in
          (((Charts.FIGURES_DIR ++ "/" ++ name ++ ".png")%string, Figure name)
           :: ((Charts.FIGURES_DIR ++ "/" ++ name ++ ".pdf")%string, Figure name)
           :: l, ok)
      | Raise _ => ([], false)
      end
  end.

Definition charts_writes (draw : string -> Database -> result unit) (w : World)
  : list (string * content) :=
  match store w with
  | None => []
  | Some db =>
      let '(l, ok) := figure_writes draw db Charts.figure_names in
      if ok then
        l ++ [ ((Charts.FIGURES_DIR ++ "/fig_analytical_charts_captions.txt")%string,
                Captions (now w));
               ((Charts.FIGURES_DIR ++ "/analytical_charts_report.txt")%string,
                Report (now w)) ]
      else l
  end.

(** A run on the sample database, in a checkout where [figures/] has
    been made, and in one where it has not. *)
Definition sample_world : World :=
  {| store := Some {| classification := sample_class; water_values := sample_wv |};
     now := "2024-01-01 00:00:00"; files := [ ("figures", Directory) ] |}.

Definition sample_world_bare : World :=
  {| store := Some {| classification := sample_class; water_values := sample_wv |};
     now := "2024-01-01 00:00:00"; files := [] |}.

Definition csv_text (lines : list string) : string :=
  (Pandas.utf8_bom
   ++ String.concat EmptyString
        (map (fun l => l ++ String Pandas.newline EmptyString) lines))%string.

(** ** Rows of Tables 1, 2 and 4 by their content *)

Definition category_row (df : ClassFrame) (cat : string) : record :=
  [ ("Category", VStr cat);
    ("Category_Name",
      VStr (SummaryTables.dict_get cat SummaryTables.CATEGORY_NAMES
              "[Category name — see article.txt]"));
    ("Count", VInt (occurrences cat (map Classification df)));
    ("Percentage",
      VFloat (np_percentage (occurrences cat (map Classification df)) (length df))) ].

Definition method_row (df : ClassFrame) (method : string) : record :=
  [ ("Method", VStr method);
    ("Count", VInt (occurrences method (map Method_clean df)));
    ("Percentage",
      VFloat (np_percentage (occurrences method (map Method_clean df)) (length df))) ].

Definition decade_row (df : ClassFrame) (decade : string) : record :=
  [ ("Year_Range", VStr decade);
    ("Count", VInt (occurrences decade (map Decade df)));
    ("Percentage",
      VFloat (np_percentage (occurrences decade (map Decade df)) (length df))) ].

(** ** Chart 1: the papers that the yearly totals count *)


(** Three frames as [isna()] sees them: a column of the screening table
    with one NULL in two rows, a classification table with a derived
    column, and a water_values table of one row. *)
Definition sample_frames : list (string * Completeness.NullFrame) :=
  [ ("01_Screening", [ ("ID", [false; false]); ("Abstract", [false; true]) ]);
    ("02_Classification",
     [ ("ID", [false; false; false]); ("Decade", [false; false; false]);
       ("Notes", [true; true; true]) ]);
    ("03_WaterValue", [ ("ID", [false]); ("units_clean", [true]) ]) ].

(** A column that no frame-specific set excludes and that has no row. *)
Definition kept_without_rows (dfs : list (string * Completeness.NullFrame)) : Prop :=
  exists name df col,
    In (name, df) dfs /\ In (col, []) df /\
    Completeness.mem col (Completeness.exclude_map name) = false.

(** ** Rows by their label and count *)

(** The label and the count of a row: the cells that are not rounded. *)
Definition entry_of (lkey : string) (r : record) : option (string * nat) :=
  match get lkey r, get "Count" r with
  | Some (VStr label), Some (VInt count) => Some (label, count)
  | _, _ => None
  end.

(** The percentage of a row is the share of its count in [n] rounded to
    one decimal place: it is a finite value within half a tenth of the
    exact share (in tenths, |tenths - 1000 count / n| <= 1/2).  At an exact
    tie both neighbouring tenths are within the bound. *)
Definition share_rounded (n : nat) (r : record) : Prop :=
  exists count tenths,
    get "Count" r = Some (VInt count) /\
    get "Percentage" r = Some (VFloat (Tenths tenths)) /\
    2 * n * tenths <= 2000 * count + n /\
    2000 * count <= 2 * n * tenths + n.

(** The label and the count of the bucket row of Table 3 for the regions
    [lows]: no row when there is none. *)
Definition other_entry (df : ClassFrame) (lows : list string) : list (string * nat) :=
  match lows with
  | [] => []
  | _ :: _ =>
      [ (("Other (" ++ str_of_nat (length lows) ++ " countries/regions)")%string,
         list_sum (map (fun region => occurrences region (region_col df)) lows)) ]
  end.

(** The reading of C2 as it is stated: each of the two sentinel
    categories has a row of its own, whatever its count. *)
Definition sentinels_always_listed (t : table) : Prop :=
  forall sentinel,
    sentinel = "Not specified" \/ sentinel = "Synthetic/Theoretical" ->
    exists row, In row (body t) /\ get "Country_or_Region" row = Some (VStr sentinel).

(** Nine papers: the seven of [sample_regions], one without a region
    and one on a synthetic system. *)
Definition sample_sentinels : ClassFrame :=
  sample_regions ++ [ region_paper "Not specified"; region_paper "Synthetic/Theoretical" ].

(** A paper whose [Decade] cell is one of the six labels of Table 4. *)
Definition in_year_ranges (r : ClassRow) : bool :=
  match Decade r with
  | Some decade =>
      existsb (String.eqb decade)
              ["Pre-2000"; "2000–2004"; "2005–2009"; "2010–2014"; "2015–2019"; "2020–2025"]
  | None => false
  end.

(* ================================================================== *)
(** * Properties                                                       *)
(* ================================================================== *)

(** ** Stable sort *)

Section StableSortFacts.

Context {A : Type} (le : A -> A -> bool).

Lemma insert_sorted_perm (x : A) (l : list A) :
  Permutation (x :: l) (insert_sorted le x l).
Proof.
  induction l as [|y t IH]; simpl.
  - apply Permutation_refl.
  - destruct (le x y).
    + apply Permutation_refl.
    + eapply perm_trans; [apply perm_swap|].
      now apply perm_skip.
Qed.

Lemma stable_sort_perm (l : list A) : Permutation l (stable_sort le l).
Proof.
  induction l as [|x t IH]; simpl.
  - constructor.
  - eapply perm_trans; [apply perm_skip, IH|].
    apply insert_sorted_perm.
Qed.

Hypothesis le_total : forall x y, le x y = false -> le y x = true.

Lemma insert_sorted_sorted (x : A) (l : list A) :
  Sorted (fun a b => le a b = true) l ->
  Sorted (fun a b => le a b = true) (insert_sorted le x l).
Proof.
  induction 1 as [|y t Hs IH Hd]; simpl.
  - repeat constructor.
  - destruct (le x y) eqn:E.
    + constructor; [now constructor | now constructor].
    + constructor; [exact IH|].
      destruct t as [|z t']; simpl.
      * constructor. now apply le_total.
      * inversion Hd; subst.
        destruct (le x z); constructor; [now apply le_total | assumption].
Qed.

Lemma stable_sort_sorted (l : list A) :
  Sorted (fun a b => le a b = true) (stable_sort le l).
Proof.
  induction l as [|x t IH]; simpl.
  - constructor.
  - now apply insert_sorted_sorted.
Qed.

End StableSortFacts.

Lemma by_key_desc_total {A} (key : A -> nat) (x y : A) :
  by_key_desc key x y = false -> by_key_desc key y x = true.
Proof.
  unfold by_key_desc. intros H.
  apply Nat.leb_gt in H. apply Nat.leb_le. lia.
Qed.

Lemma list_sum_perm (l l' : list nat) :
  Permutation l l' -> list_sum l = list_sum l'.
Proof.
  induction 1; simpl; lia.
Qed.

(** ** Rounding to one decimal place *)

(** The rounded quotient is within half a unit of the exact one. *)
Lemma round_half_even_near (num den : nat) :
  0 < den ->
  2 * den * round_half_even num den <= 2 * num + den /\
  2 * num <= 2 * den * round_half_even num den + den.
Proof.
  intros Hd. unfold round_half_even.
  pose proof (Nat.div_mod_eq num den) as E.
  pose proof (Nat.mod_upper_bound num den ltac:(lia)) as B.
  set (q := num / den) in *. set (r := num mod den) in *.
  destruct (Nat.ltb_spec (2 * r) den); [nia|].
  destruct (Nat.ltb_spec den (2 * r)); [nia|].
  destruct (Nat.even q); nia.
Qed.

(** ** Counting *)

Lemma lookup_not_in (k : string) (c : Pandas.counts) :
  ~ In k (keys_of c) -> Pandas.lookup k c = None.
Proof.
  induction c as [|[k' v] t IH]; simpl; intros H; [reflexivity|].
  destruct (String.eqb_spec k' k); [exfalso; auto|].
  apply IH. tauto.
Qed.

Lemma lookup_in (k : string) (c : Pandas.counts) :
  In k (keys_of c) -> exists v, Pandas.lookup k c = Some v.
Proof.
  induction c as [|[k' v] t IH]; simpl; intros H; [tauto|].
  destruct (String.eqb_spec k' k); [eauto|].
  apply IH. destruct H; congruence.
Qed.

Lemma lookup_some_in (k : string) (v : nat) (c : Pandas.counts) :
  Pandas.lookup k c = Some v -> In (k, v) c.
Proof.
  induction c as [|[k' v'] t IH]; simpl; intros H; [discriminate|].
  destruct (String.eqb_spec k' k).
  - inversion H; subst. now left.
  - right. now apply IH.
Qed.

Lemma in_lookup (k : string) (v : nat) (c : Pandas.counts) :
  NoDup (keys_of c) -> In (k, v) c -> Pandas.lookup k c = Some v.
Proof.
  induction c as [|[k' v'] t IH]; simpl; intros Hnd Hin; [tauto|].
  inversion Hnd as [|? ? Hni Hnd']; subst.
  destruct Hin as [E|Hin].
  - inversion E; subst. now rewrite String.eqb_refl.
  - destruct (String.eqb_spec k' k) as [->|Hne].
    + exfalso. apply Hni. unfold keys_of. apply in_map_iff. now exists (k, v).
    + now apply IH.
Qed.

Lemma lookup_perm (k : string) (c c' : Pandas.counts) :
  Permutation c c' -> NoDup (keys_of c) -> Pandas.lookup k c = Pandas.lookup k c'.
Proof.
  intros HP Hnd.
  assert (Hnd' : NoDup (keys_of c')).
  { eapply Permutation_NoDup; [|exact Hnd]. now apply Permutation_map. }
  destruct (Pandas.lookup k c) as [v|] eqn:E.
  - symmetry. apply in_lookup; [assumption|].
    eapply Permutation_in; [exact HP|]. now apply lookup_some_in.
  - destruct (Pandas.lookup k c') as [v|] eqn:E'; [|reflexivity].
    apply lookup_some_in in E'.
    apply Permutation_sym in HP.
    eapply Permutation_in in E'; [|exact HP].
    apply in_lookup in E'; [congruence | assumption].
Qed.

Lemma bump_keys (k : string) (acc : Pandas.counts) :
  keys_of (Pandas.bump k acc) =
  if existsb (String.eqb k) (keys_of acc) then keys_of acc else keys_of acc ++ [k].
Proof.
  induction acc as [|[k' v] t IH]; simpl; [reflexivity|].
  rewrite (String.eqb_sym k k').
  destruct (String.eqb k' k) eqn:E; simpl; [reflexivity|].
  fold (keys_of (Pandas.bump k t)). rewrite IH.
  now destruct (existsb (String.eqb k) (keys_of t)).
Qed.

Lemma existsb_eqb_In (k : string) (l : list string) :
  existsb (String.eqb k) l = true <-> In k l.
Proof.
  rewrite existsb_exists. split.
  - intros [x [Hin E]]. apply String.eqb_eq in E. now subst.
  - intros H. exists k. split; [assumption | apply String.eqb_refl].
Qed.

Lemma bump_NoDup (k : string) (acc : Pandas.counts) :
  NoDup (keys_of acc) -> NoDup (keys_of (Pandas.bump k acc)).
Proof.
  intros H. rewrite bump_keys.
  destruct (existsb (String.eqb k) (keys_of acc)) eqn:E; [assumption|].
  apply NoDup_app; [assumption | repeat constructor; simpl; tauto |].
  intros x Hx [<-|[]].
  apply existsb_eqb_In in Hx. congruence.
Qed.

Lemma bump_at_label (k k' : string) (acc : Pandas.counts) :
  Pandas.at_label (Pandas.bump k' acc) k =
  Pandas.at_label acc k + (if String.eqb k' k then 1 else 0).
Proof.
  unfold Pandas.at_label.
  induction acc as [|[k0 v] t IH]; simpl.
  - destruct (String.eqb k' k); reflexivity.
  - destruct (String.eqb_spec k0 k') as [->|Hne]; simpl.
    + destruct (String.eqb_spec k' k); lia.
    + destruct (String.eqb_spec k0 k) as [->|Hne'].
      * destruct (String.eqb_spec k' k); [congruence | lia].
      * exact IH.
Qed.

Lemma bump_sum (k : string) (acc : Pandas.counts) :
  list_sum (map snd (Pandas.bump k acc)) = S (list_sum (map snd acc)).
Proof.
  induction acc as [|[k0 v] t IH]; simpl; [reflexivity|].
  destruct (String.eqb k0 k); simpl; lia.
Qed.

Lemma bump_positive (k : string) (acc : Pandas.counts) :
  Forall (fun e => 0 < snd e) acc -> Forall (fun e => 0 < snd e) (Pandas.bump k acc).
Proof.
  induction 1 as [|[k0 v] t H0 Ht IH]; simpl.
  - repeat constructor.
  - destruct (String.eqb k0 k); constructor; simpl in *; auto; lia.
Qed.

Lemma tally_from_spec (col : list (option string)) (acc : Pandas.counts) :
  NoDup (keys_of acc) -> Forall (fun e => 0 < snd e) acc ->
  let c := fold_left tally_step col acc in
  NoDup (keys_of c) /\ Forall (fun e => 0 < snd e) c /\
  (forall k, Pandas.at_label c k = Pandas.at_label acc k + occurrences k col) /\
  list_sum (map snd c) = list_sum (map snd acc) + Pandas.notna_sum col.
Proof.
  revert acc. induction col as [|cell col IH]; intros acc Hnd Hpos; simpl.
  - repeat split; auto.
  - destruct cell as [k|]; simpl.
    + destruct (IH (Pandas.bump k acc) (bump_NoDup k acc Hnd) (bump_positive k acc Hpos))
        as (H1 & H2 & H3 & H4).
      repeat split; auto.
      * intros k'. rewrite H3, bump_at_label. unfold occurrences. simpl.
        destruct (String.eqb k k'); simpl; lia.
      * rewrite H4, bump_sum. unfold Pandas.notna_sum. simpl. lia.
    + destruct (IH acc Hnd Hpos) as (H1 & H2 & H3 & H4).
      repeat split; auto.
Qed.

Lemma tally_spec (col : list (option string)) :
  NoDup (keys_of (Pandas.tally col)) /\
  Forall (fun e => 0 < snd e) (Pandas.tally col) /\
  (forall k, Pandas.at_label (Pandas.tally col) k = occurrences k col) /\
  list_sum (map snd (Pandas.tally col)) = Pandas.notna_sum col.
Proof.
  apply (tally_from_spec col []); constructor.
Qed.

(** ** Totals of a table *)

Lemma np_percentage_pos (c n : nat) :
  0 < n -> np_percentage c n = Tenths (round_half_even (1000 * c) n).
Proof.
  intros Hn. unfold np_percentage.
  destruct (Nat.eqb_spec n 0); [lia | reflexivity].
Qed.

Lemma list_sum_cons (x : nat) (l : list nat) : list_sum (x :: l) = x + list_sum l.
Proof. reflexivity. Qed.

Lemma rows_ok_sum (ckey pkey : string) (n : nat) (rows : list record) :
  0 < n -> Forall (row_ok ckey pkey n) rows ->
  Forall (finite_pct pkey) rows /\
  2 * n * list_sum (map (tenths_of pkey) rows)
    <= 2000 * list_sum (map (Count_of ckey) rows) + length rows * n /\
  2000 * list_sum (map (Count_of ckey) rows)
    <= 2 * n * list_sum (map (tenths_of pkey) rows) + length rows * n.
Proof.
  intros Hn. induction 1 as [|r rows Hr Hrows IH].
  - split; [constructor|]. cbn [map length]. change (list_sum []) with 0. lia.
  - destruct IH as (IH1 & IH2 & IH3).
    unfold row_ok in Hr. rewrite (np_percentage_pos _ _ Hn) in Hr.
    pose proof (round_half_even_near (1000 * Count_of ckey r) n Hn) as [B1 B2].
    assert (Ht : tenths_of pkey r = round_half_even (1000 * Count_of ckey r) n).
    { unfold tenths_of. now rewrite Hr. }
    split; [constructor; [eexists; exact Hr | exact IH1] |].
    cbn [map length]. rewrite !list_sum_cons, Ht.
    set (q := round_half_even (1000 * Count_of ckey r) n) in *.
    set (c := Count_of ckey r) in *.
    set (S1 := list_sum (map (tenths_of pkey) rows)) in *.
    set (S2 := list_sum (map (Count_of ckey) rows)) in *.
    set (k := length rows) in *.
    split; nia.
Qed.

Lemma totals_agree_intro (lkey ckey pkey : string) (n : nat)
      (rows : list record) (total : record) :
  0 < n -> Forall (row_ok ckey pkey n) rows ->
  list_sum (map (Count_of ckey) rows) = n ->
  Count_of ckey total = n -> get lkey total = Some (VStr "Total") ->
  totals_agree lkey ckey pkey (rows ++ [total]).
Proof.
  intros Hn Hok Hsum Htot Hlab.
  unfold totals_agree, counts_add_up, percentages_add_up, body, total_row.
  rewrite removelast_last, last_last.
  destruct (rows_ok_sum ckey pkey n rows Hn Hok) as (F & B1 & B2).
  rewrite Hsum in B1, B2.
  repeat split; auto; try congruence; nia.
Qed.

Lemma Forall_perm {A} (P : A -> Prop) (l l' : list A) :
  Permutation l l' -> Forall P l -> Forall P l'.
Proof.
  intros HP HF. rewrite Forall_forall in *. intros x Hx.
  apply HF. eapply Permutation_in; [apply Permutation_sym; exact HP | exact Hx].
Qed.

Lemma sum_map_perm {A} (f : A -> nat) (l l' : list A) :
  Permutation l l' -> list_sum (map f l) = list_sum (map f l').
Proof.
  intros H. apply list_sum_perm. now apply Permutation_map.
Qed.

(** Summing the counts over a duplicate-free list of labels that covers
    the index gives the sum of the series. *)
Lemma sum_if_key (k0 : string) (v0 : nat) (f : string -> nat) (K : list string) :
  NoDup K -> In k0 K -> f k0 = 0 ->
  list_sum (map (fun k => if String.eqb k0 k then v0 else f k) K)
  = v0 + list_sum (map f K).
Proof.
  induction 1 as [|k K Hni Hnd IH]; simpl; intros Hin Hf; [tauto|].
  destruct (String.eqb_spec k0 k) as [<-|Hne].
  - rewrite Hf.
    assert (E : map (fun k => if String.eqb k0 k then v0 else f k) K = map f K).
    { apply map_ext_in. intros a Ha.
      destruct (String.eqb_spec k0 a); [subst; tauto | reflexivity]. }
    rewrite E. lia.
  - destruct Hin as [E|Hin]; [congruence|].
    rewrite IH by assumption. lia.
Qed.

Lemma at_label_cons (k0 : string) (v0 : nat) (t : Pandas.counts) (k : string) :
  Pandas.at_label ((k0, v0) :: t) k = if String.eqb k0 k then v0 else Pandas.at_label t k.
Proof.
  unfold Pandas.at_label. simpl. now destruct (String.eqb k0 k).
Qed.

Lemma sum_at_label (c : Pandas.counts) (K : list string) :
  NoDup K -> NoDup (keys_of c) -> incl (keys_of c) K ->
  list_sum (map (Pandas.at_label c) K) = list_sum (map snd c).
Proof.
  intros HK. induction c as [|[k0 v0] t IH]; simpl; intros Hnd Hincl.
  - induction K as [|k K IHK]; simpl; [reflexivity|].
    inversion HK; subst. now rewrite IHK.
  - inversion Hnd as [|? ? Hni Hnd']; subst.
    rewrite (map_ext _ _ (at_label_cons k0 v0 t)).
    rewrite sum_if_key.
    + rewrite IH; auto. intros x Hx. apply Hincl. now right.
    + assumption.
    + apply Hincl. now left.
    + unfold Pandas.at_label. now rewrite lookup_not_in.
Qed.

Lemma at_label_perm (c c' : Pandas.counts) (k : string) :
  Permutation c c' -> NoDup (keys_of c) -> Pandas.at_label c k = Pandas.at_label c' k.
Proof.
  intros HP Hnd. unfold Pandas.at_label. now rewrite (lookup_perm k c c' HP Hnd).
Qed.

Lemma value_counts_perm (col : list (option string)) :
  Permutation (Pandas.tally col) (Pandas.value_counts col).
Proof. apply stable_sort_perm. Qed.

Lemma value_counts_NoDup (col : list (option string)) :
  NoDup (keys_of (Pandas.value_counts col)).
Proof.
  eapply Permutation_NoDup; [apply Permutation_map, value_counts_perm|].
  apply tally_spec.
Qed.

Lemma value_counts_sum (col : list (option string)) :
  list_sum (map snd (Pandas.value_counts col)) = Pandas.notna_sum col.
Proof.
  rewrite <- (sum_map_perm snd _ _ (value_counts_perm col)).
  apply tally_spec.
Qed.

Lemma value_counts_at_label (col : list (option string)) (k : string) :
  Pandas.at_label (Pandas.value_counts col) k = occurrences k col.
Proof.
  rewrite <- (at_label_perm _ _ k (value_counts_perm col)) by apply tally_spec.
  apply tally_spec.
Qed.

Lemma value_counts_positive (col : list (option string)) :
  Forall (fun e => 0 < snd e) (Pandas.value_counts col).
Proof.
  eapply Forall_perm; [apply value_counts_perm | apply tally_spec].
Qed.

Lemma notna_sum_all {A B} (f : A -> option B) (l : list A) :
  Forall (fun r => f r <> None) l -> Pandas.notna_sum (map f l) = length l.
Proof.
  unfold Pandas.notna_sum.
  induction 1 as [|r l Hr Hl IH]; simpl; [reflexivity|].
  destruct (f r); [simpl; now rewrite IH | congruence].
Qed.

Lemma sort_index_perm (c : Pandas.counts) : Permutation c (Pandas.sort_index c).
Proof. apply stable_sort_perm. Qed.

Lemma nonempty_length {A} (l : list A) : l <> [] -> 0 < length l.
Proof. destruct l; simpl; [congruence | lia]. Qed.

(** ** Table 1 *)

Lemma table1_totals (df : ClassFrame) :
  df <> [] -> Forall (fun r => Classification r <> None) df ->
  totals_agree "Category" "Count" "Percentage"
               (SummaryTables.generate_classification_table df).
Proof.
  intros Hne Hnn. unfold SummaryTables.generate_classification_table.
  set (counts := Pandas.sort_index (Pandas.value_counts (map Classification df))).
  assert (Hperm : Permutation (Pandas.value_counts (map Classification df)) counts)
    by apply sort_index_perm.
  assert (Hnd : NoDup (keys_of counts)).
  { eapply Permutation_NoDup; [apply Permutation_map, Hperm | apply value_counts_NoDup]. }
  apply totals_agree_intro with (n := length df).
  - now apply nonempty_length.
  - apply Forall_forall. intros r Hin.
    apply in_map_iff in Hin as [cat [<- _]]. reflexivity.
  - rewrite map_map.
    rewrite (map_ext _ (Pandas.at_label counts)) by (intros cat; reflexivity).
    rewrite sum_at_label.
    + rewrite <- (sum_map_perm snd _ _ Hperm), value_counts_sum.
      now apply notna_sum_all.
    + eapply Permutation_NoDup; [apply stable_sort_perm | exact Hnd].
    + exact Hnd.
    + intros x Hx. eapply Permutation_in; [apply stable_sort_perm | exact Hx].
  - reflexivity.
  - reflexivity.
Qed.

(** ** Table 2 *)

Lemma table2_totals (df : ClassFrame) :
  df <> [] -> Forall (fun r => Method_clean r <> None) df ->
  totals_agree "Method" "Count" "Percentage" (SummaryTables.generate_method_table df).
Proof.
  intros Hne Hnn. unfold SummaryTables.generate_method_table.
  set (counts := Pandas.value_counts (map Method_clean df)).
  match goal with |- context [stable_sort ?le ?l] =>
    pose proof (stable_sort_perm le l) as Hperm end.
  apply totals_agree_intro with (n := length df).
  - now apply nonempty_length.
  - eapply Forall_perm; [exact Hperm|].
    apply Forall_forall. intros r Hin.
    apply in_map_iff in Hin as [[m c] [<- _]]. reflexivity.
  - rewrite <- (sum_map_perm _ _ _ Hperm), map_map.
    rewrite (map_ext _ snd) by (intros [m c]; reflexivity).
    unfold counts. rewrite value_counts_sum. now apply notna_sum_all.
  - reflexivity.
  - reflexivity.
Qed.

(** ** Table 3: the bucketing loop *)

Lemma bucket_step_spec (b : SummaryTables.Buckets) (e : string * nat) :
  SummaryTables.bucket_step b e =
  if listed e then
    {| SummaryTables.main_entries := SummaryTables.main_entries b ++ [e];
       SummaryTables.other_count := SummaryTables.other_count b;
       SummaryTables.n_other_entries := SummaryTables.n_other_entries b |}
  else
    {| SummaryTables.main_entries := SummaryTables.main_entries b;
       SummaryTables.other_count := SummaryTables.other_count b + snd e;
       SummaryTables.n_other_entries := SummaryTables.n_other_entries b + 1 |}.
Proof.
  destruct e as [region count]. unfold SummaryTables.bucket_step, listed. simpl fst. simpl snd.
  destruct (SummaryTables.mem region SummaryTables.always_show); simpl; [reflexivity|].
  destruct (3 <=? count); reflexivity.
Qed.

Lemma buckets_from (raw : Pandas.counts) (b : SummaryTables.Buckets) :
  let b' := fold_left SummaryTables.bucket_step raw b in
  SummaryTables.main_entries b' = SummaryTables.main_entries b ++ filter listed raw /\
  SummaryTables.other_count b'
    = SummaryTables.other_count b + list_sum (map snd (filter bucketed raw)) /\
  SummaryTables.n_other_entries b'
    = SummaryTables.n_other_entries b + length (filter bucketed raw).
Proof.
  revert b. induction raw as [|e raw IH]; intros b; simpl.
  - rewrite app_nil_r. repeat split; lia.
  - destruct (IH (SummaryTables.bucket_step b e)) as (H1 & H2 & H3).
    rewrite H1, H2, H3, bucket_step_spec. unfold bucketed.
    destruct (listed e); simpl.
    + rewrite <- app_assoc. repeat split; lia.
    + repeat split; lia.
Qed.

Lemma region_buckets_spec (raw : Pandas.counts) :
  let b := SummaryTables.region_buckets raw in
  SummaryTables.main_entries b = filter listed raw /\
  SummaryTables.other_count b = list_sum (map snd (filter bucketed raw)) /\
  SummaryTables.n_other_entries b = length (filter bucketed raw).
Proof.
  apply (buckets_from raw
           {| SummaryTables.main_entries := []; SummaryTables.other_count := 0;
              SummaryTables.n_other_entries := 0 |}).
Qed.

Lemma sum_filter_split {A} (f : A -> nat) (p : A -> bool) (l : list A) :
  list_sum (map f (filter p l)) + list_sum (map f (filter (fun x => negb (p x)) l))
  = list_sum (map f l).
Proof.
  induction l as [|x l IH]; simpl; [reflexivity|].
  destruct (p x); simpl; lia.
Qed.

Lemma region_row_ok (n : nat) (e : string * nat) :
  row_ok "Count" "Percentage" n (SummaryTables.region_row n e).
Proof. reflexivity. Qed.

Lemma region_row_count (n : nat) (e : string * nat) :
  Count_of "Count" (SummaryTables.region_row n e) = snd e.
Proof. reflexivity. Qed.

Lemma region_rows_unsorted_sum (n : nat) (raw : Pandas.counts) :
  list_sum (map (Count_of "Count")
                (SummaryTables.region_rows_unsorted n (SummaryTables.region_buckets raw)))
  = list_sum (map snd raw).
Proof.
  unfold SummaryTables.region_rows_unsorted.
  destruct (region_buckets_spec raw) as (H1 & H2 & H3).
  rewrite map_app, list_sum_app, map_map.
  rewrite (map_ext _ snd) by apply region_row_count.
  rewrite H1, <- (sum_filter_split snd listed raw). f_equal.
  fold bucketed. rewrite <- H2.
  destruct (Nat.ltb_spec 0 (SummaryTables.other_count (SummaryTables.region_buckets raw))).
  - cbn [map list_sum fold_right]. rewrite region_row_count. cbn [snd]. lia.
  - cbn [map list_sum fold_right]. lia.
Qed.

Lemma region_rows_unsorted_ok (n : nat) (b : SummaryTables.Buckets) :
  Forall (row_ok "Count" "Percentage" n) (SummaryTables.region_rows_unsorted n b).
Proof.
  unfold SummaryTables.region_rows_unsorted. apply Forall_app. split.
  - apply Forall_forall. intros r Hin. apply in_map_iff in Hin as [e [<- _]].
    apply region_row_ok.
  - destruct (0 <? SummaryTables.other_count b); repeat constructor.
Qed.

(** Table 3 is produced exactly for a table with rows, and then it is the
    sorted rows followed by the Total row. *)
Lemma region_table_ok (df : ClassFrame) :
  df <> [] ->
  SummaryTables.generate_region_table df =
  Ok (stable_sort (by_key_desc (Count_of "Count"))
        (SummaryTables.region_rows_unsorted (length df)
           (SummaryTables.region_buckets
              (Pandas.value_counts (map Study_region_clean df))))
      ++ [ [ ("Country_or_Region", VStr "Total");
             ("Count", VInt (length df));
             ("Percentage", VFloat (Tenths 1000)) ] ]).
Proof.
  intros Hne. apply nonempty_length in Hne.
  unfold SummaryTables.generate_region_table, py_percentage.
  destruct (Pandas.lookup "Not specified" _); simpl; [reflexivity|].
  destruct (Nat.eqb_spec (length df) 0); [lia | reflexivity].
Qed.

Lemma table3_totals (df : ClassFrame) :
  df <> [] -> Forall (fun r => Study_region_clean r <> None) df ->
  exists t, SummaryTables.generate_region_table df = Ok t /\
            totals_agree "Country_or_Region" "Count" "Percentage" t.
Proof.
  intros Hne Hnn. eexists. split; [now apply region_table_ok|].
  match goal with |- context [stable_sort ?le ?l] =>
    pose proof (stable_sort_perm le l) as Hperm end.
  apply totals_agree_intro with (n := length df).
  - now apply nonempty_length.
  - eapply Forall_perm; [exact Hperm | apply region_rows_unsorted_ok].
  - rewrite <- (sum_map_perm _ _ _ Hperm), region_rows_unsorted_sum, value_counts_sum.
    now apply notna_sum_all.
  - reflexivity.
  - reflexivity.
Qed.

(** ** Table 4 *)

Lemma year_row_ok (dc : Pandas.counts) (n : nat) (d : string) :
  0 < n -> SummaryTables.year_row dc n d = Ok (year_record dc n d).
Proof.
  intros Hn. unfold SummaryTables.year_row, year_record, Pandas.at_label.
  destruct (Pandas.lookup d dc); [reflexivity|].
  unfold py_percentage, np_percentage.
  destruct (Nat.eqb_spec n 0); [lia | reflexivity].
Qed.

Lemma for_each_ok {A B} (f : A -> result B) (g : A -> B) (l : list A) :
  (forall x, f x = Ok (g x)) -> SummaryTables.for_each f l = Ok (map g l).
Proof.
  intros H. induction l as [|x l IH]; simpl; [reflexivity|].
  now rewrite H, IH.
Qed.

Lemma year_table_ok (df : ClassFrame) :
  df <> [] ->
  SummaryTables.generate_year_table df =
  Ok (map (year_record (Pandas.value_counts (map Decade df)) (length df))
          SummaryTables.decade_order
      ++ [ [ ("Year_Range", VStr "Total");
             ("Count", VInt (length df));
             ("Percentage", VFloat (Tenths 1000)) ] ]).
Proof.
  intros Hne. apply nonempty_length in Hne.
  unfold SummaryTables.generate_year_table.
  rewrite (for_each_ok _ (year_record (Pandas.value_counts (map Decade df)) (length df)))
    by (intros d; now apply year_row_ok).
  reflexivity.
Qed.

Lemma decade_order_NoDup : NoDup SummaryTables.decade_order.
Proof.
  unfold SummaryTables.decade_order.
  repeat (constructor; [simpl; intros H; repeat (destruct H as [H|H]; [discriminate|]); exact H|]).
  constructor.
Qed.

Lemma occurrences_pos_in (k : string) (col : list (option string)) :
  0 < occurrences k col <-> In (Some k) col.
Proof.
  unfold occurrences. induction col as [|c col IH]; simpl; [split; [lia | tauto]|].
  destruct c as [x|]; simpl.
  - destruct (String.eqb_spec x k) as [->|Hne]; simpl.
    + split; [now left | lia].
    + rewrite IH. split; [now right | intros [E|H]; [congruence | exact H]].
  - rewrite IH. split; [now right | intros [E|H]; [discriminate | exact H]].
Qed.

(** The labels of [value_counts] are the values that occur. *)
Lemma value_counts_keys (col : list (option string)) (k : string) :
  In k (keys_of (Pandas.value_counts col)) <-> In (Some k) col.
Proof.
  rewrite <- occurrences_pos_in, <- value_counts_at_label.
  unfold Pandas.at_label. split.
  - intros Hin. destruct (lookup_in k _ Hin) as [v Hv]. rewrite Hv.
    apply lookup_some_in in Hv.
    pose proof (value_counts_positive col) as Hpos.
    rewrite Forall_forall in Hpos. exact (Hpos _ Hv).
  - intros Hpos. destruct (in_dec string_dec k (keys_of (Pandas.value_counts col)))
      as [Hin|Hni]; [exact Hin|].
    rewrite (lookup_not_in _ _ Hni) in Hpos. lia.
Qed.

Lemma table4_totals (df : ClassFrame) :
  df <> [] ->
  Forall (fun r => exists d, Decade r = Some d /\ In d SummaryTables.decade_order) df ->
  exists t, SummaryTables.generate_year_table df = Ok t /\
            totals_agree "Year_Range" "Count" "Percentage" t.
Proof.
  intros Hne Hdec. eexists. split; [now apply year_table_ok|].
  apply totals_agree_intro with (n := length df).
  - now apply nonempty_length.
  - apply Forall_forall. intros r Hin. apply in_map_iff in Hin as [d [<- _]]. reflexivity.
  - rewrite map_map.
    rewrite (map_ext _ (Pandas.at_label (Pandas.value_counts (map Decade df))))
      by (intros d; reflexivity).
    rewrite sum_at_label.
    + rewrite value_counts_sum. apply notna_sum_all.
      eapply Forall_impl; [|exact Hdec]. intros r [d [E _]]. congruence.
    + apply decade_order_NoDup.
    + apply value_counts_NoDup.
    + intros k Hk. apply value_counts_keys in Hk.
      apply in_map_iff in Hk as [r [E Hr]].
      rewrite Forall_forall in Hdec. destruct (Hdec r Hr) as [d [E' Hd]].
      congruence.
  - reflexivity.
  - reflexivity.
Qed.

(** ** Table 6 *)

Lemma group_of_length (purpose : string) (df_wv : WvFrame) :
  length (SummaryTables.group_of purpose df_wv)
  = occurrences purpose (map Purpose_clean df_wv).
Proof.
  unfold SummaryTables.group_of, occurrences.
  induction df_wv as [|r l IH]; simpl; [reflexivity|].
  destruct (Purpose_clean r) as [p|]; [|exact IH].
  destruct (String.eqb p purpose); simpl; now rewrite IH.
Qed.

Lemma table6_totals (df_wv : WvFrame) :
  df_wv <> [] -> Forall (fun r => Purpose_clean r <> None) df_wv ->
  totals_agree "Purpose" "Data_Points_Count" "Pct_of_Data_Points"
               (SummaryTables.generate_wv_purpose_table df_wv).
Proof.
  intros Hne Hnn. unfold SummaryTables.generate_wv_purpose_table.
  match goal with |- context [stable_sort ?le ?l] =>
    pose proof (stable_sort_perm le l) as Hperm end.
  set (col := map Purpose_clean df_wv) in *.
  assert (Hkeys : Permutation (keys_of (Pandas.tally col))
                              (Pandas.index (Pandas.groupby_size col))).
  { apply Permutation_map, sort_index_perm. }
  apply totals_agree_intro with (n := length df_wv).
  - now apply nonempty_length.
  - eapply Forall_perm; [exact Hperm|].
    apply Forall_forall. intros r Hin. apply in_map_iff in Hin as [p [<- _]]. reflexivity.
  - rewrite <- (sum_map_perm _ _ _ Hperm), map_map.
    rewrite (map_ext _ (Pandas.at_label (Pandas.tally col))).
    + rewrite sum_at_label.
      * destruct (tally_spec col) as (_ & _ & _ & ->). now apply notna_sum_all.
      * eapply Permutation_NoDup; [exact Hkeys | apply tally_spec].
      * apply tally_spec.
      * intros k Hk. eapply Permutation_in; [exact Hkeys | exact Hk].
    + intros p. destruct (tally_spec col) as (_ & _ & -> & _).
      unfold col. rewrite <- group_of_length. reflexivity.
  - reflexivity.
  - reflexivity.
Qed.

(** ** Claims on the totals of the tables *)

(** C1, as amended.  For a classification table and a water_values
    table that have rows, whose grouped cells (Classification,
    Method_clean, Study_region_clean, Purpose_clean) are not NULL and whose
    Decade cells are among the six labels of Table 4: in each of Tables 1,
    2, 3, 4 and 6 the last row is the Total row, the counts of the other rows
    add up to its count, and their percentages add up to 100.0 within half a
    tenth per row. *)
Theorem tables_totals_agree (df : ClassFrame) (df_wv : WvFrame) :
  df <> [] -> df_wv <> [] ->
  Forall (fun r => Classification r <> None /\ Method_clean r <> None
                   /\ Study_region_clean r <> None) df ->
  Forall (fun r => exists d, Decade r = Some d /\ In d SummaryTables.decade_order) df ->
  Forall (fun r => Purpose_clean r <> None) df_wv ->
  totals_agree "Category" "Count" "Percentage"
               (SummaryTables.generate_classification_table df) /\
  totals_agree "Method" "Count" "Percentage" (SummaryTables.generate_method_table df) /\
  (exists t3, SummaryTables.generate_region_table df = Ok t3 /\
              totals_agree "Country_or_Region" "Count" "Percentage" t3) /\
  (exists t4, SummaryTables.generate_year_table df = Ok t4 /\
              totals_agree "Year_Range" "Count" "Percentage" t4) /\
  totals_agree "Purpose" "Data_Points_Count" "Pct_of_Data_Points"
               (SummaryTables.generate_wv_purpose_table df_wv).
Proof.
  intros Hne Hne' Hnn Hdec Hpur.
  split; [|split; [|split; [|split]]].
  - apply table1_totals; [assumption|].
    eapply Forall_impl; [|exact Hnn]. intros r H. apply H.
  - apply table2_totals; [assumption|].
    eapply Forall_impl; [|exact Hnn]. intros r H. apply H.
  - apply table3_totals; [assumption|].
    eapply Forall_impl; [|exact Hnn]. intros r H. apply H.
  - now apply table4_totals.
  - now apply table6_totals.
Qed.

Lemma tables_totals_agree_witness :
  totals_agree "Category" "Count" "Percentage"
               (SummaryTables.generate_classification_table sample_class) /\
  totals_agree "Method" "Count" "Percentage"
               (SummaryTables.generate_method_table sample_class) /\
  (exists t3, SummaryTables.generate_region_table sample_class = Ok t3 /\
              totals_agree "Country_or_Region" "Count" "Percentage" t3) /\
  (exists t4, SummaryTables.generate_year_table sample_class = Ok t4 /\
              totals_agree "Year_Range" "Count" "Percentage" t4) /\
  totals_agree "Purpose" "Data_Points_Count" "Pct_of_Data_Points"
               (SummaryTables.generate_wv_purpose_table sample_wv).
Proof.
  apply (tables_totals_agree sample_class sample_wv).
  - discriminate.
  - discriminate.
  - repeat constructor; discriminate.
  - repeat constructor; eexists; (split; [reflexivity | simpl; tauto]).
  - repeat constructor; discriminate.
Defined.

(** C1, as stated, fails: for the empty classification table, Table 1 is
    the Total row alone, so the percentages of the other rows add up to 0;
    and a row whose Decade is none of the six labels of Table 4 is counted
    in the Total row of Table 4 only. *)
Lemma tables_totals_counterexample :
  ~ percentages_add_up "Percentage" (SummaryTables.generate_classification_table []) /\
  exists t4,
    SummaryTables.generate_year_table [ paper "A" "LP" "Norway" "2026–2030" 2026 ] = Ok t4 /\
    ~ counts_add_up "Count" t4.
Proof.
  split.
  - intros (_ & H & _). vm_compute in H. lia.
  - eexists. split; [vm_compute; reflexivity|].
    intros H. vm_compute in H. discriminate.
Qed.

(** ** The three-row example *)

Lemma perm_aab {A} (a b : A) (l : list A) :
  Permutation l [a; a; b] -> l = [a; a; b] \/ l = [a; b; a] \/ l = [b; a; a].
Proof.
  intros H.
  destruct (Permutation_vs_cons_inv H) as (l1 & l2 & ->).
  apply Permutation_sym, Permutation_cons_app_inv, Permutation_length_2_inv in H.
  destruct H as [H|H];
    destruct l1 as [|x [|y [|z l1]]]; simpl in H; inversion H; subst; simpl; auto;
    match goal with
    | E : _ ++ _ = [] |- _ => apply app_eq_nil in E; destruct E; discriminate
    | _ => idtac
    end.
Qed.

(** C8.  For a classification table of three rows whose Classification
    cells are A, A and B, Table 1 is the row of A with count 2 and 66.7 %,
    the row of B with count 1 and 33.3 %, and the Total row with count 3 and
    100.0 %, in that order. *)
Theorem table1_three_rows (df : ClassFrame) :
  Permutation (map Classification df) [Some "A"; Some "A"; Some "B"] ->
  SummaryTables.generate_classification_table df =
  [ [ ("Category", VStr "A");
      ("Category_Name", VStr "Hydropower scheduling and water values");
      ("Count", VInt 2); ("Percentage", VFloat (Tenths 667)) ];
    [ ("Category", VStr "B");
      ("Category_Name", VStr "Stochastic programming for hydropower");
      ("Count", VInt 1); ("Percentage", VFloat (Tenths 333)) ];
    [ ("Category", VStr "Total"); ("Category_Name", VStr EmptyString);
      ("Count", VInt 3); ("Percentage", VFloat (Tenths 1000)) ] ].
Proof.
  intros H.
  assert (Hlen : length df = 3).
  { rewrite <- (length_map Classification), (Permutation_length H). reflexivity. }
  unfold SummaryTables.generate_classification_table. rewrite Hlen.
  destruct (perm_aab _ _ _ H) as [E|[E|E]]; rewrite E; vm_compute; reflexivity.
Qed.

(** In binary64 the two shares of the example round to the values
    nearest 66.7 and 33.3, the [Tenths 667] and [Tenths 333] of the table. *)
Example three_rows_binary64 :
  PrimFloat.eqb (Binary64.percentage 2 3) (Binary64.of_tenths 667) = true /\
  PrimFloat.eqb (Binary64.percentage 1 3) (Binary64.of_tenths 333) = true.
Proof. split; vm_compute; reflexivity. Qed.

(** At an exact tie the two roundings differ by a tenth: 23 papers of
    80 are 28.75 %, [Tenths 288] for the exact share and 28.7 in
    binary64. *)
Example percentage_at_a_tie :
  np_percentage 23 80 = Tenths 288 /\
  PrimFloat.eqb (Binary64.percentage 23 80) (Binary64.of_tenths 287) = true.
Proof. split; vm_compute; reflexivity. Qed.

Lemma table1_three_rows_witness :
  SummaryTables.generate_classification_table sample_class =
  [ [ ("Category", VStr "A");
      ("Category_Name", VStr "Hydropower scheduling and water values");
      ("Count", VInt 2); ("Percentage", VFloat (Tenths 667)) ];
    [ ("Category", VStr "B");
      ("Category_Name", VStr "Stochastic programming for hydropower");
      ("Count", VInt 1); ("Percentage", VFloat (Tenths 333)) ];
    [ ("Category", VStr "Total"); ("Category_Name", VStr EmptyString);
      ("Count", VInt 3); ("Percentage", VFloat (Tenths 1000)) ] ].
Proof.
  apply (table1_three_rows sample_class). simpl. apply Permutation_refl.
Defined.

(** ** Division by the number of rows *)

Lemma np_percentage_finite (c n : nat) :
  0 < n -> exists t, np_percentage c n = Tenths t.
Proof.
  intros Hn. unfold np_percentage.
  destruct (Nat.eqb_spec n 0); [lia | eauto].
Qed.

Lemma rows_ok_finite (ckey pkey : string) (n : nat) (rows : list record) :
  0 < n -> Forall (row_ok ckey pkey n) rows -> Forall (finite_pct pkey) rows.
Proof.
  intros Hn H. eapply Forall_impl; [|exact H].
  intros r Hr. unfold row_ok in Hr. unfold finite_pct.
  destruct (np_percentage_finite (Count_of ckey r) n Hn) as [t Ht].
  exists t. congruence.
Qed.

Lemma table1_finite (df : ClassFrame) :
  df <> [] ->
  Forall (finite_pct "Percentage") (SummaryTables.generate_classification_table df).
Proof.
  intros Hne. apply nonempty_length in Hne.
  unfold SummaryTables.generate_classification_table.
  apply Forall_app. split.
  - apply (rows_ok_finite "Count" "Percentage" (length df)); [assumption|].
    apply Forall_forall. intros r Hin. apply in_map_iff in Hin as [cat [<- _]]. reflexivity.
  - repeat constructor. now exists 1000.
Qed.

Lemma table2_finite (df : ClassFrame) :
  df <> [] ->
  Forall (finite_pct "Percentage") (SummaryTables.generate_method_table df).
Proof.
  intros Hne. apply nonempty_length in Hne.
  unfold SummaryTables.generate_method_table.
  apply Forall_app. split.
  - apply (rows_ok_finite "Count" "Percentage" (length df)); [assumption|].
    eapply Forall_perm; [apply stable_sort_perm|].
    apply Forall_forall. intros r Hin. apply in_map_iff in Hin as [[m c] [<- _]]. reflexivity.
  - repeat constructor. now exists 1000.
Qed.

Lemma table3_finite (df : ClassFrame) :
  df <> [] ->
  exists t, SummaryTables.generate_region_table df = Ok t /\
            Forall (finite_pct "Percentage") t.
Proof.
  intros Hne. eexists. split; [now apply region_table_ok|].
  apply nonempty_length in Hne.
  apply Forall_app. split.
  - apply (rows_ok_finite "Count" "Percentage" (length df)); [assumption|].
    eapply Forall_perm; [apply stable_sort_perm | apply region_rows_unsorted_ok].
  - repeat constructor. now exists 1000.
Qed.

Lemma table4_finite (df : ClassFrame) :
  df <> [] ->
  exists t, SummaryTables.generate_year_table df = Ok t /\
            Forall (finite_pct "Percentage") t.
Proof.
  intros Hne. eexists. split; [now apply year_table_ok|].
  apply nonempty_length in Hne.
  apply Forall_app. split.
  - apply (rows_ok_finite "Count" "Percentage" (length df)); [assumption|].
    apply Forall_forall. intros r Hin. apply in_map_iff in Hin as [d [<- _]]. reflexivity.
  - repeat constructor. now exists 1000.
Qed.

(** C10.  For a classification table that has rows, every percentage of
    Tables 1 to 4 is a finite number and Tables 3 and 4 are produced;
    [generate_year_table] raises ZeroDivisionError exactly for the table
    without rows. *)
Theorem percentages_well_defined (df : ClassFrame) :
  (df <> [] ->
   Forall (finite_pct "Percentage") (SummaryTables.generate_classification_table df) /\
   Forall (finite_pct "Percentage") (SummaryTables.generate_method_table df) /\
   (exists t3, SummaryTables.generate_region_table df = Ok t3 /\
               Forall (finite_pct "Percentage") t3) /\
   (exists t4, SummaryTables.generate_year_table df = Ok t4 /\
               Forall (finite_pct "Percentage") t4)) /\
  (SummaryTables.generate_year_table df = Raise ZeroDivisionError <-> df = []).
Proof.
  split.
  - intros Hne. split; [|split; [|split]].
    + now apply table1_finite.
    + now apply table2_finite.
    + now apply table3_finite.
    + now apply table4_finite.
  - split.
    + intros H. destruct df as [|r df]; [reflexivity|].
      rewrite year_table_ok in H by discriminate. discriminate.
    + intros ->. reflexivity.
Qed.

Lemma percentages_well_defined_witness :
  Forall (finite_pct "Percentage") (SummaryTables.generate_classification_table sample_class) /\
  Forall (finite_pct "Percentage") (SummaryTables.generate_method_table sample_class) /\
  (exists t3, SummaryTables.generate_region_table sample_class = Ok t3 /\
              Forall (finite_pct "Percentage") t3) /\
  (exists t4, SummaryTables.generate_year_table sample_class = Ok t4 /\
              Forall (finite_pct "Percentage") t4).
Proof.
  apply (proj1 (percentages_well_defined sample_class)). discriminate.
Defined.

(** ** Table 3: bucketing and order *)

Lemma in_value_counts (col : list (option string)) (k : string) (v : nat) :
  In (k, v) (Pandas.value_counts col) <-> v = occurrences k col /\ 0 < v.
Proof.
  split.
  - intros Hin. split.
    + rewrite <- value_counts_at_label. unfold Pandas.at_label.
      now rewrite (in_lookup k v _ (value_counts_NoDup col) Hin).
    + pose proof (value_counts_positive col) as Hpos.
      rewrite Forall_forall in Hpos. exact (Hpos _ Hin).
  - intros [-> Hpos].
    assert (Hk : In k (keys_of (Pandas.value_counts col))).
    { apply value_counts_keys. now apply occurrences_pos_in. }
    destruct (lookup_in k _ Hk) as [v Hv].
    pose proof (value_counts_at_label col k) as E.
    unfold Pandas.at_label in E. rewrite Hv in E. subst v.
    now apply lookup_some_in.
Qed.

Lemma mem_always_show (region : string) :
  SummaryTables.mem region SummaryTables.always_show = true
  <-> In region SummaryTables.always_show.
Proof. apply existsb_eqb_In. Qed.

Lemma bucketed_spec (df : ClassFrame) (region : string) (count : nat) :
  In (region, count) (filter bucketed (Pandas.value_counts (region_col df)))
  <-> count = occurrences region (region_col df) /\ below_threshold df region.
Proof.
  rewrite filter_In, in_value_counts. unfold bucketed, listed, below_threshold.
  cbn [fst snd].
  destruct (SummaryTables.mem region SummaryTables.always_show) eqn:Em;
    destruct (Nat.leb_spec 3 count) as [Hge|Hlt]; cbn [orb negb].
  - split; [intros [_ H]; discriminate|].
    intros [-> (_ & H & _)]. lia.
  - split; [intros [_ H]; discriminate|].
    intros [_ (_ & _ & H)]. exfalso. apply H. now apply mem_always_show.
  - split; [intros [_ H]; discriminate|].
    intros [-> (_ & H & _)]. lia.
  - assert (Hs : ~ In region SummaryTables.always_show).
    { rewrite <- mem_always_show. congruence. }
    split.
    + intros [[-> Hpos] _]. auto.
    + intros [-> (Hpos & _ & _)]. auto.
Qed.

Lemma NoDup_keys_filter (p : string * nat -> bool) (c : Pandas.counts) :
  NoDup (keys_of c) -> NoDup (keys_of (filter p c)).
Proof.
  induction c as [|e c IH]; simpl; intros H; [constructor|].
  inversion H as [|? ? Hni Hnd]; subst.
  destruct (p e); simpl; [|now apply IH].
  constructor; [|now apply IH].
  intros Hin. apply Hni. unfold keys_of in *.
  apply in_map_iff in Hin as [x [E Hx]]. apply filter_In in Hx.
  apply in_map_iff. exists x. tauto.
Qed.

Lemma region_table_body (df : ClassFrame) (t : table) :
  SummaryTables.generate_region_table df = Ok t ->
  t = stable_sort (by_key_desc (Count_of "Count")) (listed_rows df ++ other_rows df)
      ++ [ [ ("Country_or_Region", VStr "Total");
             ("Count", VInt (length df));
             ("Percentage", VFloat (Tenths 1000)) ] ].
Proof.
  intros H. destruct df as [|r df]; [discriminate|].
  rewrite region_table_ok in H by discriminate.
  inversion H. reflexivity.
Qed.

(** The rows of Table 3 as the loop builds them: the rows other than
    the Total row are the rows that list one region each together with at
    most one bucket row, for the regions [lows] of the bucket. *)
Lemma region_table_buckets (df : ClassFrame) (t : table) :
  SummaryTables.generate_region_table df = Ok t ->
  Permutation (body t) (listed_rows df ++ other_rows df) /\
  (exists lows : list string,
      NoDup lows /\
      (forall region, In region lows <-> below_threshold df region) /\
      (forall region row, In region lows -> In row (listed_rows df) ->
                          get "Country_or_Region" row <> Some (VStr region)) /\
      other_rows df =
        match lows with
        | [] => []
        | _ :: _ =>
            [ [ ("Country_or_Region",
                  VStr ("Other (" ++ str_of_nat (length lows) ++ " countries/regions)"));
                ("Count",
                  VInt (list_sum (map (fun region => occurrences region (region_col df)) lows)));
                ("Percentage",
                  VFloat (np_percentage
                            (list_sum (map (fun region => occurrences region (region_col df))
                                           lows))
                            (length df))) ] ]
        end) /\
  (forall sentinel, In sentinel SummaryTables.always_show ->
                    0 < occurrences sentinel (region_col df) ->
                    In (SummaryTables.region_row (length df)
                          (sentinel, occurrences sentinel (region_col df)))
                       (listed_rows df)).
Proof.
  intros Ht. apply region_table_body in Ht. subst t.
  pose proof (region_buckets_spec (Pandas.value_counts (region_col df))) as Hspec.
  change (SummaryTables.region_buckets (Pandas.value_counts (region_col df)))
    with (buckets_of df) in Hspec.
  cbv zeta in Hspec. destruct Hspec as (Hmain & Hother & Hn).
  set (raw := Pandas.value_counts (region_col df)) in *.
  split; [|split].
  - unfold body. rewrite removelast_last.
    apply Permutation_sym, stable_sort_perm.
  - exists (keys_of (filter bucketed raw)).
    assert (Hocc : map (fun region => occurrences region (region_col df))
                       (keys_of (filter bucketed raw))
                   = map snd (filter bucketed raw)).
    { unfold keys_of. rewrite map_map. apply map_ext_in.
      intros [region count] Hin. apply bucketed_spec in Hin. simpl. symmetry. apply Hin. }
    split; [|split; [|split]].
    + apply NoDup_keys_filter, value_counts_NoDup.
    + intros region. unfold keys_of. rewrite in_map_iff. split.
      * intros [[r c] [E Hin]]. simpl in E. subst r. now apply bucketed_spec in Hin.
      * intros H. exists (region, occurrences region (region_col df)).
        split; [reflexivity|]. now apply bucketed_spec.
    + intros region row Hlow Hrow Hget.
      unfold listed_rows in Hrow. rewrite Hmain in Hrow.
      apply in_map_iff in Hrow as [[r c] [<- Hin]].
      simpl in Hget. inversion Hget; subst r.
      apply filter_In in Hin as [Hin Hlisted].
      unfold keys_of in Hlow. apply in_map_iff in Hlow as [[r' c'] [E Hin']].
      simpl in E. subst r'.
      apply filter_In in Hin' as [Hin' Hb].
      assert (c' = c).
      { apply in_value_counts in Hin, Hin'. destruct Hin, Hin'. congruence. }
      subst c'. unfold bucketed in Hb. rewrite Hlisted in Hb. discriminate.
    + unfold other_rows. rewrite Hother, Hn, Hocc.
      unfold keys_of. rewrite length_map.
      destruct (filter bucketed raw) as [|[r c] l] eqn:E; [reflexivity|].
      assert (Hc : 0 < c).
      { assert (Hin : In (r, c) (filter bucketed raw)) by (rewrite E; now left).
        apply filter_In in Hin as [Hin _]. now apply in_value_counts in Hin. }
      destruct (Nat.ltb_spec 0 (list_sum (map snd ((r, c) :: l)))) as [_|Hle];
        [reflexivity | simpl in Hle; lia].
  - intros s Hs Hpos. unfold listed_rows. rewrite Hmain.
    apply in_map, filter_In. split.
    + now apply in_value_counts.
    + unfold listed. cbn [fst snd]. apply mem_always_show in Hs. now rewrite Hs.
Qed.

Lemma share_rounded_intro (n count : nat) (r : record) :
  0 < n ->
  get "Count" r = Some (VInt count) ->
  get "Percentage" r = Some (VFloat (np_percentage count n)) ->
  share_rounded n r.
Proof.
  intros Hn Hc Hp. rewrite np_percentage_pos in Hp by exact Hn.
  exists count, (round_half_even (1000 * count) n).
  split; [exact Hc|]. split; [exact Hp|].
  pose proof (round_half_even_near (1000 * count) n Hn) as [B1 B2].
  split; lia.
Qed.

Lemma listed_spec (df : ClassFrame) (region : string) (count : nat) :
  In (region, count) (filter listed (Pandas.value_counts (region_col df)))
  <-> count = occurrences region (region_col df) /\ 0 < count /\
      (region = "Not specified" \/ region = "Synthetic/Theoretical" \/ 3 <= count).
Proof.
  rewrite filter_In, in_value_counts. unfold listed. cbn [fst snd].
  rewrite orb_true_iff, mem_always_show, Nat.leb_le.
  unfold SummaryTables.always_show. cbn [In].
  split.
  - intros [[-> Hpos] [[<- | [<- | []]] | Hge]]; auto.
  - intros (-> & Hpos & [-> | [-> | Hge]]); auto.
Qed.

(** C2, as amended.  When Table 3 is produced, its rows other than the
    Total row are, by label and count: a row of its own for each region
    that occurs and either is one of the two sentinel categories "Not
    specified" and "Synthetic/Theoretical" or occurs at least 3 times, with
    the number of its occurrences; and, when some region that is not a
    sentinel occurs fewer than 3 times, one row "Other (N
    countries/regions)" for the N such regions, whose count is the sum of
    their counts, each of them counted once.  A region of the bucket has
    no row of its own.  A sentinel has its row whenever it occurs, with a
    count of 1 or 2 as well, and no row when it does not occur.  Every row
    has the three cells of the table, the percentage being the share of
    the count rounded to one decimal place. *)
Theorem region_bucketing (df : ClassFrame) (t : table) :
  SummaryTables.generate_region_table df = Ok t ->
  exists (singles : list (string * nat)) (lows : list string),
    Permutation (map (entry_of "Country_or_Region") (body t))
                (map Some (singles ++ other_entry df lows)) /\
    NoDup (map fst singles) /\ NoDup lows /\
    (forall region count,
        In (region, count) singles <->
        count = occurrences region (region_col df) /\ 0 < count /\
        (region = "Not specified" \/ region = "Synthetic/Theoretical" \/ 3 <= count)) /\
    (forall region,
        In region lows <->
        0 < occurrences region (region_col df) /\
        occurrences region (region_col df) < 3 /\
        region <> "Not specified" /\ region <> "Synthetic/Theoretical") /\
    (forall region, In region lows -> ~ In region (map fst singles)) /\
    (forall sentinel,
        sentinel = "Not specified" \/ sentinel = "Synthetic/Theoretical" ->
        (exists row, In row (body t) /\
                     get "Country_or_Region" row = Some (VStr sentinel))
        <-> 0 < occurrences sentinel (region_col df)) /\
    Forall (fun row => map fst row = ["Country_or_Region"; "Count"; "Percentage"] /\
                       share_rounded (length df) row)
           (body t).
Proof.
  intros Ht.
  assert (Hn : 0 < length df).
  { destruct df; [discriminate | cbn [length]; lia]. }
  destruct (region_table_buckets df t Ht) as (Hperm & (lows & Hnd & Hlows & _ & Hother) & _).
  pose proof (region_buckets_spec (Pandas.value_counts (region_col df))) as Hspec.
  change (SummaryTables.region_buckets (Pandas.value_counts (region_col df)))
    with (buckets_of df) in Hspec.
  cbv zeta in Hspec. destruct Hspec as (Hmain & _ & _).
  exists (SummaryTables.main_entries (buckets_of df)), lows.
  assert (Hsingles : forall region count,
             In (region, count) (SummaryTables.main_entries (buckets_of df)) <->
             count = occurrences region (region_col df) /\ 0 < count /\
             (region = "Not specified" \/ region = "Synthetic/Theoretical" \/ 3 <= count)).
  { intros region count. rewrite Hmain. apply listed_spec. }
  assert (Hlows' : forall region,
             In region lows <->
             0 < occurrences region (region_col df) /\
             occurrences region (region_col df) < 3 /\
             region <> "Not specified" /\ region <> "Synthetic/Theoretical").
  { intros region. rewrite Hlows. unfold below_threshold, SummaryTables.always_show.
    cbn [In]. split.
    - intros (H1 & H2 & H3). repeat split; auto; intros ->; apply H3; auto.
    - intros (H1 & H2 & H3 & H4). repeat split; auto.
      intros [E | [E | []]]; congruence. }
  assert (Hrows : Forall (fun row =>
                            map fst row = ["Country_or_Region"; "Count"; "Percentage"] /\
                            share_rounded (length df) row) (body t)).
  { apply Forall_forall. intros row Hrow.
    apply (Permutation_in _ Hperm) in Hrow. apply in_app_or in Hrow as [Hrow | Hrow].
    + unfold listed_rows in Hrow. apply in_map_iff in Hrow as [[region count] [<- _]].
      split; [reflexivity|]. now apply (share_rounded_intro _ count).
    + rewrite Hother in Hrow. destruct lows as [|region lows']; [destruct Hrow|].
      destruct Hrow as [<- | []]. split; [reflexivity|].
      now apply (share_rounded_intro _
                   (list_sum (map (fun region => occurrences region (region_col df))
                                  (region :: lows')))). }
  assert (Hentries : Permutation (map (entry_of "Country_or_Region") (body t))
                       (map Some (SummaryTables.main_entries (buckets_of df)
                                  ++ other_entry df lows))).
  { eapply perm_trans; [apply Permutation_map, Hperm|].
    rewrite !map_app. apply Permutation_app.
    + unfold listed_rows. rewrite map_map.
      rewrite (map_ext _ Some); [apply Permutation_refl|]. now intros [region count].
    + rewrite Hother. unfold other_entry. destruct lows; apply Permutation_refl. }
  split; [exact Hentries|].
  split; [rewrite Hmain; apply NoDup_keys_filter, value_counts_NoDup|].
  split; [exact Hnd|]. split; [exact Hsingles|]. split; [exact Hlows'|].
  split; [|split; [|exact Hrows]].
  - intros region Hlow Hin. apply in_map_iff in Hin as [[r c] [E Hin]].
    cbn [fst] in E. subst r. apply Hsingles in Hin as (-> & _ & Hcase).
    apply Hlows' in Hlow as (_ & Hlt & Hn1 & Hn2).
    destruct Hcase as [E | [E | Hge]]; [congruence | congruence | lia].
  - intros sentinel Hs. split.
    + intros (row & Hrow & Hlabel).
      assert (Hc : exists count, entry_of "Country_or_Region" row = Some (sentinel, count)).
      { rewrite Forall_forall in Hrows. destruct (Hrows row Hrow) as [_ (count & _ & Hc & _)].
        exists count. unfold entry_of. now rewrite Hlabel, Hc. }
      destruct Hc as [count Hc].
      assert (Hin : In (Some (sentinel, count))
                       (map Some (SummaryTables.main_entries (buckets_of df)
                                  ++ other_entry df lows))).
      { apply (Permutation_in _ Hentries). rewrite <- Hc. now apply in_map. }
      apply in_map_iff in Hin as [e [E Hin]]. injection E as ->.
      apply in_app_or in Hin as [Hin | Hin].
      * apply Hsingles in Hin as (-> & Hpos & _). exact Hpos.
      * exfalso. unfold other_entry in Hin. destruct lows; [destruct Hin|].
        destruct Hin as [E | []]. injection E as E _.
        destruct Hs as [-> | ->]; discriminate.
    + intros Hpos.
      assert (Hin : In (Some (sentinel, occurrences sentinel (region_col df)))
                       (map (entry_of "Country_or_Region") (body t))).
      { apply (Permutation_in _ (Permutation_sym Hentries)).
        apply in_map, in_or_app. left. apply Hsingles. tauto. }
      apply in_map_iff in Hin as [row [Hrow Hin]]. exists row. split; [exact Hin|].
      unfold entry_of in Hrow.
      destruct (get "Country_or_Region" row) as [[label| |]|]; try discriminate.
      destruct (get "Count" row) as [[|count|]|]; try discriminate.
      now injection Hrow as -> _.
Qed.

Lemma region_bucketing_witness :
  exists t,
    SummaryTables.generate_region_table sample_sentinels = Ok t /\
    map (entry_of "Country_or_Region") (body t)
    = [ Some ("Other (2 countries/regions)", 4); Some ("Norway", 3);
        Some ("Not specified", 1); Some ("Synthetic/Theoretical", 1) ] /\
    exists row, In row (body t) /\
                get "Country_or_Region" row = Some (VStr "Synthetic/Theoretical").
Proof.
  eexists. split; [vm_compute; reflexivity|]. split; [reflexivity|].
  destruct (region_bucketing sample_sentinels _ eq_refl)
    as (singles & lows & _ & _ & _ & _ & _ & _ & Hsentinel & _).
  apply (Hsentinel "Synthetic/Theoretical"); [now right|].
  vm_compute. apply le_n.
Defined.

(** C2, as stated, fails: in the table of [sample_regions] no paper is
    "Not specified" or "Synthetic/Theoretical", and Table 3 has the bucket
    row and the row of Norway only: a sentinel that does not occur gets no
    row. *)
Lemma region_bucketing_counterexample :
  exists t,
    SummaryTables.generate_region_table sample_regions = Ok t /\
    map (entry_of "Country_or_Region") (body t)
    = [ Some ("Other (2 countries/regions)", 4); Some ("Norway", 3) ] /\
    ~ sentinels_always_listed t.
Proof.
  eexists. split; [vm_compute; reflexivity|]. split; [reflexivity|].
  intros H. destruct (H "Not specified") as (row & Hin & Hget); [now left|].
  cbv in Hin. destruct Hin as [<- | [<- | []]]; discriminate.
Qed.


Lemma sorted_count_desc (rows : list record) :
  StronglySorted count_desc (stable_sort (by_key_desc (Count_of "Count")) rows).
Proof.
  pose proof (stable_sort_sorted (by_key_desc (Count_of "Count"))
                (by_key_desc_total (Count_of "Count")) rows) as H.
  apply Sorted_StronglySorted in H.
  - induction H as [|a l Hl IH Ha]; constructor; [exact IH|].
    eapply Forall_impl; [|exact Ha].
    intros b Hb. unfold by_key_desc in Hb. apply Nat.leb_le in Hb. exact Hb.
  - intros a b c Hab Hbc. unfold by_key_desc in *.
    apply Nat.leb_le in Hab, Hbc. apply Nat.leb_le. lia.
Qed.

(** C4, as amended.  When Table 3 is produced, it is the Total row
    preceded by the rows that list one region each and the bucket row (when
    there is one), all of them in one sequence of descending count: the
    bucket row stands where its count places it. *)
Theorem region_table_order (df : ClassFrame) (t : table) :
  SummaryTables.generate_region_table df = Ok t ->
  exists rows,
    t = rows ++ [ [ ("Country_or_Region", VStr "Total");
                    ("Count", VInt (length df));
                    ("Percentage", VFloat (Tenths 1000)) ] ] /\
    Permutation rows (listed_rows df ++ other_rows df) /\
    StronglySorted count_desc rows.
Proof.
  intros Ht. apply region_table_body in Ht.
  eexists. split; [exact Ht|]. split.
  - apply Permutation_sym, stable_sort_perm.
  - apply sorted_count_desc.
Qed.

Lemma region_table_order_witness :
  exists t rows,
    SummaryTables.generate_region_table sample_regions = Ok t /\
    t = rows ++ [ [ ("Country_or_Region", VStr "Total");
                    ("Count", VInt (length sample_regions));
                    ("Percentage", VFloat (Tenths 1000)) ] ] /\
    Permutation rows (listed_rows sample_regions ++ other_rows sample_regions) /\
    StronglySorted count_desc rows.
Proof.
  eexists.
  destruct (region_table_order sample_regions _ eq_refl) as [rows H].
  exists rows. split; [reflexivity | exact H].
Defined.

(** C4, as stated, fails: with Norway on three papers and Chile and Peru
    on two each, the bucket row (count 4) stands before the row of Norway
    (count 3). *)
Lemma region_table_order_counterexample :
  SummaryTables.generate_region_table sample_regions =
  Ok [ [ ("Country_or_Region", VStr "Other (2 countries/regions)");
         ("Count", VInt 4); ("Percentage", VFloat (Tenths 571)) ];
       [ ("Country_or_Region", VStr "Norway");
         ("Count", VInt 3); ("Percentage", VFloat (Tenths 429)) ];
       [ ("Country_or_Region", VStr "Total");
         ("Count", VInt 7); ("Percentage", VFloat (Tenths 1000)) ] ] /\
  ~ (forall t, SummaryTables.generate_region_table sample_regions = Ok t ->
               other_appended_last sample_regions t).
Proof.
  split; [vm_compute; reflexivity|].
  intros H. destruct (H _ eq_refl) as (listing & Hperm & _ & Hbody).
  apply Permutation_length in Hperm.
  vm_compute in Hperm, Hbody.
  destruct listing as [|r [|r' l]]; simpl in Hperm; try discriminate;
    try (simpl in Hbody; inversion Hbody).
Qed.

(** ** Chart 2: which regions get a bar of their own *)

Lemma sorted_key_desc (c : Pandas.counts) :
  StronglySorted key_desc (stable_sort (by_key_desc snd) c).
Proof.
  pose proof (stable_sort_sorted (by_key_desc snd)
                (by_key_desc_total (@snd string nat)) c) as H.
  apply Sorted_StronglySorted in H.
  - induction H as [|a l Hl IH Ha]; constructor; [exact IH|].
    eapply Forall_impl; [|exact Ha].
    intros b Hb. unfold by_key_desc in Hb. apply Nat.leb_le in Hb. exact Hb.
  - intros a b c' Hab Hbc. unfold by_key_desc in *.
    apply Nat.leb_le in Hab, Hbc. apply Nat.leb_le. lia.
Qed.

Lemma lookup_filter_key (q : string -> bool) (k : string) (c : Pandas.counts) :
  Pandas.lookup k (filter (fun e => q (fst e)) c)
  = if q k then Pandas.lookup k c else None.
Proof.
  induction c as [|[k' v] t IH]; simpl; [now destruct (q k)|].
  destruct (q k') eqn:Eq; simpl.
  - destruct (String.eqb_spec k' k) as [->|Hne]; [now rewrite Eq | exact IH].
  - destruct (String.eqb_spec k' k) as [->|Hne]; [now rewrite IH, Eq | exact IH].
Qed.

Lemma lookup_value_counts (col : list (option string)) (k : string) (v : nat) :
  Pandas.lookup k (Pandas.value_counts col) = Some v <-> v = occurrences k col /\ 0 < v.
Proof.
  rewrite <- in_value_counts. split.
  - apply lookup_some_in.
  - apply in_lookup, value_counts_NoDup.
Qed.

Lemma chart2_bars (df : ClassFrame) (bars : list (string * nat)) :
  Charts.create_geographic_distribution df = Ok bars ->
  bars = Charts.display_data (Pandas.value_counts (region_col df)).
Proof.
  unfold Charts.create_geographic_distribution. fold (region_col df).
  destruct (Pandas.lookup "Not specified" _); simpl.
  - destruct (Charts.display_data _); [discriminate | congruence].
  - destruct (py_percentage 0 (length df)); simpl; [|discriminate].
    destruct (Charts.display_data _); [discriminate | congruence].
Qed.

Lemma regular_counts_spec (df : ClassFrame) (region : string) (count : nat) :
  In (region, count) (Charts.regular_counts (Pandas.value_counts (region_col df)))
  <-> count = occurrences region (region_col df) /\ 0 < count
      /\ ~ In region Charts.special_categories.
Proof.
  unfold Charts.regular_counts. rewrite filter_In, in_value_counts. cbn [fst].
  rewrite negb_true_iff, <- not_true_iff_false.
  unfold Charts.mem. rewrite existsb_eqb_In. tauto.
Qed.

Lemma remainder_positive (df : ClassFrame) :
  Forall (fun e => 0 < snd e) (Charts.beyond_15 (Pandas.value_counts (region_col df))).
Proof.
  apply Forall_forall. intros [r c] Hin.
  unfold Charts.beyond_15 in Hin.
  assert (Hin' : In (r, c) (Charts.regular_sorted (Pandas.value_counts (region_col df)))).
  { rewrite <- (firstn_skipn 15). apply in_or_app. now right. }
  unfold Charts.regular_sorted in Hin'.
  eapply Permutation_in in Hin'; [|apply Permutation_sym, stable_sort_perm].
  apply regular_counts_spec in Hin'. simpl. tauto.
Qed.

(** C3, as amended.  When the bars of Chart 2 are produced, they are: a
    bar for each sentinel category that occurs, with its count; then one
    bar "Other (N regions)" for the regions beyond the fifteenth in
    descending order of count, when there are any, carrying the sum of
    their counts; then the first fifteen regions, each with a bar of its own
    whatever its count.  No count threshold is applied. *)
Theorem chart2_bucketing (df : ClassFrame) (bars : list (string * nat)) :
  Charts.create_geographic_distribution df = Ok bars ->
  let region_counts := Pandas.value_counts (region_col df) in
  bars = sentinel_bars df ++ remainder_bar df ++ region_bars df /\
  (forall cat count,
      In (cat, count) (sentinel_bars df) <->
      In cat Charts.special_categories /\ count = occurrences cat (region_col df)
      /\ 0 < count) /\
  Permutation (Charts.top_15 region_counts ++ Charts.beyond_15 region_counts)
              (Charts.regular_counts region_counts) /\
  StronglySorted key_desc (Charts.top_15 region_counts ++ Charts.beyond_15 region_counts) /\
  length (Charts.top_15 region_counts) <= 15 /\
  (Charts.beyond_15 region_counts <> [] -> length (Charts.top_15 region_counts) = 15) /\
  (forall region count,
      In (region, count) (Charts.regular_counts region_counts) <->
      count = occurrences region (region_col df) /\ 0 < count
      /\ ~ In region Charts.special_categories).
Proof.
  intros Hbars region_counts. apply chart2_bars in Hbars. subst bars.
  split; [|split; [|split; [|split; [|split; [|split]]]]].
  - unfold Charts.display_data, sentinel_bars, remainder_bar, region_bars.
    fold region_counts. f_equal. f_equal.
    pose proof (remainder_positive df) as Hpos. fold region_counts in Hpos.
    destruct (Charts.beyond_15 region_counts) as [|[r c] rest]; [reflexivity|].
    inversion Hpos as [|? ? Hc _]; subst. simpl in Hc.
    destruct (Nat.ltb_spec 0 (list_sum (map snd ((r, c) :: rest)))) as [_|Hle];
      [reflexivity | simpl in Hle; lia].
  - intros cat count. unfold sentinel_bars, Charts.special_counts.
    rewrite in_flat_map. split.
    + intros [s [Hs Hin]].
      rewrite (lookup_filter_key (fun k => Charts.mem k Charts.special_categories)) in Hin.
      assert (Hm : Charts.mem s Charts.special_categories = true)
        by (now apply existsb_eqb_In).
      rewrite Hm in Hin.
      destruct (Pandas.lookup s _) as [c|] eqn:E; [|destruct Hin].
      destruct Hin as [Heq|[]]. inversion Heq; subst.
      apply lookup_value_counts in E. tauto.
    + intros (Hs & Hc & Hpos). exists cat. split; [exact Hs|].
      rewrite (lookup_filter_key (fun k => Charts.mem k Charts.special_categories)).
      assert (Hm : Charts.mem cat Charts.special_categories = true)
        by (now apply existsb_eqb_In).
      rewrite Hm.
      rewrite (proj2 (lookup_value_counts (region_col df) cat count) (conj Hc Hpos)).
      now left.
  - unfold Charts.top_15, Charts.beyond_15. rewrite firstn_skipn.
    apply Permutation_sym, stable_sort_perm.
  - unfold Charts.top_15, Charts.beyond_15. rewrite firstn_skipn.
    apply sorted_key_desc.
  - unfold Charts.top_15. apply firstn_le_length.
  - unfold Charts.top_15, Charts.beyond_15. intros Hne.
    apply firstn_length_le.
    destruct (Nat.le_gt_cases 15 (length (Charts.regular_sorted region_counts)))
      as [H|H]; [exact H|].
    exfalso. apply Hne. apply skipn_all2. lia.
  - intros region count. apply regular_counts_spec.
Qed.

Lemma chart2_bucketing_witness :
  exists bars,
    Charts.create_geographic_distribution sample_regions = Ok bars /\
    bars = sentinel_bars sample_regions ++ remainder_bar sample_regions
           ++ region_bars sample_regions.
Proof.
  eexists. split; [vm_compute; reflexivity|].
  apply (chart2_bucketing sample_regions). vm_compute. reflexivity.
Defined.

(** C3, as stated, fails: with Norway on three papers and Chile and Peru
    on two each, Chart 2 gives each of the three a bar and has no "Other"
    bar, while Table 3 lists Norway alone and buckets the other two. *)
Lemma chart2_bucketing_counterexample :
  Charts.create_geographic_distribution sample_regions =
    Ok [ ("Peru", 2); ("Chile", 2); ("Norway", 3) ] /\
  SummaryTables.main_entries (buckets_of sample_regions) = [ ("Norway", 3) ] /\
  ~ same_rule_as_table3 sample_regions.
Proof.
  split; [vm_compute; reflexivity|].
  split; [vm_compute; reflexivity|].
  intros H. specialize (H "Chile"). vm_compute in H.
  destruct H as [H _].
  destruct H as [E|[]]; [tauto | discriminate].
Qed.

(** ** Chart 1: the centered rolling means *)

Lemma count_range (a b n : nat) :
  length (filter (fun j => (a <=? j) && (j <? b)) (seq 0 n)) = Nat.min b n - Nat.min a n.
Proof.
  induction n as [|n IH]; [simpl; lia|].
  rewrite seq_S, filter_app, length_app, IH. simpl.
  destruct (Nat.leb_spec a n); destruct (Nat.ltb_spec n b); simpl; lia.
Qed.

Lemma half_of_odd (offset : nat) : (2 * offset + 1 - 1) / 2 = offset.
Proof.
  replace (2 * offset + 1 - 1) with (offset * 2) by lia.
  apply Nat.div_mul. discriminate.
Qed.

Lemma periods_odd_window (offset n i : nat) :
  periods_in_window (2 * offset + 1) n i
  = Nat.min (i + 1 + offset) n - Nat.min (i - offset) n.
Proof.
  unfold periods_in_window. rewrite half_of_odd, <- count_range.
  f_equal. apply filter_ext. intros j.
  destruct (Nat.leb_spec i (j + offset)); destruct (Nat.leb_spec j (i + offset));
    destruct (Nat.leb_spec (i - offset) j); destruct (Nat.ltb_spec j (i + 1 + offset));
    simpl; try reflexivity; lia.
Qed.

Lemma window_values_length (offset : nat) (xs : list nat) (i : nat) :
  length (Charts.window_values (2 * offset + 1) xs i)
  = periods_in_window (2 * offset + 1) (length xs) i.
Proof.
  rewrite periods_odd_window.
  unfold Charts.window_values, Charts.window_bounds. rewrite half_of_odd.
  rewrite length_firstn, length_skipn.
  replace (i + 1 + offset - (2 * offset + 1)) with (i - offset) by lia.
  lia.
Qed.

Lemma rolling_mean_length (window min_periods : nat) (xs : list nat) :
  length (Charts.rolling_mean window min_periods xs) = length xs.
Proof.
  unfold Charts.rolling_mean. now rewrite length_map, length_seq.
Qed.

Lemma rolling_mean_undefined (offset min_periods : nat) (xs : list nat) (i : nat) :
  i < length xs ->
  (nth_error (Charts.rolling_mean (2 * offset + 1) min_periods xs) i = Some None
   <-> periods_in_window (2 * offset + 1) (length xs) i < min_periods) /\
  (nth_error (Charts.rolling_mean (2 * offset + 1) min_periods xs) i = Some None
   \/ exists mean, nth_error (Charts.rolling_mean (2 * offset + 1) min_periods xs) i
                   = Some (Some mean)).
Proof.
  intros Hi. unfold Charts.rolling_mean.
  rewrite nth_error_map, nth_error_nth' with (d := 0) by (now rewrite length_seq).
  rewrite seq_nth by assumption. cbn [option_map Nat.add].
  rewrite window_values_length.
  destruct (Nat.ltb_spec (periods_in_window (2 * offset + 1) (length xs) i) min_periods).
  - split; [tauto | now left].
  - split; [|right; eauto].
    split; [discriminate | lia].
Qed.

(** C5.  For every series of yearly counts, the 3-year and the 5-year
    centered rolling means have the length of the series, and at every
    index the value is undefined exactly when fewer than the minimum number
    of periods (2 of 3, 3 of 5) fall inside the centered window, and is a
    number otherwise. *)
Theorem rolling_means (xs : list nat) :
  length (Charts.ma_3yr xs) = length xs /\
  length (Charts.ma_5yr xs) = length xs /\
  forall i, i < length xs ->
    (nth_error (Charts.ma_3yr xs) i = Some None
     <-> periods_in_window 3 (length xs) i < 2) /\
    (nth_error (Charts.ma_3yr xs) i = Some None
     \/ exists mean, nth_error (Charts.ma_3yr xs) i = Some (Some mean)) /\
    (nth_error (Charts.ma_5yr xs) i = Some None
     <-> periods_in_window 5 (length xs) i < 3) /\
    (nth_error (Charts.ma_5yr xs) i = Some None
     \/ exists mean, nth_error (Charts.ma_5yr xs) i = Some (Some mean)).
Proof.
  split; [apply rolling_mean_length|].
  split; [apply rolling_mean_length|].
  intros i Hi.
  destruct (rolling_mean_undefined 1 2 xs i Hi) as [A B].
  destruct (rolling_mean_undefined 2 3 xs i Hi) as [C D].
  repeat split; try apply A; try apply C; assumption.
Qed.

Example ma_3yr_single : Charts.ma_3yr [5] = [None].
Proof. reflexivity. Qed.

Example ma_3yr_three : Charts.ma_3yr [1; 2; 3] = [Some (3 # 2); Some (6 # 3); Some (5 # 2)]%Q.
Proof. reflexivity. Qed.

Example ma_5yr_two : Charts.ma_5yr [1; 2] = [None; None].
Proof. reflexivity. Qed.

Example annual_totals_sample : Charts.annual_totals sample_class = Ok [0; 1; 1].
Proof. vm_compute. reflexivity. Qed.

Lemma rolling_means_witness :
  nth_error (Charts.ma_5yr [4; 0; 2]) 0 = Some None
  <-> periods_in_window 5 (length [4; 0; 2]) 0 < 3.
Proof.
  apply (proj2 (proj2 (rolling_means [4; 0; 2])) 0). simpl. lia.
Defined.

(** ** The pipeline runner *)

Section RunnerFacts.

Variable spawn : string -> list string -> Pipeline.outcome * list string.

Lemma banners_print (m : Pipeline.message) (st : Pipeline.State) :
  banners (Pipeline.print m st)
  = banners st ++ match m with Pipeline.StepBanner n => [n] | _ => [] end.
Proof.
  unfold banners, Pipeline.print. simpl.
  rewrite flat_map_app. simpl. now rewrite app_nil_r.
Qed.

Lemma run_step_banners (step : Pipeline.Step) (st : Pipeline.State) :
  banners (snd (Pipeline.run_step spawn step st)) = banners st ++ [Pipeline.number step].
Proof.
  unfold Pipeline.run_step. cbv zeta.
  set (st1 := Pipeline.print (Pipeline.StepBanner (Pipeline.number step)) st).
  assert (H1 : banners st1 = banners st ++ [Pipeline.number step])
    by apply banners_print.
  destruct (Pipeline.exists_path (Pipeline.SCRIPTS_DIR ++ "/" ++ Pipeline.script step) st1);
    cbn [negb].
  2: { cbn [snd]. rewrite banners_print, H1. now rewrite app_nil_r. }
  destruct (spawn (Pipeline.SCRIPTS_DIR ++ "/" ++ Pipeline.script step) (Pipeline.fs st1))
    as [result fs'].
  assert (H2 : banners {| Pipeline.fs := fs'; Pipeline.console := Pipeline.console st1 |}
               = banners st ++ [Pipeline.number step]) by exact H1.
  destruct result as [rc| |e].
  - destruct (rc =? 0)%Z; cbn [negb].
    + destruct (filter _ (Pipeline.outputs step)); cbn [snd];
        rewrite ?banners_print, H2; now rewrite ?app_nil_r.
    + cbn [snd]. rewrite banners_print, H2. now rewrite app_nil_r.
  - cbn [snd]. rewrite banners_print, H2. now rewrite app_nil_r.
  - cbn [snd]. rewrite banners_print, H2. now rewrite app_nil_r.
Qed.

Lemma run_steps_halted (steps : list Pipeline.Step) (acc : list (Z * bool))
      (st : Pipeline.State) :
  exists l,
    fst (Pipeline.run_steps spawn true steps acc st) = acc ++ l /\
    halted_run steps l /\
    banners (snd (Pipeline.run_steps spawn true steps acc st)) = banners st ++ map fst l.
Proof.
  revert acc st. induction steps as [|step rest IH]; intros acc st; simpl.
  - exists []. rewrite !app_nil_r. repeat split. constructor.
  - pose proof (run_step_banners step st) as Hb.
    destruct (Pipeline.run_step spawn step st) as [success st1]. simpl in Hb.
    destruct success; simpl.
    + destruct (IH (acc ++ [(Pipeline.number step, true)]) st1) as (l & H1 & H2 & H3).
      exists ((Pipeline.number step, true) :: l). split; [|split].
      * rewrite H1, <- app_assoc. reflexivity.
      * now constructor.
      * rewrite H3, Hb, <- app_assoc. reflexivity.
    + exists [(Pipeline.number step, false)]. split; [reflexivity|]. split.
      * constructor.
      * rewrite banners_print, Hb, app_nil_r. reflexivity.
Qed.

Lemma run_steps_all (halt : bool) (steps : list Pipeline.Step) (acc : list (Z * bool))
      (st : Pipeline.State) :
  (forall n, In (n, false) (fst (Pipeline.run_steps spawn halt steps acc st)) ->
             In (n, false) acc \/ In n (map Pipeline.number steps)).
Proof.
  revert acc st. induction steps as [|step rest IH]; intros acc st n; simpl.
  - auto.
  - destruct (Pipeline.run_step spawn step st) as [success st1].
    destruct (negb success && halt); simpl.
    + intros H. apply in_app_or in H. destruct H as [H|[H|[]]]; [auto|].
      inversion H. auto.
    + intros H. apply IH in H. destruct H as [H|H]; [|auto].
      apply in_app_or in H. destruct H as [H|[H|[]]]; [auto|].
      inversion H. auto.
Qed.

End RunnerFacts.

Lemma run_step_completed (spawn : string -> list string -> Pipeline.outcome * list string)
      (step : Pipeline.Step) (st : Pipeline.State) (rc : Z) (fs' : list string) :
  Pipeline.exists_path (script_path step) st = true ->
  spawn (script_path step) (Pipeline.fs st) = (Pipeline.Completed rc, fs') ->
  Pipeline.run_step spawn step st =
  let st1 := {| Pipeline.fs := fs';
                Pipeline.console := Pipeline.console st
                                    ++ [Pipeline.StepBanner (Pipeline.number step)] |} in
  if (rc =? 0)%Z then
    match missing_from fs' step with
    | [] => (true, Pipeline.print (Pipeline.CompletedSuccessfully (Pipeline.number step)) st1)
    | missing =>
        (true, Pipeline.print Pipeline.CompletedWithWarnings
                 (Pipeline.print (Pipeline.MissingOutputs missing) st1))
    end
  else (false, Pipeline.print (Pipeline.Failed rc) st1).
Proof.
  intros Hscript Hspawn. unfold Pipeline.run_step. cbv zeta.
  change (Pipeline.SCRIPTS_DIR ++ "/" ++ Pipeline.script step)%string with (script_path step).
  change (Pipeline.exists_path (script_path step)
            (Pipeline.print (Pipeline.StepBanner (Pipeline.number step)) st))
    with (Pipeline.exists_path (script_path step) st).
  rewrite Hscript. cbn [negb].
  change (Pipeline.fs (Pipeline.print (Pipeline.StepBanner (Pipeline.number step)) st))
    with (Pipeline.fs st).
  rewrite Hspawn.
  destruct (rc =? 0)%Z; cbn [negb]; [|reflexivity].
  unfold missing_from, Pipeline.exists_path. cbn [Pipeline.fs].
  destruct (filter _ (Pipeline.outputs step)); reflexivity.
Qed.

Lemma run_step_not_completed (spawn : string -> list string -> Pipeline.outcome * list string)
      (step : Pipeline.Step) (st : Pipeline.State) :
  Pipeline.exists_path (script_path step) st = true ->
  (forall rc, fst (spawn (script_path step) (Pipeline.fs st)) <> Pipeline.Completed rc) ->
  fst (Pipeline.run_step spawn step st) = false.
Proof.
  intros Hscript Hspawn. unfold Pipeline.run_step. cbv zeta.
  change (Pipeline.SCRIPTS_DIR ++ "/" ++ Pipeline.script step)%string with (script_path step).
  change (Pipeline.exists_path (script_path step)
            (Pipeline.print (Pipeline.StepBanner (Pipeline.number step)) st))
    with (Pipeline.exists_path (script_path step) st).
  rewrite Hscript. cbn [negb].
  change (Pipeline.fs (Pipeline.print (Pipeline.StepBanner (Pipeline.number step)) st))
    with (Pipeline.fs st).
  destruct (spawn (script_path step) (Pipeline.fs st)) as [[rc| |e] fs'].
  - exfalso. now apply (Hspawn rc).
  - reflexivity.
  - reflexivity.
Qed.

Lemma halted_run_STEPS (l : list (Z * bool)) :
  halted_run Pipeline.STEPS l ->
  l = [(1, false)]%Z \/ l = [(1, true); (2, false)]%Z
  \/ l = [(1, true); (2, true); (3, false)]%Z
  \/ l = [(1, true); (2, true); (3, true)]%Z.
Proof.
  unfold Pipeline.STEPS. intros H.
  inversion H as [|s1 r1 l1 H1|]; subst; [|now left].
  inversion H1 as [|s2 r2 l2 H2|]; subst; [|now (right; left)].
  inversion H2 as [|s3 r3 l3 H3|]; subst; [|now (right; right; left)].
  inversion H3; subst. now (right; right; right).
Qed.

(** What [main] does when the database is there and [--step] is 0. *)
Lemma main_all (spawn : string -> list string -> Pipeline.outcome * list string)
      (files : list string) :
  existsb (String.eqb Pipeline.DB_PATH) files = true ->
  exists l,
    halted_run Pipeline.STEPS l /\
    Pipeline.results (Pipeline.main spawn 0 files) = l /\
    banners (Pipeline.final (Pipeline.main spawn 0 files)) = map fst l /\
    Pipeline.exit_code (Pipeline.main spawn 0 files)
    = (if existsb (fun r => negb (snd r)) l then 1 else 0)%Z.
Proof.
  intros Hdb. remember (Pipeline.main spawn 0 files) as run eqn:Erun.
  unfold Pipeline.main, Pipeline.check_prerequisites in Erun. cbv zeta in Erun.
  change (Pipeline.exists_path Pipeline.DB_PATH
            {| Pipeline.fs := files; Pipeline.console := [] |})
    with (existsb (String.eqb Pipeline.DB_PATH) files) in Erun.
  rewrite Hdb in Erun. cbn [negb] in Erun.
  change (0 <? 0)%Z with false in Erun. cbn [andb] in Erun.
  change (0 =? 0)%Z with true in Erun.
  set (st := Pipeline.mkdir Pipeline.FIGURES_DIR
               (Pipeline.print Pipeline.DatabaseFound
                  {| Pipeline.fs := files; Pipeline.console := [] |})) in Erun.
  assert (Hst : banners st = []).
  { unfold st, Pipeline.mkdir. destruct (Pipeline.exists_path _ _); reflexivity. }
  destruct (run_steps_halted spawn Pipeline.STEPS [] st) as (l & H1 & H2 & H3).
  destruct (Pipeline.run_steps spawn true Pipeline.STEPS [] st) as [results st'].
  simpl in H1, H3. subst results. rewrite Hst in H3. simpl in H3.
  exists l. split; [exact H2|].
  destruct (halted_run_STEPS l H2) as [E|[E|[E|E]]]; subst l;
    cbn -[Pipeline.print] in Erun; subst run; cbn [Pipeline.results Pipeline.final
                                                     Pipeline.exit_code];
    (split; [reflexivity|]); (split; [|reflexivity]);
    rewrite ?banners_print, ?app_nil_r; exact H3.
Qed.

(** Without the database nothing is started, whatever [--step] is. *)
Lemma main_db_missing (spawn : string -> list string -> Pipeline.outcome * list string)
      (step_arg : Z) (files : list string) :
  existsb (String.eqb Pipeline.DB_PATH) files = false ->
  Pipeline.main spawn step_arg files =
  {| Pipeline.exit_code := 1; Pipeline.results := [];
     Pipeline.final := {| Pipeline.fs := files;
                          Pipeline.console := [Pipeline.DatabaseNotFound] |} |}.
Proof.
  intros Hdb. unfold Pipeline.main, Pipeline.check_prerequisites. cbv zeta.
  change (Pipeline.exists_path Pipeline.DB_PATH
            {| Pipeline.fs := files; Pipeline.console := [] |})
    with (existsb (String.eqb Pipeline.DB_PATH) files).
  rewrite Hdb. reflexivity.
Qed.

(** C6.  In [run_step], a step whose script ends with exit code 0 while
    expected outputs are missing returns success, after printing the
    missing paths and the warning; a step whose child process times out or
    ends with a non-zero exit code fails.  In a run of the full sequence
    ([--step 0]) a failed step is the last one started: no step of a higher
    number is started or recorded, and the process exits with code 1; a run
    in which the three steps succeed exits with code 0. *)
Theorem runner_failures (spawn : string -> list string -> Pipeline.outcome * list string) :
  (forall step st fs',
      Pipeline.exists_path (script_path step) st = true ->
      spawn (script_path step) (Pipeline.fs st) = (Pipeline.Completed 0, fs') ->
      missing_from fs' step <> [] ->
      Pipeline.run_step spawn step st =
      (true, {| Pipeline.fs := fs';
                Pipeline.console :=
                  Pipeline.console st
                  ++ [ Pipeline.StepBanner (Pipeline.number step);
                       Pipeline.MissingOutputs (missing_from fs' step);
                       Pipeline.CompletedWithWarnings ] |})) /\
  (forall step st,
      Pipeline.exists_path (script_path step) st = true ->
      (fst (spawn (script_path step) (Pipeline.fs st)) = Pipeline.TimeoutExpired \/
       exists rc, rc <> 0%Z /\
                  fst (spawn (script_path step) (Pipeline.fs st)) = Pipeline.Completed rc) ->
      fst (Pipeline.run_step spawn step st) = false) /\
  (forall files n,
      In (n, false) (Pipeline.results (Pipeline.main spawn 0 files)) ->
      Pipeline.exit_code (Pipeline.main spawn 0 files) = 1%Z /\
      forall m, (n < m)%Z ->
                ~ In m (map fst (Pipeline.results (Pipeline.main spawn 0 files))) /\
                ~ In m (banners (Pipeline.final (Pipeline.main spawn 0 files)))) /\
  (forall files,
      Pipeline.results (Pipeline.main spawn 0 files) = [(1, true); (2, true); (3, true)]%Z ->
      Pipeline.exit_code (Pipeline.main spawn 0 files) = 0%Z).
Proof.
  split; [|split; [|split]].
  - intros step st fs' Hscript Hspawn Hmissing.
    rewrite (run_step_completed spawn step st 0 fs' Hscript Hspawn). cbv zeta.
    change (0 =? 0)%Z with true. cbv iota.
    destruct (missing_from fs' step) as [|p missing]; [congruence|].
    unfold Pipeline.print. cbn [Pipeline.fs Pipeline.console].
    rewrite <- !app_assoc. reflexivity.
  - intros step st Hscript [Hto|[rc [Hrc Hc]]].
    + apply run_step_not_completed; [assumption|].
      intros rc. rewrite Hto. discriminate.
    + destruct (spawn (script_path step) (Pipeline.fs st)) as [result fs'] eqn:E.
      simpl in Hc. subst result.
      rewrite (run_step_completed spawn step st rc fs' Hscript E). cbv zeta.
      destruct (Z.eqb_spec rc 0); [congruence | reflexivity].
  - intros files n Hin.
    destruct (existsb (String.eqb Pipeline.DB_PATH) files) eqn:Hdb.
    + destruct (main_all spawn files Hdb) as (l & Hl & Hres & Hban & Hexit).
      rewrite Hban, Hexit, Hres. rewrite Hres in Hin. clear Hres Hban Hexit.
      destruct (halted_run_STEPS l Hl) as [E|[E|[E|E]]]; subst l; simpl in Hin;
        repeat (destruct Hin as [Hin|Hin]; [inversion Hin; subst|]); try tauto;
        (split; [reflexivity|]); intros m Hm; simpl; lia.
    + rewrite (main_db_missing spawn 0 files Hdb) in Hin. destruct Hin.
  - intros files Hres.
    destruct (existsb (String.eqb Pipeline.DB_PATH) files) eqn:Hdb.
    + destruct (main_all spawn files Hdb) as (l & Hl & Hres' & Hban & Hexit).
      rewrite Hexit. rewrite Hres' in Hres. subst l. reflexivity.
    + rewrite (main_db_missing spawn 0 files Hdb) in Hres. discriminate.
Qed.

Lemma runner_failures_witness :
  Pipeline.exit_code (Pipeline.main spawn_failing 0 checkout) = 1%Z /\
  forall m, (2 < m)%Z ->
            ~ In m (map fst (Pipeline.results (Pipeline.main spawn_failing 0 checkout))) /\
            ~ In m (banners (Pipeline.final (Pipeline.main spawn_failing 0 checkout))).
Proof.
  apply (proj1 (proj2 (proj2 (runner_failures spawn_failing))) checkout 2%Z).
  vm_compute. right. left. reflexivity.
Defined.

Example runner_warning_only :
  Pipeline.exit_code (Pipeline.main spawn_idle 0 checkout) = 0%Z /\
  Pipeline.results (Pipeline.main spawn_idle 0 checkout) = [(1, true); (2, true); (3, true)]%Z.
Proof. vm_compute. split; reflexivity. Qed.

(** ** The missing database and the exit code of the runner *)

(** X6.  Without the database each generator raises [FileNotFoundError] with
    its message and leaves every file as it was. *)
Lemma generators_abort_without_database (w : World) :
  store w = None ->
  SummaryTables.main w = (Raise database_not_found, w) /\
  (forall heatmap, Completeness.main heatmap w = (Raise database_not_found, w)) /\
  (forall draw, Charts.main draw w = (Raise database_not_found, w)).
Proof.
  intros H. unfold SummaryTables.main, Completeness.main, Charts.main, seq_prog, load_data.
  rewrite H. repeat split.
Qed.

(** Without the database [main] prints its message, starts no step
    and exits with code 1. *)
Lemma main_aborts_without_database
      (spawn : string -> list string -> Pipeline.outcome * list string)
      (step_arg : Z) (files : list string) :
  ~ In Pipeline.DB_PATH files ->
  Pipeline.main spawn step_arg files =
  {| Pipeline.exit_code := 1; Pipeline.results := [];
     Pipeline.final := {| Pipeline.fs := files;
                          Pipeline.console := [Pipeline.DatabaseNotFound] |} |}.
Proof.
  intros H. apply main_db_missing.
  apply not_true_iff_false. now rewrite existsb_eqb_In.
Qed.

(** A positive step number that names no step is rejected with exit
    code 1 before any step is started. *)
Lemma runner_rejects_unknown_step
      (spawn : string -> list string -> Pipeline.outcome * list string)
      (step_arg : Z) (files : list string) :
  (3 < step_arg)%Z ->
  Pipeline.exit_code (Pipeline.main spawn step_arg files) = 1%Z /\
  Pipeline.results (Pipeline.main spawn step_arg files) = [].
Proof.
  intros H. unfold Pipeline.main, Pipeline.check_prerequisites. cbv zeta.
  destruct (Pipeline.exists_path Pipeline.DB_PATH _); cbn [negb]; [|split; reflexivity].
  destruct (Z.ltb_spec 0 step_arg); [|lia].
  unfold Pipeline.STEPS. cbn [filter Pipeline.number].
  destruct (Z.eqb_spec 1 step_arg); [lia|].
  destruct (Z.eqb_spec 2 step_arg); [lia|].
  destruct (Z.eqb_spec 3 step_arg); [lia|].
  split; reflexivity.
Qed.

(** C7 at [--step -1], an argument outside the documented 0 to 3: with
    the database and the scripts in place and child processes that succeed,
    the runner prints no "Invalid step number", runs the three steps and
    exits with code 0. *)
Theorem negative_step_accepted :
  Pipeline.exit_code (Pipeline.main spawn_idle (-1) checkout) = 0%Z /\
  Pipeline.results (Pipeline.main spawn_idle (-1) checkout)
  = [(1, true); (2, true); (3, true)]%Z /\
  ~ In (Pipeline.InvalidStep (-1))
       (Pipeline.console (Pipeline.final (Pipeline.main spawn_idle (-1) checkout))).
Proof.
  split; [vm_compute; reflexivity|].
  split; [vm_compute; reflexivity|].
  vm_compute. intros H.
  repeat (destruct H as [H|H]; [discriminate|]). exact H.
Qed.

(** With a negative step number a failed step does not stop the run
    either: the later steps are still started. *)
Example negative_step_does_not_halt :
  Pipeline.results (Pipeline.main spawn_failing (-1) checkout)
  = [(1, true); (2, false); (3, true)]%Z /\
  Pipeline.exit_code (Pipeline.main spawn_failing (-1) checkout) = 1%Z.
Proof. vm_compute. split; reflexivity. Qed.

(** Whatever [--step] is, a run that records a failed step exits with
    code 1. *)
Lemma runner_failed_step_exit_code
      (spawn : string -> list string -> Pipeline.outcome * list string)
      (step_arg : Z) (files : list string) (n : Z) :
  In (n, false) (Pipeline.results (Pipeline.main spawn step_arg files)) ->
  Pipeline.exit_code (Pipeline.main spawn step_arg files) = 1%Z.
Proof.
  unfold Pipeline.main, Pipeline.check_prerequisites. cbv zeta.
  destruct (Pipeline.exists_path Pipeline.DB_PATH _); cbn [negb]; [|reflexivity].
  destruct ((0 <? step_arg)%Z && _); [reflexivity|].
  destruct (Pipeline.run_steps spawn _ _ _ _) as [results st].
  assert (Hlen : forall l : list (Z * bool),
             In (n, false) l -> 0 < length (filter (fun r => negb (snd r)) l)).
  { intros l Hl.
    assert (Hf : In (n, false) (filter (fun r => negb (snd r)) l))
      by (apply filter_In; split; [exact Hl | reflexivity]).
    destruct (filter _ l); [destruct Hf | simpl; lia]. }
  destruct (Nat.eqb_spec (length (filter (fun r => negb (snd r)) results)) 0) as [E|E];
    cbn [andb].
  - change (0 <? length (filter (fun r => negb (snd r)) results))
      with (Nat.ltb 0 (length (filter (fun r => negb (snd r)) results))).
    rewrite E. cbn [Nat.ltb Nat.leb].
    destruct (_ =? 0); cbn [Pipeline.results]; intros Hin; apply Hlen in Hin; lia.
  - destruct (Nat.ltb_spec 0 (length (filter (fun r => negb (snd r)) results)));
      [reflexivity | lia].
Qed.

(** ** The CSV files of two runs *)

Lemma filter_other_path (p q : string) (l : list (string * content)) :
  String.eqb q p = false ->
  filter (fun f => String.eqb (fst f) p) (filter (fun f => negb (String.eqb (fst f) q)) l)
  = filter (fun f => String.eqb (fst f) p) l.
Proof.
  intros Hne. induction l as [|[k c] l IH]; simpl; [reflexivity|].
  destruct (String.eqb_spec k q) as [->|Hkq]; simpl.
  - rewrite Hne. exact IH.
  - destruct (String.eqb k p); simpl; now rewrite IH.
Qed.

Lemma read_write (p q : string) (c : content) (w : World) :
  read_file p (snd (write q c w)) = if String.eqb q p then Some c else read_file p w.
Proof.
  unfold read_file, write. cbn [snd files fst filter].
  destruct (String.eqb q p) eqn:E; [reflexivity|].
  now rewrite filter_other_path.
Qed.

Lemma read_apply_writes (p : string) (l : list (string * content)) (w : World) :
  read_file p (apply_writes l w)
  = match last_write p l with
    | Some c => Some c
    | None => read_file p w
    end.
Proof.
  revert w. induction l as [|[q c] l IH]; intros w; [reflexivity|].
  unfold apply_writes in *. cbn [fold_left fst snd last_write].
  rewrite IH, read_write.
  destruct (last_write p l); [reflexivity|].
  now destruct (String.eqb q p).
Qed.

Lemma last_write_same (p : string) (l1 l2 : list (string * content)) :
  map fst l1 = map fst l2 ->
  map (fun pc => csv_part (snd pc)) l1 = map (fun pc => csv_part (snd pc)) l2 ->
  match last_write p l1, last_write p l2 with
  | Some c1, Some c2 => csv_part c1 = csv_part c2
  | None, None => True
  | _, _ => False
  end.
Proof.
  revert l2. induction l1 as [|[q1 c1] l1 IH]; intros [|[q2 c2] l2]; simpl;
    intros H1 H2; try discriminate; [exact I|].
  inversion H1; inversion H2; subst.
  specialize (IH l2 ltac:(assumption) ltac:(assumption)).
  destruct (last_write p l1), (last_write p l2); try tauto.
  now destruct (String.eqb q2 p).
Qed.

(** Two runs that write to the same paths, with the same bytes wherever
    they write a CSV file, leave the same CSV files. *)
Lemma two_runs_csv (l1 l2 : list (string * content)) (w : World) (later path : string) :
  map fst l1 = map fst l2 ->
  map (fun pc => csv_part (snd pc)) l1 = map (fun pc => csv_part (snd pc)) l2 ->
  csv_at path (apply_writes l2 (set_clock later (apply_writes l1 w)))
  = csv_at path (apply_writes l1 w).
Proof.
  intros H1 H2. unfold csv_at. rewrite !read_apply_writes.
  change (read_file path (set_clock later (apply_writes l1 w)))
    with (read_file path (apply_writes l1 w)).
  rewrite read_apply_writes.
  pose proof (last_write_same path l1 l2 H1 H2) as H.
  destruct (last_write path l1), (last_write path l2); try tauto.
  now symmetry.
Qed.

Lemma apply_writes_store (l : list (string * content)) (w : World) :
  store (apply_writes l w) = store w.
Proof.
  revert w. induction l as [|[q c] l IH]; intros w; [reflexivity|].
  unfold apply_writes in *. cbn [fold_left]. now rewrite IH.
Qed.

Lemma apply_writes_nil (w : World) : apply_writes [] w = w.
Proof. reflexivity. Qed.

Lemma apply_writes_cons (p : string) (c : content) (l : list (string * content))
      (w : World) :
  apply_writes ((p, c) :: l) w = apply_writes l (snd (write p c w)).
Proof. reflexivity. Qed.

Lemma now_write (p : string) (c : content) (w : World) :
  now (snd (write p c w)) = now w.
Proof. reflexivity. Qed.

Lemma apply_writes_app (l1 l2 : list (string * content)) (w : World) :
  apply_writes (l1 ++ l2) w = apply_writes l2 (apply_writes l1 w).
Proof. apply fold_left_app. Qed.

Lemma apply_writes_now (l : list (string * content)) (w : World) :
  now (apply_writes l w) = now w.
Proof.
  revert w. induction l as [|[q c] l IH]; intros w; [reflexivity|].
  unfold apply_writes in *. cbn [fold_left]. now rewrite IH.
Qed.

Lemma write_all_spec (l : list (string * content)) (w : World) :
  SummaryTables.write_all l w = (Ok tt, apply_writes l w).
Proof.
  revert w. induction l as [|[q c] l IH]; intros w; [reflexivity|].
  cbn [SummaryTables.write_all]. unfold seq_prog.
  cbn [write]. rewrite IH. reflexivity.
Qed.

(** A write outside a directory leaves the directory as it was. *)
Lemma is_dir_write_elsewhere (dir p : string) (c : content) (w : World) :
  String.eqb p dir = false -> String.prefix (dir ++ "/") p = false ->
  is_dir dir (snd (write p c w)) = is_dir dir w.
Proof.
  intros Hne Hpre. unfold is_dir, write. cbn [snd files existsb fst].
  rewrite Hpre, orb_false_r.
  replace (match c with Directory => String.eqb p dir | _ => false end) with false
    by (destruct c; auto).
  cbn [orb]. induction (files w) as [|[q c'] l IH]; [reflexivity|].
  cbn [filter existsb fst snd]. destruct (String.eqb_spec q p) as [->|Hq]; cbn [negb].
  - rewrite IH, Hpre, orb_false_r.
    replace (match c' with Directory => String.eqb p dir | _ => false end) with false
      by (destruct c'; auto).
    reflexivity.
  - cbn [existsb fst snd]. now rewrite IH.
Qed.

Lemma is_dir_write_under (dir p : string) (c : content) (w : World) :
  String.prefix (dir ++ "/") p = true -> is_dir dir (snd (write p c w)) = true.
Proof.
  intros Hpre. unfold is_dir, write. cbn [snd files existsb fst].
  rewrite Hpre, orb_true_r. reflexivity.
Qed.

Lemma is_dir_apply_writes (dir : string) (l : list (string * content)) (w : World) :
  Forall (fun pc => String.eqb (fst pc) dir = false /\
                    String.prefix (dir ++ "/") (fst pc) = false) l ->
  is_dir dir (apply_writes l w) = is_dir dir w.
Proof.
  intros H. revert w. induction H as [|[p c] l [H1 H2] _ IH]; intros w; [reflexivity|].
  rewrite apply_writes_cons, IH. now apply is_dir_write_elsewhere.
Qed.

(** The files of [export_tables] are not under [figures/]. *)
Lemma export_outside_figures (T : SummaryTables.Tables) (t : string) :
  Forall (fun pc => String.eqb (fst pc) SummaryTables.FIGURES_DIR = false /\
                    String.prefix (SummaryTables.FIGURES_DIR ++ "/") (fst pc) = false)
         (csv_writes T ++ text_writes T t).
Proof.
  unfold csv_writes, text_writes, SummaryTables.csv_names. cbn [map app].
  repeat (constructor; [split; reflexivity|]). constructor.
Qed.

Lemma tables_main_writes (w : World) :
  snd (SummaryTables.main w) = apply_writes (tables_writes w) w.
Proof.
  unfold SummaryTables.main, tables_writes, build_tables, seq_prog, load_data, lift.
  destruct (store w) as [db|]; [|reflexivity].
  destruct (SummaryTables.generate_region_table (classification db)) as [t3|e];
    [|reflexivity].
  destruct (SummaryTables.generate_year_table (classification db)) as [t4|e];
    [|reflexivity].
  destruct (SummaryTables.generate_wv_summary_table _ _) as [t5|e]; [|reflexivity].
  cbn [bind]. unfold SummaryTables.export_tables, SummaryTables.save_report, seq_prog.
  rewrite write_all_spec. unfold timestamp, ret.
  set (T := {| SummaryTables.table_1 :=
                 SummaryTables.generate_classification_table (classification db);
               SummaryTables.table_2 :=
                 SummaryTables.generate_method_table (classification db);
               SummaryTables.table_3 := t3; SummaryTables.table_4 := t4;
               SummaryTables.table_5 := t5;
               SummaryTables.table_6 :=
                 SummaryTables.generate_wv_purpose_table (water_values db) |}).
  fold (csv_writes T).
  change (write (SummaryTables.path_in SummaryTables.TABLES_DIR "all_tables_formatted.txt")
            (FormattedTables (now (apply_writes (csv_writes T) w))
               (combine (SummaryTables.captions (SummaryTables.table_3 T))
                        (map snd (SummaryTables.csv_names T))))
            (apply_writes (csv_writes T) w))
    with (Ok tt, apply_writes (text_writes T (now (apply_writes (csv_writes T) w)))
                              (apply_writes (csv_writes T) w)).
  cbv beta iota. rewrite <- apply_writes_app, !apply_writes_now.
  unfold open_write, report_writes.
  rewrite (is_dir_apply_writes _ _ w (export_outside_figures T (now w))).
  rewrite app_assoc.
  destruct (is_dir SummaryTables.FIGURES_DIR w).
  - rewrite (apply_writes_app (csv_writes T ++ text_writes T (now w))). reflexivity.
  - rewrite app_nil_r. reflexivity.
Qed.

(** A run of the first generator leaves [figures/] there or not, as it
    found it. *)
Lemma is_dir_after_tables (w : World) :
  is_dir SummaryTables.FIGURES_DIR (apply_writes (tables_writes w) w)
  = is_dir SummaryTables.FIGURES_DIR w.
Proof.
  unfold tables_writes. destruct (store w) as [db|]; [|reflexivity].
  destruct (build_tables db) as [T|e]; [|reflexivity].
  rewrite app_assoc, apply_writes_app. unfold report_writes.
  destruct (is_dir SummaryTables.FIGURES_DIR w) eqn:E.
  - rewrite apply_writes_cons, apply_writes_nil. now apply is_dir_write_under.
  - rewrite apply_writes_nil, is_dir_apply_writes; [exact E|].
    apply export_outside_figures.
Qed.

Lemma heatmap_main_writes (heatmap : Database -> result unit) (w : World) :
  snd (Completeness.main heatmap w) = apply_writes (heatmap_writes heatmap w) w.
Proof.
  unfold Completeness.main, heatmap_writes, seq_prog, load_data, lift.
  destruct (store w) as [db|]; [|reflexivity].
  destruct (heatmap db) as [[]|e]; reflexivity.
Qed.

Lemma create_charts_writes (draw : string -> Database -> result unit) (db : Database)
      (names : list string) (w : World) :
  snd (Charts.create_charts draw db names w)
  = apply_writes (fst (figure_writes draw db names)) w /\
  (if snd (figure_writes draw db names)
   then fst (Charts.create_charts draw db names w) = Ok tt
   else exists e, fst (Charts.create_charts draw db names w) = Raise e).
Proof.
  revert w. induction names as [|name rest IH]; intros w.
  - split; reflexivity.
  - cbn [Charts.create_charts figure_writes].
    unfold seq_prog, Charts.create_chart, lift. unfold seq_prog.
    destruct (draw name db) as [[]|e]; [|split; [reflexivity | simpl; eauto]].
    cbn [write fst snd].
    match goal with |- context [Charts.create_charts draw db rest ?w'] =>
      destruct (IH w') as [IH1 IH2] end.
    destruct (figure_writes draw db rest) as [l ok].
    cbn [fst snd] in *. split.
    + rewrite IH1. reflexivity.
    + exact IH2.
Qed.

Lemma charts_main_writes (draw : string -> Database -> result unit) (w : World) :
  snd (Charts.main draw w) = apply_writes (charts_writes draw w) w.
Proof.
  unfold Charts.main, charts_writes, seq_prog, load_data.
  destruct (store w) as [db|]; [|reflexivity].
  destruct (create_charts_writes draw db Charts.figure_names w) as [H1 H2].
  destruct (figure_writes draw db Charts.figure_names) as [l ok].
  cbn [fst snd] in H1, H2.
  destruct (Charts.create_charts draw db Charts.figure_names w) as [r w'].
  cbn [fst snd] in H1, H2. subst w'.
  destruct ok.
  - rewrite H2, apply_writes_app. unfold timestamp. cbn [fst snd].
    rewrite !apply_writes_cons, apply_writes_nil.
    match goal with |- context [let (_, _) := ?X in _] =>
      change X with (@Ok unit tt, snd X) end.
    cbv beta iota.
    rewrite ?now_write, ?apply_writes_now. reflexivity.
  - destruct H2 as [e ->]. reflexivity.
Qed.

(** The paths that the first generator writes, and the bytes of its CSV
    files, depend on the database and on whether [figures/] is there. *)
Lemma tables_writes_paths (w1 w2 : World) :
  store w1 = store w2 ->
  is_dir SummaryTables.FIGURES_DIR w1 = is_dir SummaryTables.FIGURES_DIR w2 ->
  map fst (tables_writes w1) = map fst (tables_writes w2) /\
  map (fun pc => csv_part (snd pc)) (tables_writes w1)
  = map (fun pc => csv_part (snd pc)) (tables_writes w2).
Proof.
  unfold tables_writes, report_writes. intros -> ->.
  destruct (store w2) as [db|]; [|split; reflexivity].
  destruct (build_tables db) as [T|e]; [|split; reflexivity].
  destruct (is_dir SummaryTables.FIGURES_DIR w2); rewrite !map_app; split; reflexivity.
Qed.

(** C9.  Running a generator, and then running it again at any later
    time on the files the first run left and the unchanged database, leaves
    at every path the same CSV bytes as the first run did (or no CSV file at
    that path in both cases).  The first generator writes the six CSV files
    from the tables alone; the other two write no CSV file. *)
Theorem csv_outputs_deterministic (w : World) (later path : string) :
  csv_at path (snd (SummaryTables.main (set_clock later (snd (SummaryTables.main w)))))
  = csv_at path (snd (SummaryTables.main w)) /\
  (forall heatmap,
      csv_at path (snd (Completeness.main heatmap
                          (set_clock later (snd (Completeness.main heatmap w)))))
      = csv_at path (snd (Completeness.main heatmap w))) /\
  (forall draw,
      csv_at path (snd (Charts.main draw (set_clock later (snd (Charts.main draw w)))))
      = csv_at path (snd (Charts.main draw w))).
Proof.
  split; [|split].
  - rewrite (tables_main_writes (set_clock later _)), !tables_main_writes.
    apply two_runs_csv;
      apply (tables_writes_paths w (set_clock later (apply_writes (tables_writes w) w)));
      try (cbn [store set_clock]; now rewrite apply_writes_store);
      symmetry; apply is_dir_after_tables.
  - intros heatmap.
    rewrite (heatmap_main_writes heatmap (set_clock later _)), !heatmap_main_writes.
    apply two_runs_csv; unfold heatmap_writes; cbn [store set_clock now];
      rewrite apply_writes_store;
      destruct (store w) as [db|]; try reflexivity;
      destruct (heatmap db) as [[]|e]; reflexivity.
  - intros draw.
    rewrite (charts_main_writes draw (set_clock later _)), !charts_main_writes.
    apply two_runs_csv; unfold charts_writes; cbn [store set_clock now];
      rewrite apply_writes_store;
      destruct (store w) as [db|]; try reflexivity;
      destruct (figure_writes draw db Charts.figure_names) as [l [|]];
      rewrite ?map_app; reflexivity.
Qed.

Example sample_table_3_csv :
  csv_at "tables/table_3_regions.csv" (snd (SummaryTables.main sample_world))
  = Some (csv_text [ "Country_or_Region,Count,Percentage";
                     "Other (2 countries/regions),2,66.7";
                     "Not specified,1,33.3";
                     "Total,3,100.0" ]).
Proof. vm_compute. reflexivity. Qed.

Example sample_table_1_csv :
  csv_at "tables/table_1_classification.csv" (snd (SummaryTables.main sample_world))
  = Some (csv_text [ "Category,Category_Name,Count,Percentage";
                     "A,Hydropower scheduling and water values,2,66.7";
                     "B,Stochastic programming for hydropower,1,33.3";
                     "Total,,3,100.0" ]).
Proof. vm_compute. reflexivity. Qed.

(** The report, unlike the CSV files, carries the time of the run. *)
Example report_carries_the_time :
  read_file "figures/summary_tables_report.txt" (snd (SummaryTables.main sample_world))
  = Some (Report "2024-01-01 00:00:00") /\
  read_file "figures/summary_tables_report.txt"
            (snd (SummaryTables.main (set_clock "2024-01-02 00:00:00" sample_world)))
  = Some (Report "2024-01-02 00:00:00").
Proof. vm_compute. split; reflexivity. Qed.

(** A field with a comma is quoted. *)
Example csv_quote_comma :
  Pandas.csv_quote "Korea, Republic of"
  = String Pandas.dquote ("Korea, Republic of" ++ String Pandas.dquote EmptyString)%string.
Proof. reflexivity. Qed.

(* ================================================================== *)
(** * Further properties of the scripts                                *)
(* ================================================================== *)

(** ** The runner: when a step succeeds, and the exit code *)

(** X1.  [run_step] succeeds exactly when the script exists and its child
    process ends with exit code 0, whatever outputs exist afterwards. *)
Theorem run_step_success (spawn : string -> list string -> Pipeline.outcome * list string)
      (step : Pipeline.Step) (st : Pipeline.State) :
  fst (Pipeline.run_step spawn step st) = true <->
  Pipeline.exists_path (script_path step) st = true /\
  fst (spawn (script_path step) (Pipeline.fs st)) = Pipeline.Completed 0.
Proof.
  destruct (Pipeline.exists_path (script_path step) st) eqn:Hscript.
  - destruct (spawn (script_path step) (Pipeline.fs st)) as [[rc| |e] fs'] eqn:Hspawn.
    + rewrite (run_step_completed spawn step st rc fs' Hscript Hspawn). cbv zeta.
      cbn [fst]. destruct (Z.eqb_spec rc 0) as [->|Hrc].
      * destruct (missing_from fs' step); cbn [fst]; tauto.
      * cbn [fst]. split; [discriminate|]. intros [_ H]. congruence.
    + rewrite (run_step_not_completed spawn step st Hscript)
        by (intros rc; rewrite Hspawn; discriminate).
      cbn [fst]. split; [discriminate | intros [_ H]; discriminate].
    + rewrite (run_step_not_completed spawn step st Hscript)
        by (intros rc; rewrite Hspawn; discriminate).
      cbn [fst]. split; [discriminate | intros [_ H]; discriminate].
  - unfold Pipeline.run_step. cbv zeta.
    change (Pipeline.SCRIPTS_DIR ++ "/" ++ Pipeline.script step)%string
      with (script_path step).
    change (Pipeline.exists_path (script_path step)
              (Pipeline.print (Pipeline.StepBanner (Pipeline.number step)) st))
      with (Pipeline.exists_path (script_path step) st).
    rewrite Hscript. cbn [negb fst]. split; [discriminate | intros [H _]; discriminate].
Qed.

(** X2.  A step whose script is missing fails without a child process: the
    outcome does not depend on what a child process would do, and the
    paths are left as they were. *)
Theorem run_step_script_missing
      (spawn : string -> list string -> Pipeline.outcome * list string)
      (step : Pipeline.Step) (st : Pipeline.State) :
  Pipeline.exists_path (script_path step) st = false ->
  Pipeline.run_step spawn step st =
  (false, {| Pipeline.fs := Pipeline.fs st;
             Pipeline.console :=
               Pipeline.console st
               ++ [ Pipeline.StepBanner (Pipeline.number step);
                    Pipeline.ScriptNotFound (script_path step) ] |}).
Proof.
  intros Hscript. unfold Pipeline.run_step. cbv zeta.
  change (Pipeline.SCRIPTS_DIR ++ "/" ++ Pipeline.script step)%string
    with (script_path step).
  change (Pipeline.exists_path (script_path step)
            (Pipeline.print (Pipeline.StepBanner (Pipeline.number step)) st))
    with (Pipeline.exists_path (script_path step) st).
  rewrite Hscript. cbn [negb]. unfold Pipeline.print. cbn [Pipeline.fs Pipeline.console].
  now rewrite <- app_assoc.
Qed.

Lemma run_step_script_missing_witness :
  Pipeline.run_step spawn_idle
    {| Pipeline.number := 1; Pipeline.name := "Summary Tables";
       Pipeline.script := "01_summary_tables.py"; Pipeline.description := EmptyString;
       Pipeline.outputs := [] |}
    {| Pipeline.fs := ["data/water_value_database.db"]; Pipeline.console := [] |}
  = (false, {| Pipeline.fs := ["data/water_value_database.db"];
               Pipeline.console :=
                 [ Pipeline.StepBanner 1;
                   Pipeline.ScriptNotFound "scripts/01_summary_tables.py" ] |}).
Proof.
  apply (run_step_script_missing spawn_idle). reflexivity.
Defined.

Lemma failed_entry (l : list (Z * bool)) :
  0 < length (filter (fun r => negb (snd r)) l) <-> exists n, In (n, false) l.
Proof.
  split.
  - intros H. destruct (filter (fun r => negb (snd r)) l) as [|[n b] t] eqn:E;
      [simpl in H; lia|].
    assert (Hin : In (n, b) (filter (fun r => negb (snd r)) l)) by (rewrite E; now left).
    apply filter_In in Hin as [Hin Hb]. simpl in Hb.
    destruct b; [discriminate|]. eauto.
  - intros [n Hin].
    assert (Hf : In (n, false) (filter (fun r => negb (snd r)) l))
      by (apply filter_In; split; [exact Hin | reflexivity]).
    destruct (filter _ l); [destruct Hf | simpl; lia].
Qed.

(** Once the command line is parsed, the exit code is 0 or 1, and it is
    1 exactly when the database is missing, or the step number is above 3,
    or a step that was started failed. *)
Lemma main_exit_code (spawn : string -> list string -> Pipeline.outcome * list string)
      (step_arg : Z) (files : list string) :
  (Pipeline.exit_code (Pipeline.main spawn step_arg files) = 0%Z \/
   Pipeline.exit_code (Pipeline.main spawn step_arg files) = 1%Z) /\
  (Pipeline.exit_code (Pipeline.main spawn step_arg files) = 1%Z <->
   ~ In Pipeline.DB_PATH files \/ (3 < step_arg)%Z \/
   exists n, In (n, false) (Pipeline.results (Pipeline.main spawn step_arg files))).
Proof.
  destruct (existsb (String.eqb Pipeline.DB_PATH) files) eqn:Hdb.
  2: { rewrite (main_db_missing spawn step_arg files Hdb). cbn.
       split; [now right|]. split; [|reflexivity].
       intros _. left. rewrite <- existsb_eqb_In. congruence. }
  assert (Hin : In Pipeline.DB_PATH files) by (now apply existsb_eqb_In).
  destruct (Z.ltb_spec 3 step_arg) as [Hbig|Hsmall].
  { destruct (runner_rejects_unknown_step spawn step_arg files Hbig) as [-> _].
    split; [now right|]. split; [auto | reflexivity]. }
  remember (Pipeline.main spawn step_arg files) as run eqn:Erun.
  unfold Pipeline.main, Pipeline.check_prerequisites in Erun. cbv zeta in Erun.
  change (Pipeline.exists_path Pipeline.DB_PATH
            {| Pipeline.fs := files; Pipeline.console := [] |})
    with (existsb (String.eqb Pipeline.DB_PATH) files) in Erun.
  rewrite Hdb in Erun. cbn [negb] in Erun.
  assert (Hvalid : ((0 <? step_arg)%Z
                    && match filter (fun s => (Pipeline.number s =? step_arg)%Z)
                                    Pipeline.STEPS with
                       | [] => true
                       | _ :: _ => false
                       end) = false).
  { destruct (Z.ltb_spec 0 step_arg); [|reflexivity]. cbn [andb].
    unfold Pipeline.STEPS. cbn [filter Pipeline.number].
    destruct (Z.eqb_spec 1 step_arg); [reflexivity|].
    destruct (Z.eqb_spec 2 step_arg); [reflexivity|].
    destruct (Z.eqb_spec 3 step_arg); [reflexivity|]. lia. }
  rewrite Hvalid in Erun.
  destruct (Pipeline.run_steps spawn _ _ _ _) as [results st].
  pose proof (failed_entry results) as Hfail.
  destruct (Nat.eqb_spec (length (filter (fun r => negb (snd r)) results)) 0) as [E|E];
    cbn [andb] in Erun.
  - change (0 <? length (filter (fun r => negb (snd r)) results))
      with (Nat.ltb 0 (length (filter (fun r => negb (snd r)) results))) in Erun.
    rewrite E in Erun. cbn [Nat.ltb Nat.leb] in Erun.
    assert (Hex : Pipeline.exit_code run = 0%Z /\ Pipeline.results run = results).
    { destruct (_ =? 0) in Erun; subst run; split; reflexivity. }
    destruct Hex as [Hex Hres]. rewrite Hex, Hres.
    split; [now left|]. split; [discriminate|].
    intros [H|[H|H]]; [tauto | lia |]. apply Hfail in H. lia.
  - destruct (Nat.ltb_spec 0 (length (filter (fun r => negb (snd r)) results)));
      [|lia].
    subst run. cbn [Pipeline.exit_code Pipeline.results].
    split; [now right|]. split; [|reflexivity].
    intros _. right. right. now apply Hfail.
Qed.

(** X3.  The exit code of the runner is 0, 1 or 2.  It is 2 exactly when
    argparse refuses the command line, before the database is looked for.
    It is 1 exactly when the command line was parsed and the database is
    missing, or the step number is above 3, or a step that was started
    failed. *)
Theorem runner_exit_code (spawn : string -> list string -> Pipeline.outcome * list string)
      (args : Pipeline.parse_result) (files : list string) :
  (Pipeline.exit_code (Pipeline.run_pipeline spawn args files) = 0%Z \/
   Pipeline.exit_code (Pipeline.run_pipeline spawn args files) = 1%Z \/
   Pipeline.exit_code (Pipeline.run_pipeline spawn args files) = 2%Z) /\
  (Pipeline.exit_code (Pipeline.run_pipeline spawn args files) = 2%Z <->
   args = Pipeline.UsageError) /\
  (Pipeline.exit_code (Pipeline.run_pipeline spawn args files) = 1%Z <->
   exists step_arg,
     args = Pipeline.Namespace step_arg /\
     (~ In Pipeline.DB_PATH files \/ (3 < step_arg)%Z \/
      exists n, In (n, false)
                   (Pipeline.results (Pipeline.run_pipeline spawn args files)))).
Proof.
  destruct args as [step_arg| |]; cbn [Pipeline.run_pipeline Pipeline.exit_code].
  - destruct (main_exit_code spawn step_arg files) as [H01 H1].
    split; [tauto|]. split.
    + split; [|discriminate]. intros H2. rewrite H2 in H01. destruct H01; discriminate.
    + rewrite H1. split.
      * intros H. now exists step_arg.
      * intros (step' & E & H). injection E as <-. exact H.
  - split; [tauto|]. split; [tauto|].
    split; [discriminate | intros (step' & E & _); discriminate].
  - split; [tauto|]. split; [split; discriminate|].
    split; [discriminate | intros (step' & E & _); discriminate].
Qed.

(** X4.  With [--step k] for k = 1, 2 or 3 and the database in place, only
    step k is started; the exit code is 0 when it succeeds and 1 when it
    fails, and the message of a complete run is never printed. *)
Theorem runner_single_step
      (spawn : string -> list string -> Pipeline.outcome * list string)
      (step_arg : Z) (files : list string) :
  In Pipeline.DB_PATH files -> (1 <= step_arg <= 3)%Z ->
  exists success,
    Pipeline.results (Pipeline.main spawn step_arg files) = [(step_arg, success)] /\
    banners (Pipeline.final (Pipeline.main spawn step_arg files)) = [step_arg] /\
    Pipeline.exit_code (Pipeline.main spawn step_arg files)
    = (if success then 0 else 1)%Z /\
    ~ In Pipeline.AllCompleted
         (Pipeline.console (Pipeline.final (Pipeline.main spawn step_arg files))).
Proof.
  intros Hdb Hk. apply existsb_eqb_In in Hdb.
  remember (Pipeline.main spawn step_arg files) as run eqn:Erun.
  unfold Pipeline.main, Pipeline.check_prerequisites in Erun. cbv zeta in Erun.
  change (Pipeline.exists_path Pipeline.DB_PATH
            {| Pipeline.fs := files; Pipeline.console := [] |})
    with (existsb (String.eqb Pipeline.DB_PATH) files) in Erun.
  rewrite Hdb in Erun. cbn [negb] in Erun.
  destruct (Z.ltb_spec 0 step_arg) as [_| ]; [|lia].
  destruct (Z.eqb_spec step_arg 0) as [|_]; [lia|].
  set (st := Pipeline.mkdir Pipeline.FIGURES_DIR
               (Pipeline.print Pipeline.DatabaseFound
                  {| Pipeline.fs := files; Pipeline.console := [] |})) in Erun.
  assert (Hst : banners st = []).
  { unfold st, Pipeline.mkdir. destruct (Pipeline.exists_path _ _); reflexivity. }
  assert (Hcon : ~ In Pipeline.AllCompleted (Pipeline.console st)).
  { unfold st, Pipeline.mkdir. destruct (Pipeline.exists_path _ _); simpl;
      intros [H|[]]; discriminate. }
  assert (Hstep : forall step,
             ~ In Pipeline.AllCompleted (Pipeline.console (snd (Pipeline.run_step spawn step st)))).
  { intros step. unfold Pipeline.run_step. cbv zeta.
    destruct (Pipeline.exists_path _ _); cbn [negb].
    2: { cbn. rewrite !in_app_iff. simpl. intros [[H|[H|[]]]|[H|[]]];
           try discriminate; auto. }
    destruct (spawn _ _) as [[rc| |e] fs']; [destruct (rc =? 0)%Z; cbn [negb];
      [destruct (filter _ (Pipeline.outputs step))|]| |];
      cbn; rewrite ?in_app_iff; simpl; intuition discriminate. }
  assert (Hcases : step_arg = 1%Z \/ step_arg = 2%Z \/ step_arg = 3%Z) by lia.
  unfold Pipeline.STEPS in Erun.
  destruct Hcases as [-> | [-> | ->]]; cbn [filter Pipeline.number Z.eqb Pos.eqb andb] in Erun;
    cbn [Pipeline.run_steps] in Erun;
    match type of Erun with context [Pipeline.run_step spawn ?s st] =>
      pose proof (run_step_banners spawn s st) as Hb;
      pose proof (Hstep s) as Hc;
      destruct (Pipeline.run_step spawn s st) as [success st'] end;
    cbn [snd Pipeline.number] in Hb, Hc; rewrite Hst in Hb; cbn [app] in Hb;
    exists success; destruct success; cbn in Erun; subst run;
    cbn [Pipeline.results Pipeline.final Pipeline.exit_code];
    (split; [reflexivity|]); (split; [rewrite ?banners_print, ?app_nil_r; exact Hb|]);
    (split; [reflexivity|]);
    unfold Pipeline.print; cbn [Pipeline.console]; rewrite ?in_app_iff; simpl;
    intuition discriminate.
Qed.

Lemma runner_single_step_witness :
  exists success,
    Pipeline.results (Pipeline.main spawn_failing 2 checkout) = [(2%Z, success)] /\
    banners (Pipeline.final (Pipeline.main spawn_failing 2 checkout)) = [2%Z] /\
    Pipeline.exit_code (Pipeline.main spawn_failing 2 checkout)
    = (if success then 0 else 1)%Z /\
    ~ In Pipeline.AllCompleted
         (Pipeline.console (Pipeline.final (Pipeline.main spawn_failing 2 checkout))).
Proof.
  apply (runner_single_step spawn_failing 2 checkout).
  - simpl. tauto.
  - lia.
Defined.

(** X5.  Without the database no step is started and no path is made,
    whatever the command line.  When argparse accepts the command line the
    runner prints that the database was not found and exits with code 1,
    whatever the step number; when argparse refuses it (status 2) or
    prints the help (status 0) the process ends before the database is
    looked for, and nothing is said of the database. *)
Theorem runner_aborts_without_database
      (spawn : string -> list string -> Pipeline.outcome * list string)
      (args : Pipeline.parse_result) (files : list string) :
  ~ In Pipeline.DB_PATH files ->
  Pipeline.results (Pipeline.run_pipeline spawn args files) = [] /\
  banners (Pipeline.final (Pipeline.run_pipeline spawn args files)) = [] /\
  Pipeline.fs (Pipeline.final (Pipeline.run_pipeline spawn args files)) = files /\
  match args with
  | Pipeline.Namespace _ =>
      Pipeline.exit_code (Pipeline.run_pipeline spawn args files) = 1%Z /\
      Pipeline.console (Pipeline.final (Pipeline.run_pipeline spawn args files))
      = [Pipeline.DatabaseNotFound]
  | Pipeline.UsageError =>
      Pipeline.exit_code (Pipeline.run_pipeline spawn args files) = 2%Z /\
      Pipeline.console (Pipeline.final (Pipeline.run_pipeline spawn args files)) = []
  | Pipeline.HelpShown =>
      Pipeline.exit_code (Pipeline.run_pipeline spawn args files) = 0%Z /\
      Pipeline.console (Pipeline.final (Pipeline.run_pipeline spawn args files)) = []
  end.
Proof.
  intros Hdb. destruct args as [step_arg| |]; cbn [Pipeline.run_pipeline].
  - rewrite (main_aborts_without_database spawn step_arg files Hdb).
    repeat split.
  - repeat split.
  - repeat split.
Qed.

Lemma runner_aborts_without_database_witness :
  Pipeline.exit_code
    (Pipeline.run_pipeline spawn_idle (Pipeline.Namespace 2) ["scripts/01_summary_tables.py"])
  = 1%Z /\
  Pipeline.console
    (Pipeline.final
       (Pipeline.run_pipeline spawn_idle (Pipeline.Namespace 2)
          ["scripts/01_summary_tables.py"]))
  = [Pipeline.DatabaseNotFound].
Proof.
  apply (runner_aborts_without_database spawn_idle (Pipeline.Namespace 2)
           ["scripts/01_summary_tables.py"]).
  simpl. intros [H|[]]. discriminate.
Defined.

Lemma generators_abort_without_database_witness :
  SummaryTables.main {| store := None; now := "2024-01-01 00:00:00"; files := [] |}
  = (Raise database_not_found,
     {| store := None; now := "2024-01-01 00:00:00"; files := [] |}).
Proof.
  apply (generators_abort_without_database
           {| store := None; now := "2024-01-01 00:00:00"; files := [] |}).
  reflexivity.
Defined.

(** ** What the first generator writes, and what the runner expects *)

Lemma tables_main_result (w : World) :
  fst (SummaryTables.main w)
  = (T <- tables_of w ;;
     if is_dir SummaryTables.FIGURES_DIR w then Ok T else Raise report_not_writable).
Proof.
  unfold SummaryTables.main, tables_of, build_tables, seq_prog, load_data, lift.
  destruct (store w) as [db|]; [|reflexivity].
  destruct (SummaryTables.generate_region_table (classification db)) as [t3|e];
    [|reflexivity].
  destruct (SummaryTables.generate_year_table (classification db)) as [t4|e];
    [|reflexivity].
  destruct (SummaryTables.generate_wv_summary_table _ _) as [t5|e]; [|reflexivity].
  cbn [bind]. unfold SummaryTables.export_tables, SummaryTables.save_report, seq_prog.
  rewrite write_all_spec. unfold timestamp, ret.
  set (T := {| SummaryTables.table_1 :=
                 SummaryTables.generate_classification_table (classification db);
               SummaryTables.table_2 :=
                 SummaryTables.generate_method_table (classification db);
               SummaryTables.table_3 := t3; SummaryTables.table_4 := t4;
               SummaryTables.table_5 := t5;
               SummaryTables.table_6 :=
                 SummaryTables.generate_wv_purpose_table (water_values db) |}).
  fold (csv_writes T).
  change (write (SummaryTables.path_in SummaryTables.TABLES_DIR "all_tables_formatted.txt")
            (FormattedTables (now (apply_writes (csv_writes T) w))
               (combine (SummaryTables.captions (SummaryTables.table_3 T))
                        (map snd (SummaryTables.csv_names T))))
            (apply_writes (csv_writes T) w))
    with (Ok tt, apply_writes (text_writes T (now (apply_writes (csv_writes T) w)))
                              (apply_writes (csv_writes T) w)).
  cbv beta iota. rewrite <- apply_writes_app, !apply_writes_now.
  unfold open_write.
  rewrite (is_dir_apply_writes _ _ w (export_outside_figures T (now w))).
  destruct (is_dir SummaryTables.FIGURES_DIR w); reflexivity.
Qed.

Lemma tables_main_unwritten (w : World) (e : exn) :
  tables_of w = Raise e -> SummaryTables.main w = (Raise e, w).
Proof.
  intros H.
  assert (H1 := tables_main_result w). assert (H2 := tables_main_writes w).
  unfold tables_writes in H2. unfold tables_of in H.
  rewrite (surjective_pairing (SummaryTables.main w)), H1, H2.
  unfold tables_of. destruct (store w) as [db|].
  - rewrite H. reflexivity.
  - rewrite H. reflexivity.
Qed.

(** X7.  The first generator writes no file unless the database loads and
    the six tables are generated: a failure before [export_tables] leaves
    every file as it was.  Once the tables are generated, each of the six
    CSV files under [tables/] holds the export of its table; the run then
    ends well, with the report written, when [figures/] is there, and
    raises the FileNotFoundError of [open] in [save_report], after the CSV
    files were written, when it is not: the script makes [tables/] but
    not [figures/]. *)
Theorem tables_main_outcome (w : World) :
  (forall e, tables_of w = Raise e -> SummaryTables.main w = (Raise e, w)) /\
  (forall T, tables_of w = Ok T ->
     (forall filename tab,
         In (filename, tab) (SummaryTables.csv_names T) ->
         csv_at (SummaryTables.path_in SummaryTables.TABLES_DIR filename)
                (snd (SummaryTables.main w))
         = Some (Pandas.to_csv (SummaryTables.columns tab) tab)) /\
     (is_dir SummaryTables.FIGURES_DIR w = true ->
      fst (SummaryTables.main w) = Ok T /\
      read_file "figures/summary_tables_report.txt" (snd (SummaryTables.main w))
      = Some (Report (now w))) /\
     (is_dir SummaryTables.FIGURES_DIR w = false ->
      fst (SummaryTables.main w) = Raise report_not_writable /\
      read_file "figures/summary_tables_report.txt" (snd (SummaryTables.main w))
      = read_file "figures/summary_tables_report.txt" w)).
Proof.
  split; [intros e; apply tables_main_unwritten|].
  intros T HT.
  assert (Hw : tables_writes w = csv_writes T ++ text_writes T (now w) ++ report_writes w).
  { unfold tables_writes. unfold tables_of in HT.
    destruct (store w) as [db|]; [|discriminate]. now rewrite HT. }
  rewrite tables_main_result, tables_main_writes, Hw, HT. cbn [bind].
  unfold report_writes.
  split; [|split].
  - intros filename tab Hin. unfold csv_at. rewrite read_apply_writes.
    unfold SummaryTables.csv_names in Hin. simpl in Hin.
    destruct (is_dir SummaryTables.FIGURES_DIR w);
      repeat (destruct Hin as [Hin|Hin]; [inversion Hin; subst; reflexivity|]);
      destruct Hin.
  - intros ->. split; [reflexivity|]. now rewrite read_apply_writes.
  - intros ->. split; [reflexivity|]. now rewrite read_apply_writes.
Qed.

Lemma tables_main_outcome_witness :
  exists T,
    tables_of sample_world_bare = Ok T /\
    fst (SummaryTables.main sample_world_bare) = Raise report_not_writable /\
    csv_at "tables/table_4_years.csv" (snd (SummaryTables.main sample_world_bare))
    = Some (Pandas.to_csv (SummaryTables.columns (SummaryTables.table_4 T))
                          (SummaryTables.table_4 T)) /\
    fst (SummaryTables.main sample_world) = Ok T.
Proof.
  eexists. split; [vm_compute; reflexivity|].
  split; [|split].
  - apply (proj2 (tables_main_outcome sample_world_bare) _ eq_refl). reflexivity.
  - apply (proj1 (proj2 (tables_main_outcome sample_world_bare) _ eq_refl)
             "table_4_years.csv").
    right. right. right. left. reflexivity.
  - apply (proj2 (tables_main_outcome sample_world) _ eq_refl). reflexivity.
Defined.

(** X8.  The runner looks for the six tables under [figures/], the first
    generator writes them under [tables/]: no expected output of step 1 is
    ever written by the generator it runs. *)
Theorem step1_outputs_never_written (w : World) (step : Pipeline.Step) (path : string) :
  In step Pipeline.STEPS -> Pipeline.number step = 1%Z ->
  In path (Pipeline.outputs step) ->
  read_file path (snd (SummaryTables.main w)) = read_file path w.
Proof.
  intros Hstep Hnum Hpath.
  rewrite tables_main_writes, read_apply_writes.
  unfold Pipeline.STEPS in Hstep. simpl in Hstep.
  destruct Hstep as [<-|[<-|[<-|[]]]]; simpl in Hnum; try discriminate.
  unfold tables_writes, report_writes.
  destruct (store w) as [db|]; [|reflexivity].
  destruct (build_tables db) as [T|e]; [|reflexivity].
  simpl in Hpath.
  destruct (is_dir SummaryTables.FIGURES_DIR w);
    repeat (destruct Hpath as [<-|Hpath]; [reflexivity|]);
    destruct Hpath.
Qed.

Lemma step1_outputs_never_written_witness :
  read_file "figures/table_1_classification.csv" (snd (SummaryTables.main sample_world))
  = read_file "figures/table_1_classification.csv" sample_world.
Proof.
  apply (step1_outputs_never_written sample_world
           {| Pipeline.number := 1; Pipeline.name := "Summary Tables";
              Pipeline.script := "01_summary_tables.py";
              Pipeline.description := "Generate summary statistics tables "
                ++ "(classification, methods, regions, years, water values)";
              Pipeline.outputs :=
                [ Pipeline.fig "table_1_classification.csv"; Pipeline.fig "table_2_methods.csv";
                  Pipeline.fig "table_3_regions.csv"; Pipeline.fig "table_4_years.csv";
                  Pipeline.fig "table_5_wv_summary.csv";
                  Pipeline.fig "table_6_wv_purpose.csv" ] |}).
  - left. reflexivity.
  - reflexivity.
  - left. reflexivity.
Defined.

Lemma heatmap_main_result (heatmap : Database -> result unit) (w : World) :
  fst (Completeness.main heatmap w)
  = match store w with
    | None => Raise database_not_found
    | Some db => heatmap db
    end.
Proof.
  unfold Completeness.main, seq_prog, load_data, lift.
  destruct (store w) as [db|]; [|reflexivity].
  destruct (heatmap db) as [[]|e]; reflexivity.
Qed.

Lemma charts_main_result (draw : string -> Database -> result unit) (w : World) :
  fst (Charts.main draw w) = Ok tt ->
  exists db, store w = Some db /\
             snd (figure_writes draw db Charts.figure_names) = true.
Proof.
  unfold Charts.main, seq_prog, load_data.
  destruct (store w) as [db|]; [|discriminate].
  intros H. exists db. split; [reflexivity|].
  destruct (create_charts_writes draw db Charts.figure_names w) as [_ H2].
  destruct (snd (figure_writes draw db Charts.figure_names)); [reflexivity|].
  destruct H2 as [e He].
  destruct (Charts.create_charts draw db Charts.figure_names w) as [r w'].
  simpl in He. subst r. discriminate.
Qed.

(** X9.  The other two generators write what the runner expects: after a run
    of the second or third generator that ends without an exception, every
    expected output of its step holds a figure. *)
Theorem figures_outputs_written (w : World) (step : Pipeline.Step) (path : string) :
  In step Pipeline.STEPS -> In path (Pipeline.outputs step) ->
  (forall heatmap,
      Pipeline.number step = 2%Z -> fst (Completeness.main heatmap w) = Ok tt ->
      exists name, read_file path (snd (Completeness.main heatmap w)) = Some (Figure name)) /\
  (forall draw,
      Pipeline.number step = 3%Z -> fst (Charts.main draw w) = Ok tt ->
      exists name, read_file path (snd (Charts.main draw w)) = Some (Figure name)).
Proof.
  intros Hstep Hpath. unfold Pipeline.STEPS in Hstep. simpl in Hstep.
  split.
  - intros heatmap Hnum Hok.
    destruct Hstep as [<-|[<-|[<-|[]]]]; simpl in Hnum; try discriminate.
    rewrite heatmap_main_writes, read_apply_writes. unfold heatmap_writes.
    rewrite heatmap_main_result in Hok.
    destruct (store w) as [db|]; [|discriminate]. rewrite Hok.
    simpl in Hpath.
    repeat (destruct Hpath as [<-|Hpath]; [eexists; reflexivity|]). destruct Hpath.
  - intros draw Hnum Hok.
    destruct Hstep as [<-|[<-|[<-|[]]]]; simpl in Hnum; try discriminate.
    rewrite charts_main_writes, read_apply_writes. unfold charts_writes.
    destruct (charts_main_result draw w Hok) as (db & -> & Hall).
    unfold Charts.figure_names in *. cbn [figure_writes] in *.
    repeat match goal with
           | |- context [draw ?n db] => destruct (draw n db) as [[]|?]
           | H : context [draw ?n db] |- _ => destruct (draw n db) as [[]|?]
           end; cbn [snd] in Hall; try discriminate.
    simpl in Hpath.
    repeat (destruct Hpath as [<-|Hpath]; [eexists; reflexivity|]). destruct Hpath.
Qed.

(** ** The tables by their rows *)

(** X10.  Table 3 is produced for every table with rows and raises
    ZeroDivisionError for the table without rows: the share of "Not
    specified" for the printed note divides by the number of rows. *)
Theorem region_table_outcome (df : ClassFrame) :
  (SummaryTables.generate_region_table df = Raise ZeroDivisionError <-> df = []) /\
  (df <> [] -> exists t, SummaryTables.generate_region_table df = Ok t).
Proof.
  split; [split|].
  - intros H. destruct df as [|r df]; [reflexivity|].
    rewrite region_table_ok in H by discriminate. discriminate.
  - intros ->. reflexivity.
  - intros Hne. eexists. now apply region_table_ok.
Qed.

Lemma region_table_outcome_witness :
  exists t, SummaryTables.generate_region_table sample_class = Ok t.
Proof.
  apply (proj2 (region_table_outcome sample_class)). discriminate.
Defined.

Lemma Ok_inj {A} (a b : A) : Ok a = Ok b -> a = b.
Proof. intros H. now injection H. Qed.

Lemma round_half_even_zero (den : nat) : 0 < den -> round_half_even 0 den = 0.
Proof.
  intros Hd. unfold round_half_even.
  rewrite Nat.Div0.div_0_l, Nat.Div0.mod_0_l.
  destruct (Nat.ltb_spec (2 * 0) den); [reflexivity | lia].
Qed.

(** Table 4 as the model builds it: the six rows of [decade_row] and the
    Total row. *)
Lemma year_table_model (df : ClassFrame) (t : table) :
  SummaryTables.generate_year_table df = Ok t ->
  t = map (decade_row df) SummaryTables.decade_order
      ++ [ [ ("Year_Range", VStr "Total");
             ("Count", VInt (length df));
             ("Percentage", VFloat (Tenths 1000)) ] ] /\
  length t = 7 /\
  (forall decade, ~ In (Some decade) (map Decade df) ->
                  decade_row df decade
                  = [ ("Year_Range", VStr decade); ("Count", VInt 0);
                      ("Percentage", VFloat (Tenths 0)) ]).
Proof.
  intros H.
  assert (Hne : df <> []) by (intros ->; discriminate).
  rewrite (year_table_ok df Hne) in H. apply Ok_inj in H. subst t.
  assert (E : map (year_record (Pandas.value_counts (map Decade df)) (length df))
                  SummaryTables.decade_order
              = map (decade_row df) SummaryTables.decade_order).
  { apply map_ext. intros d. unfold year_record, decade_row.
    now rewrite value_counts_at_label. }
  rewrite E. split; [reflexivity|]. split; [reflexivity|].
  intros decade Hni. unfold decade_row.
  assert (Hz : occurrences decade (map Decade df) = 0).
  { destruct (occurrences decade (map Decade df)) eqn:Eo; [reflexivity|].
    exfalso. apply Hni. apply occurrences_pos_in. lia. }
  apply nonempty_length in Hne.
  rewrite Hz, np_percentage_pos by assumption.
  rewrite Nat.mul_0_r, round_half_even_zero by assumption. reflexivity.
Qed.

(** Table 2 as the model builds it: the rows of [method_row] in
    descending order of count, and the Total row. *)
Lemma method_table_model (df : ClassFrame) :
  exists methods,
    NoDup methods /\
    (forall method, In method methods <-> In (Some method) (map Method_clean df)) /\
    SummaryTables.generate_method_table df
    = map (method_row df) methods
      ++ [ [ ("Method", VStr "Total");
             ("Count", VInt (length df));
             ("Percentage", VFloat (Tenths 1000)) ] ] /\
    StronglySorted count_desc (map (method_row df) methods).
Proof.
  set (col := map Method_clean df).
  set (rows := map (fun '(method, count) =>
                      [ ("Method", VStr method); ("Count", VInt count);
                        ("Percentage", VFloat (np_percentage count (length df))) ])
                   (Pandas.value_counts col)).
  set (sorted := stable_sort (by_key_desc (Count_of "Count")) rows).
  set (name := fun r : record => match get "Method" r with
                                 | Some (VStr s) => s
                                 | _ => EmptyString
                                 end).
  assert (Hrows : forall r, In r rows -> r = method_row df (name r)
                                        /\ In (Some (name r)) col).
  { intros r Hr. unfold rows in Hr. apply in_map_iff in Hr as [[m c] [<- Hin]].
    apply in_value_counts in Hin as [-> Hpos]. split; [reflexivity|].
    now apply occurrences_pos_in. }
  assert (Hperm : Permutation rows sorted) by apply stable_sort_perm.
  assert (Hnames : map name rows = keys_of (Pandas.value_counts col)).
  { unfold rows, keys_of. rewrite map_map. apply map_ext. now intros [m c]. }
  exists (map name sorted). split; [|split; [|split]].
  - eapply Permutation_NoDup; [apply Permutation_map, Hperm|].
    rewrite Hnames. apply value_counts_NoDup.
  - intros method. rewrite <- value_counts_keys. fold col. rewrite <- Hnames.
    split; intros H; (eapply Permutation_in; [|exact H]);
      [apply Permutation_sym|]; apply Permutation_map, Hperm.
  - unfold SummaryTables.generate_method_table. fold col rows sorted. f_equal.
    rewrite map_map. rewrite <- (map_id sorted) at 1. apply map_ext_in.
    intros r Hr. apply Hrows. eapply Permutation_in; [apply Permutation_sym, Hperm | exact Hr].
  - assert (E : map (method_row df) (map name sorted) = sorted).
    { rewrite map_map. rewrite <- (map_id sorted) at 2. apply map_ext_in.
      intros r Hr. symmetry. apply Hrows.
      eapply Permutation_in; [apply Permutation_sym, Hperm | exact Hr]. }
    rewrite E. apply sorted_count_desc.
Qed.

Lemma str_le_total (a b : string) : str_le a b = false -> str_le b a = true.
Proof.
  unfold str_le. intros H. destruct (String.leb_total a b) as [E|E]; congruence.
Qed.

(** Table 1 as the model builds it: the rows of [category_row] in
    ascending order of the label, and the Total row. *)
Lemma classification_table_model (df : ClassFrame) :
  exists cats,
    NoDup cats /\
    (forall cat, In cat cats <-> In (Some cat) (map Classification df)) /\
    Sorted (fun a b => String.leb a b = true) cats /\
    SummaryTables.generate_classification_table df
    = map (category_row df) cats
      ++ [ [ ("Category", VStr "Total");
             ("Category_Name", VStr EmptyString);
             ("Count", VInt (length df));
             ("Percentage", VFloat (Tenths 1000)) ] ].
Proof.
  set (col := map Classification df).
  set (counts := Pandas.sort_index (Pandas.value_counts col)).
  assert (Hperm : Permutation (Pandas.value_counts col) counts) by apply sort_index_perm.
  assert (Hcats : Permutation (keys_of (Pandas.value_counts col))
                              (stable_sort str_le (Pandas.index counts))).
  { eapply perm_trans; [apply Permutation_map, Hperm | apply stable_sort_perm]. }
  exists (stable_sort str_le (Pandas.index counts)). split; [|split; [|split]].
  - eapply Permutation_NoDup; [exact Hcats | apply value_counts_NoDup].
  - intros cat. rewrite <- value_counts_keys. fold col.
    split; intros H; (eapply Permutation_in; [|exact H]);
      [apply Permutation_sym|]; exact Hcats.
  - apply (stable_sort_sorted str_le str_le_total).
  - unfold SummaryTables.generate_classification_table. fold col counts. f_equal.
    apply map_ext. intros cat. unfold category_row. fold col.
    rewrite <- (at_label_perm _ _ cat Hperm) by apply value_counts_NoDup.
    now rewrite value_counts_at_label.
Qed.

Example category_row_unknown :
  category_row [paper "Z" "LP" "Norway" "2015–2019" 2016] "Z"
  = [ ("Category", VStr "Z");
      ("Category_Name", VStr "[Category name — see article.txt]");
      ("Count", VInt 1); ("Percentage", VFloat (Tenths 1000)) ].
Proof. reflexivity. Qed.

Lemma figures_outputs_written_witness :
  exists name,
    read_file "figures/fig_completeness_heatmap.png"
              (snd (Completeness.main (fun _ => Ok tt) sample_world))
    = Some (Figure name).
Proof.
  apply (proj1 (figures_outputs_written sample_world
                  {| Pipeline.number := 2; Pipeline.name := "Completeness Heatmap";
                     Pipeline.script := "02_completeness_heatmap.py";
                     Pipeline.description := "Generate data completeness heatmap figure";
                     Pipeline.outputs := [ Pipeline.fig "fig_completeness_heatmap.png";
                                           Pipeline.fig "fig_completeness_heatmap.pdf" ] |}
                  "figures/fig_completeness_heatmap.png"
                  ltac:(right; left; reflexivity) ltac:(left; reflexivity))
               (fun _ => Ok tt)); reflexivity.
Defined.

(** ** Table 5: when it is produced *)

Lemma notna_sum_zero {A} (col : list (option A)) :
  Pandas.notna_sum col = 0 <-> Forall (fun c => c = None) col.
Proof.
  unfold Pandas.notna_sum. induction col as [|c col IH]; simpl.
  - split; [constructor | reflexivity].
  - destruct c as [x|]; simpl.
    + split; [discriminate | intros H; inversion H; discriminate].
    + rewrite IH. split; [now constructor | intros H; now inversion H].
Qed.

Lemma tally_empty_iff (col : list (option string)) :
  Pandas.tally col = [] <-> Forall (fun c => c = None) col.
Proof.
  rewrite <- notna_sum_zero.
  destruct (tally_spec col) as (_ & Hpos & _ & Hsum). rewrite <- Hsum.
  destruct (Pandas.tally col) as [|[k v] t]; [tauto|].
  inversion Hpos; subst. simpl in *. split; [discriminate | lia].
Qed.

Lemma fold_opt_none (f : Z -> Z -> Z) (col : list (option Z)) :
  Pandas.fold_opt f col = None <-> Pandas.notna_sum col = 0.
Proof.
  unfold Pandas.fold_opt.
  assert (H : forall acc,
             fold_left (fun acc c => match c, acc with
                                     | Some y, Some a => Some (f a y)
                                     | Some y, None => Some y
                                     | None, _ => acc
                                     end) col acc = None
             <-> acc = None /\ Pandas.notna_sum col = 0).
  { unfold Pandas.notna_sum. induction col as [|c col IH]; intros acc; simpl.
    - tauto.
    - rewrite IH. destruct c as [y|]; simpl.
      + destruct acc; split; intros [H1 H2]; discriminate.
      + tauto. }
  rewrite H. tauto.
Qed.

Lemma int_of_outcome (f : Z -> Z -> Z) (col : list (option Z)) :
  (Pandas.notna_sum col = 0 ->
   SummaryTables.int_of (Pandas.fold_opt f col) = Raise ValueError) /\
  (0 < Pandas.notna_sum col ->
   exists z, SummaryTables.int_of (Pandas.fold_opt f col) = Ok z).
Proof.
  pose proof (fold_opt_none f col) as H.
  destruct (Pandas.fold_opt f col) as [z|]; simpl; split; intros Hn.
  - destruct H as [_ H]. specialize (H Hn). discriminate.
  - eauto.
  - reflexivity.
  - destruct H as [H _]. specialize (H eq_refl). lia.
Qed.

Lemma max_count_attained (c : Pandas.counts) :
  c <> [] -> filter (fun e => snd e =? Pandas.max_count c) c <> [].
Proof.
  induction c as [|e t IH]; [congruence|]. intros _.
  unfold Pandas.max_count in *. cbn [map fold_right filter].
  destruct (Nat.max_spec (snd e) (fold_right Nat.max 0 (map snd t))) as [[Hlt E]|[Hle E]];
    rewrite E.
  - destruct (snd e =? _); [discriminate|].
    apply IH. intros ->. simpl in Hlt. lia.
  - rewrite Nat.eqb_refl. discriminate.
Qed.

Lemma tally_nonempty (col : list (option string)) :
  0 < Pandas.notna_sum col <-> Pandas.tally col <> [].
Proof.
  rewrite tally_empty_iff, <- notna_sum_zero. lia.
Qed.

Lemma first_mode_outcome (col : list (option string)) :
  (Pandas.notna_sum col = 0 -> SummaryTables.first_mode col = Raise IndexError) /\
  (0 < Pandas.notna_sum col -> exists m, SummaryTables.first_mode col = Ok m).
Proof.
  unfold SummaryTables.first_mode, Pandas.mode. split; intros Hn.
  - apply notna_sum_zero, tally_empty_iff in Hn. rewrite Hn. reflexivity.
  - apply tally_nonempty, max_count_attained in Hn.
    match goal with |- context [Pandas.sort_index ?l] =>
      pose proof (Permutation_length (sort_index_perm l)) as Hlen;
      destruct l as [|e l']; [congruence|];
      destruct (Pandas.sort_index (e :: l')) as [|[k v] s]; [discriminate|]
    end.
    simpl. eauto.
Qed.

Lemma idxmax_outcome (col : list (option string)) :
  (Pandas.notna_sum col = 0 -> Pandas.idxmax (Pandas.groupby_size col) = None) /\
  (0 < Pandas.notna_sum col ->
   exists k, Pandas.idxmax (Pandas.groupby_size col) = Some k).
Proof.
  unfold Pandas.idxmax, Pandas.groupby_size. split; intros Hn.
  - apply notna_sum_zero, tally_empty_iff in Hn. rewrite Hn. reflexivity.
  - apply tally_nonempty in Hn.
    assert (Hs : Pandas.sort_index (Pandas.tally col) <> []).
    { intros E. pose proof (Permutation_length (sort_index_perm (Pandas.tally col))) as Hl.
      rewrite E in Hl. destruct (Pandas.tally col); [congruence | discriminate]. }
    apply max_count_attained in Hs.
    destruct (filter _ (Pandas.sort_index (Pandas.tally col))) as [|[k v] t];
      [congruence | eauto].
Qed.

(** X14.  Table 5 is produced exactly when each of the columns it summarises
    by a minimum, a mode or a group has a non-null cell.  Otherwise the
    first failing step decides: [int()] of the NaN year raises ValueError,
    [.mode().iloc[0]] of an all-null column raises IndexError, and [idxmax]
    over no paper raises ValueError.  In particular the empty water_values
    table raises ValueError. *)
Theorem wv_summary_outcome (df_class : ClassFrame) (df_wv : WvFrame) :
  (Pandas.notna_sum (map Paper_year df_wv) = 0 ->
   SummaryTables.generate_wv_summary_table df_class df_wv = Raise ValueError) /\
  (0 < Pandas.notna_sum (map Paper_year df_wv) ->
   Pandas.notna_sum (map Purpose_clean df_wv) = 0
   \/ Pandas.notna_sum (map units_clean df_wv) = 0
   \/ Pandas.notna_sum (map Country_clean df_wv) = 0
   \/ Pandas.notna_sum (map wv_Method_clean df_wv) = 0 ->
   SummaryTables.generate_wv_summary_table df_class df_wv = Raise IndexError) /\
  (0 < Pandas.notna_sum (map Paper_year df_wv) ->
   0 < Pandas.notna_sum (map Purpose_clean df_wv) ->
   0 < Pandas.notna_sum (map units_clean df_wv) ->
   0 < Pandas.notna_sum (map Country_clean df_wv) ->
   0 < Pandas.notna_sum (map wv_Method_clean df_wv) ->
   (Pandas.notna_sum (map ID df_wv) = 0 ->
    SummaryTables.generate_wv_summary_table df_class df_wv = Raise ValueError) /\
   (0 < Pandas.notna_sum (map ID df_wv) ->
    exists t, SummaryTables.generate_wv_summary_table df_class df_wv = Ok t /\
              length t = 16 /\
              Forall (fun r => map fst r = ["Statistic"; "Value"]) t)).
Proof.
  unfold SummaryTables.generate_wv_summary_table. cbv zeta.
  unfold Pandas.col_min, Pandas.col_max.
  destruct (int_of_outcome Z.min (map Paper_year df_wv)) as [Ymin0 Ymin1].
  destruct (int_of_outcome Z.max (map Paper_year df_wv)) as [Ymax0 Ymax1].
  destruct (first_mode_outcome (map Purpose_clean df_wv)) as [P0 P1].
  destruct (first_mode_outcome (map units_clean df_wv)) as [U0 U1].
  destruct (first_mode_outcome (map Country_clean df_wv)) as [C0 C1].
  destruct (first_mode_outcome (map wv_Method_clean df_wv)) as [M0 M1].
  destruct (idxmax_outcome (map ID df_wv)) as [I0 I1].
  split; [|split].
  - intros Hy. rewrite (Ymin0 Hy). reflexivity.
  - intros Hy Hcols.
    destruct (Ymin1 Hy) as [ymin ->]. destruct (Ymax1 Hy) as [ymax ->]. cbn [bind].
    destruct (Nat.eq_0_gt_0_cases (Pandas.notna_sum (map Purpose_clean df_wv))) as [E|E];
      [rewrite (P0 E); reflexivity | destruct (P1 E) as [mp ->]; cbn [bind]].
    destruct (Nat.eq_0_gt_0_cases (Pandas.notna_sum (map units_clean df_wv))) as [E1|E1];
      [rewrite (U0 E1); reflexivity | destruct (U1 E1) as [mu ->]; cbn [bind]].
    destruct (Nat.eq_0_gt_0_cases (Pandas.notna_sum (map Country_clean df_wv))) as [E2|E2];
      [rewrite (C0 E2); reflexivity | destruct (C1 E2) as [mc ->]; cbn [bind]].
    destruct (Nat.eq_0_gt_0_cases (Pandas.notna_sum (map wv_Method_clean df_wv)))
      as [E3|E3]; [rewrite (M0 E3); reflexivity | lia].
  - intros Hy Hp Hu Hc Hm.
    destruct (Ymin1 Hy) as [ymin ->]. destruct (Ymax1 Hy) as [ymax ->].
    destruct (P1 Hp) as [mp ->]. destruct (U1 Hu) as [mu ->].
    destruct (C1 Hc) as [mc ->]. destruct (M1 Hm) as [mm ->]. cbn [bind].
    split; intros Hi.
    + rewrite (I0 Hi). reflexivity.
    + destruct (I1 Hi) as [k ->]. cbn [bind].
      eexists. split; [reflexivity|]. split; [reflexivity|].
      repeat constructor.
Qed.

Lemma wv_summary_outcome_witness :
  SummaryTables.generate_wv_summary_table sample_class [] = Raise ValueError.
Proof.
  apply (proj1 (wv_summary_outcome sample_class [])). reflexivity.
Defined.

(** ** Table 6: distinct papers, countries and continents *)

Lemma tally_keys (col : list (option string)) (k : string) :
  In k (keys_of (Pandas.tally col)) <-> In (Some k) col.
Proof.
  rewrite <- value_counts_keys. split; intros H;
    (eapply Permutation_in; [|exact H]); [|apply Permutation_sym];
    apply Permutation_map, value_counts_perm.
Qed.








(** ** Chart 1: where the trend lines are defined *)

Lemma rolling_mean_nth (offset min_periods : nat) (xs : list nat) (i : nat) :
  i < length xs ->
  nth_error (Charts.rolling_mean (2 * offset + 1) min_periods xs) i
  = Some (if periods_in_window (2 * offset + 1) (length xs) i <? min_periods
          then None
          else Some (Z.of_nat (list_sum (Charts.window_values (2 * offset + 1) xs i))
                     # Pos.of_nat (length (Charts.window_values (2 * offset + 1) xs i)))).
Proof.
  intros Hi. unfold Charts.rolling_mean.
  rewrite nth_error_map, nth_error_nth' with (d := 0) by (now rewrite length_seq).
  rewrite seq_nth by assumption. cbn [option_map Nat.add].
  now rewrite window_values_length.
Qed.

Lemma Forall_nth_error {A} (P : A -> Prop) (l : list A) :
  (forall i x, nth_error l i = Some x -> P x) -> Forall P l.
Proof.
  intros H. apply Forall_forall. intros x Hx.
  apply In_nth_error in Hx as [i Hi]. eauto.
Qed.

(** X16.  The 3-year trend line has a value in every year as soon as the
    series has two years, and the 5-year trend line as soon as it has
    three; a shorter series has no value at all. *)
Theorem rolling_means_defined (xs : list nat) :
  (2 <= length xs -> Forall (fun v => v <> None) (Charts.ma_3yr xs)) /\
  (3 <= length xs -> Forall (fun v => v <> None) (Charts.ma_5yr xs)) /\
  (length xs < 2 -> Forall (fun v => v = None) (Charts.ma_3yr xs)) /\
  (length xs < 3 -> Forall (fun v => v = None) (Charts.ma_5yr xs)).
Proof.
  assert (Hlt : forall w mp i x, nth_error (Charts.rolling_mean w mp xs) i = Some x ->
                                 i < length xs).
  { intros w mp i x H. rewrite <- (rolling_mean_length w mp xs).
    apply nth_error_Some. congruence. }
  unfold Charts.ma_3yr, Charts.ma_5yr.
  repeat split; intros Hn; apply Forall_nth_error; intros i x Hx;
    pose proof (Hlt _ _ _ _ Hx) as Hi;
    pose proof (rolling_mean_nth 1 2 xs i Hi) as E3;
    pose proof (rolling_mean_nth 2 3 xs i Hi) as E5;
    rewrite (periods_odd_window 1) in E3; rewrite (periods_odd_window 2) in E5;
    change (2 * 1 + 1) with 3 in E3; change (2 * 2 + 1) with 5 in E5.
  - rewrite E3 in Hx.
    destruct (Nat.ltb_spec (Nat.min (i + 1 + 1) (length xs) - Nat.min (i - 1) (length xs)) 2);
      [lia | injection Hx as <-; discriminate].
  - rewrite E5 in Hx.
    destruct (Nat.ltb_spec (Nat.min (i + 1 + 2) (length xs) - Nat.min (i - 2) (length xs)) 3);
      [lia | injection Hx as <-; discriminate].
  - rewrite E3 in Hx.
    destruct (Nat.ltb_spec (Nat.min (i + 1 + 1) (length xs) - Nat.min (i - 1) (length xs)) 2);
      [now injection Hx as <- | lia].
  - rewrite E5 in Hx.
    destruct (Nat.ltb_spec (Nat.min (i + 1 + 2) (length xs) - Nat.min (i - 2) (length xs)) 3);
      [now injection Hx as <- | lia].
Qed.

Lemma rolling_means_defined_witness :
  Forall (fun v => v <> None) (Charts.ma_5yr [0; 1; 1]).
Proof.
  apply (proj1 (proj2 (rolling_means_defined [0; 1; 1]))). simpl. lia.
Defined.

(** ** Chart 2: when the bars are produced, and what they add up to *)

Lemma special_categories_NoDup : NoDup Charts.special_categories.
Proof.
  unfold Charts.special_categories.
  repeat (constructor; [simpl; intros H; repeat (destruct H as [H|H]; [discriminate|]); exact H|]).
  constructor.
Qed.

Lemma sentinel_bars_sum (df : ClassFrame) :
  list_sum (map snd (sentinel_bars df))
  = list_sum (map snd (Charts.special_counts (Pandas.value_counts (region_col df)))).
Proof.
  set (sc := Charts.special_counts (Pandas.value_counts (region_col df))).
  rewrite <- (sum_at_label sc Charts.special_categories).
  - unfold sentinel_bars, Charts.special_categories, Pandas.at_label. fold sc.
    cbn [flat_map map]. rewrite !map_app, !list_sum_app.
    destruct (Pandas.lookup "Not specified" sc);
      destruct (Pandas.lookup "Synthetic/Theoretical" sc); simpl; lia.
  - apply special_categories_NoDup.
  - apply NoDup_keys_filter, value_counts_NoDup.
  - intros k Hk. unfold keys_of, sc, Charts.special_counts in Hk.
    apply in_map_iff in Hk as [[k' v] [<- Hin]]. apply filter_In in Hin as [_ Hm].
    now apply existsb_eqb_In in Hm.
Qed.

Lemma remainder_bar_sum (df : ClassFrame) :
  list_sum (map snd (remainder_bar df))
  = list_sum (map snd (Charts.beyond_15 (Pandas.value_counts (region_col df)))).
Proof.
  unfold remainder_bar.
  destruct (Charts.beyond_15 _) as [|e rest]; [reflexivity|].
  cbn [map snd]. rewrite !list_sum_cons. simpl. lia.
Qed.

Lemma display_data_parts (df : ClassFrame) :
  Charts.display_data (Pandas.value_counts (region_col df))
  = sentinel_bars df ++ remainder_bar df ++ region_bars df.
Proof.
  unfold Charts.display_data, sentinel_bars, remainder_bar, region_bars.
  f_equal. f_equal.
  pose proof (remainder_positive df) as Hpos.
  destruct (Charts.beyond_15 _) as [|[r c] rest]; [reflexivity|].
  inversion Hpos as [|? ? Hc _]; subst. simpl in Hc.
  destruct (Nat.ltb_spec 0 (list_sum (map snd ((r, c) :: rest)))) as [_|Hle];
    [reflexivity | simpl in Hle; lia].
Qed.

Lemma display_data_sum (df : ClassFrame) :
  list_sum (map snd (Charts.display_data (Pandas.value_counts (region_col df))))
  = Pandas.notna_sum (region_col df).
Proof.
  rewrite display_data_parts, !map_app, !list_sum_app.
  rewrite sentinel_bars_sum, remainder_bar_sum.
  unfold region_bars. rewrite map_rev, (list_sum_perm _ _ (Permutation_sym (Permutation_rev _))).
  set (rc := Pandas.value_counts (region_col df)).
  assert (Hreg : list_sum (map snd (Charts.top_15 rc))
                 + list_sum (map snd (Charts.beyond_15 rc))
                 = list_sum (map snd (Charts.regular_counts rc))).
  { rewrite <- list_sum_app, <- map_app. unfold Charts.top_15, Charts.beyond_15.
    rewrite firstn_skipn. symmetry. apply sum_map_perm, stable_sort_perm. }
  rewrite <- (value_counts_sum (region_col df)). fold rc.
  rewrite <- (sum_filter_split snd (fun e => Charts.mem (fst e) Charts.special_categories) rc).
  unfold Charts.special_counts. unfold Charts.regular_counts in Hreg. lia.
Qed.

(** X17.  Chart 2 has its bars exactly when some region cell is not NULL: the
    empty table raises ZeroDivisionError (the printed share of "Not
    specified"), a table whose region cells are all NULL raises ValueError
    ([max()] of no count).  The bars, at most 18, add up to the number of
    rows with a region: no paper is lost between the bars. *)
Theorem chart2_outcome (df : ClassFrame) :
  (df = [] -> Charts.create_geographic_distribution df = Raise ZeroDivisionError) /\
  (df <> [] -> Pandas.notna_sum (region_col df) = 0 ->
   Charts.create_geographic_distribution df = Raise ValueError) /\
  (0 < Pandas.notna_sum (region_col df) ->
   exists bars,
     Charts.create_geographic_distribution df = Ok bars /\
     list_sum (map snd bars) = Pandas.notna_sum (region_col df) /\
     length bars <= 18).
Proof.
  split; [intros ->; reflexivity|].
  assert (Hrun : df <> [] ->
                 Charts.create_geographic_distribution df
                 = match Charts.display_data (Pandas.value_counts (region_col df)) with
                   | [] => Raise ValueError
                   | bars => Ok bars
                   end).
  { intros Hne. apply nonempty_length in Hne.
    unfold Charts.create_geographic_distribution, py_percentage. fold (region_col df).
    destruct (Nat.eqb_spec (length df) 0); [lia|].
    destruct (Pandas.lookup "Not specified" _); cbn [bind];
      destruct (Charts.display_data _); reflexivity. }
  split.
  - intros Hne Hz. rewrite (Hrun Hne).
    pose proof (display_data_sum df) as Hsum. rewrite Hz in Hsum.
    pose proof (display_data_parts df) as Hparts.
    assert (Hrc : Pandas.value_counts (region_col df) = []).
    { unfold Pandas.value_counts.
      apply notna_sum_zero, tally_empty_iff in Hz. now rewrite Hz. }
    rewrite Hrc. reflexivity.
  - intros Hpos.
    assert (Hne : df <> []).
    { intros ->. cbv in Hpos. lia. }
    rewrite (Hrun Hne).
    pose proof (display_data_sum df) as Hsum.
    assert (Hlen : length (Charts.display_data (Pandas.value_counts (region_col df))) <= 18).
    { rewrite display_data_parts, !length_app.
      assert (length (sentinel_bars df) <= 2).
      { unfold sentinel_bars, Charts.special_categories. cbn [flat_map].
        rewrite !length_app.
        destruct (Pandas.lookup "Not specified" _);
          destruct (Pandas.lookup "Synthetic/Theoretical" _); simpl; lia. }
      assert (length (remainder_bar df) <= 1).
      { unfold remainder_bar. destruct (Charts.beyond_15 _); simpl; lia. }
      assert (length (region_bars df) <= 15).
      { unfold region_bars, Charts.top_15. rewrite length_rev. apply firstn_le_length. }
      lia. }
    destruct (Charts.display_data (Pandas.value_counts (region_col df))) as [|b bars] eqn:E.
    + simpl in Hsum. lia.
    + exists (b :: bars). auto.
Qed.

Lemma chart2_outcome_witness :
  exists bars,
    Charts.create_geographic_distribution sample_regions = Ok bars /\
    list_sum (map snd bars) = Pandas.notna_sum (region_col sample_regions) /\
    length bars <= 18.
Proof.
  apply (proj2 (proj2 (chart2_outcome sample_regions))). vm_compute. lia.
Defined.

(** ** Chart 1: the yearly totals *)





Lemma list_sum_map_add {A} (f g : A -> nat) (l : list A) :
  list_sum (map (fun x => f x + g x) l) = list_sum (map f l) + list_sum (map g l).
Proof.
  induction l as [|x l IH]; [reflexivity|].
  cbn [map]. rewrite !list_sum_cons, IH. lia.
Qed.

Lemma list_sum_map_zero {A} (l : list A) : list_sum (map (fun _ => 0) l) = 0.
Proof. induction l as [|x l IH]; [reflexivity|]. cbn [map]. now rewrite list_sum_cons, IH. Qed.





(** ** Chart 5: the order of the labels and the total of the table *)

Lemma charts_mem_In (k : string) (l : list string) : Charts.mem k l = true <-> In k l.
Proof. apply existsb_eqb_In. Qed.

Lemma append_missing_closed (order labels : list string) :
  NoDup labels ->
  Charts.append_missing order labels
  = order ++ filter (fun c => negb (Charts.mem c order)) labels.
Proof.
  unfold Charts.append_missing. revert order.
  induction labels as [|c labels IH]; intros order Hnd; simpl.
  - now rewrite app_nil_r.
  - inversion Hnd as [|? ? Hni Hnd']; subst.
    destruct (Charts.mem c order) eqn:Ec; simpl.
    + now apply IH.
    + rewrite (IH _ Hnd'), <- app_assoc. simpl. f_equal. f_equal.
      apply filter_ext_in. intros a Ha. f_equal.
      unfold Charts.mem. rewrite existsb_app. simpl.
      destruct (String.eqb_spec a c) as [->|Hne]; [tauto|].
      now rewrite orb_false_r.
Qed.

(** The reordering of labels: the predefined labels that are present,
    in the predefined order, followed by the present labels that are not
    predefined, in the order they have. *)
Lemma label_order_closed (predefined present : list string) :
  NoDup present ->
  Charts.label_order predefined present
  = filter (fun c => Charts.mem c present) predefined
    ++ filter (fun c => negb (Charts.mem c predefined)) present.
Proof.
  intros Hnd. unfold Charts.label_order. rewrite (append_missing_closed _ _ Hnd).
  f_equal. apply filter_ext_in. intros a Ha. f_equal.
  apply eq_true_iff_eq. rewrite !charts_mem_In, filter_In, charts_mem_In. tauto.
Qed.

Lemma label_order_perm (predefined present : list string) :
  NoDup predefined -> NoDup present ->
  Permutation (Charts.label_order predefined present) present.
Proof.
  intros Hp Hq. rewrite (label_order_closed _ _ Hq).
  apply NoDup_Permutation; [|exact Hq|].
  - apply NoDup_app; [now apply NoDup_filter | now apply NoDup_filter|].
    intros a Ha Hb. apply filter_In in Ha as [Ha _]. apply filter_In in Hb as [_ Hb].
    apply negb_true_iff in Hb. apply charts_mem_In in Ha. congruence.
  - intros a. rewrite in_app_iff, !filter_In, negb_true_iff, charts_mem_In.
    destruct (Charts.mem a predefined) eqn:E.
    + apply charts_mem_In in E. split; [intros [[_ H]|[_ H]]; [exact H | discriminate]|tauto].
    + split; [intros [[H _]|[H _]]; [|exact H]|tauto].
      apply charts_mem_In in H. congruence.
Qed.

Lemma groupby_index_NoDup (col : list (option string)) :
  NoDup (Pandas.index (Pandas.groupby_size col)).
Proof.
  eapply Permutation_NoDup; [apply Permutation_map, sort_index_perm | apply tally_spec].
Qed.

Lemma groupby_index_In (col : list (option string)) (k : string) :
  In k (Pandas.index (Pandas.groupby_size col)) <-> In (Some k) col.
Proof.
  rewrite <- tally_keys. split; intros H; (eapply Permutation_in; [|exact H]);
    [apply Permutation_sym|]; apply Permutation_map, sort_index_perm.
Qed.

Lemma sum_indicator (a : string) (K : list string) :
  NoDup K -> In a K ->
  list_sum (map (fun k => if String.eqb a k then 1 else 0) K) = 1.
Proof.
  intros Hnd Hin.
  rewrite (sum_if_key a 1 (fun _ => 0) K Hnd Hin eq_refl), list_sum_map_zero. reflexivity.
Qed.

(** Counting the elements of a list by a label, over a duplicate-free
    list of labels that covers them, counts each element once. *)
Lemma sum_by_label {A} (f : A -> string) (K : list string) (l : list A) :
  NoDup K -> (forall x, In x l -> In (f x) K) ->
  list_sum (map (fun k => length (filter (fun x => String.eqb (f x) k) l)) K) = length l.
Proof.
  intros Hnd. induction l as [|x l IH]; intros Hcov.
  - simpl. apply list_sum_map_zero.
  - rewrite (map_ext _ (fun k => (if String.eqb (f x) k then 1 else 0)
                               + length (filter (fun y => String.eqb (f y) k) l))).
    + rewrite list_sum_map_add, sum_indicator, IH; auto.
      * intros y Hy. apply Hcov. now right.
      * apply Hcov. now left.
    + intros k. cbn [filter]. destruct (String.eqb (f x) k); reflexivity.
Qed.

(** X19.  The rows and the columns of the heat map of Chart 5 are the
    categories and the methods that occur, each once: first those of
    CATEGORY_ORDER and METHOD_ORDER in that order, then any others; and the
    cells add up to the number of papers that have both a category and a
    method. *)
Theorem category_method_table_total (df : ClassFrame) :
  Permutation (Charts.row_order df) (Charts.crosstab_index df) /\
  Permutation (Charts.col_order df) (Charts.crosstab_columns df) /\
  Charts.row_order df
  = filter (fun c => Charts.mem c (Charts.crosstab_index df)) Charts.CATEGORY_ORDER
    ++ filter (fun c => negb (Charts.mem c Charts.CATEGORY_ORDER)) (Charts.crosstab_index df) /\
  Charts.col_order df
  = filter (fun m => Charts.mem m (Charts.crosstab_columns df)) Charts.METHOD_ORDER
    ++ filter (fun m => negb (Charts.mem m Charts.METHOD_ORDER)) (Charts.crosstab_columns df) /\
  list_sum (map (fun row => list_sum (snd row)) (Charts.category_method_table df))
  = length (Charts.both_cells df).
Proof.
  assert (HC : NoDup Charts.CATEGORY_ORDER).
  { unfold Charts.CATEGORY_ORDER.
    repeat (constructor; [simpl; intros H; repeat (destruct H as [H|H]; [discriminate|]);
                          exact H|]). constructor. }
  assert (HM : NoDup Charts.METHOD_ORDER).
  { unfold Charts.METHOD_ORDER.
    repeat (constructor; [simpl; intros H; repeat (destruct H as [H|H]; [discriminate|]);
                          exact H|]). constructor. }
  pose proof (groupby_index_NoDup (map (fun p => Some (fst p)) (Charts.both_cells df))) as Hi.
  pose proof (groupby_index_NoDup (map (fun p => Some (snd p)) (Charts.both_cells df))) as Hc.
  fold (Charts.crosstab_index df) in Hi. fold (Charts.crosstab_columns df) in Hc.
  assert (Prow := label_order_perm _ _ HC Hi). assert (Pcol := label_order_perm _ _ HM Hc).
  fold (Charts.row_order df) in Prow. fold (Charts.col_order df) in Pcol.
  split; [exact Prow|]. split; [exact Pcol|].
  split; [apply (label_order_closed _ _ Hi)|]. split; [apply (label_order_closed _ _ Hc)|].
  unfold Charts.category_method_table. rewrite map_map. cbn [snd].
  assert (Hrow : forall c,
             list_sum (map (Charts.crosstab_cell df c) (Charts.col_order df))
             = length (filter (fun p => String.eqb (fst p) c) (Charts.both_cells df))).
  { intros c.
    rewrite <- (sum_by_label snd (Charts.col_order df)
                  (filter (fun p => String.eqb (fst p) c) (Charts.both_cells df))).
    - f_equal. apply map_ext. intros m. unfold Charts.crosstab_cell.
      f_equal. clear. induction (Charts.both_cells df) as [|p l IH]; [reflexivity|].
      cbn [filter]. destruct (String.eqb (fst p) c); cbn [filter andb]; [|exact IH].
      destruct (String.eqb (snd p) m); now rewrite IH.
    - eapply Permutation_NoDup; [apply Permutation_sym, Pcol | exact Hc].
    - intros p Hp. apply filter_In in Hp as [Hp _].
      eapply Permutation_in; [apply Permutation_sym, Pcol|].
      apply groupby_index_In. apply in_map_iff. now exists p. }
  rewrite (map_ext _ _ Hrow).
  apply (sum_by_label fst (Charts.row_order df) (Charts.both_cells df)).
  - eapply Permutation_NoDup; [apply Permutation_sym, Prow | exact Hi].
  - intros p Hp. eapply Permutation_in; [apply Permutation_sym, Prow|].
    apply groupby_index_In. apply in_map_iff. now exists p.
Qed.

Example category_method_table_sample :
  Charts.category_method_table
    [ paper "B" "SDP" "Norway" "2015–2019" 2016; paper "Z" "Fuzzy" "Chile" "2015–2019" 2016;
      paper "A" "LP" "Peru" "2015–2019" 2016; paper "A" "SDP" "Peru" "2015–2019" 2017 ]
  = [ ("A", [1; 1; 0]); ("B", [0; 1; 0]); ("Z", [0; 0; 1]) ].
Proof. vm_compute. reflexivity. Qed.

(** ** The completeness percentages (02_completeness_heatmap.py) *)

Lemma for_each_Ok_inv {A B} (f : A -> result B) (l : list A) (ys : list B) :
  SummaryTables.for_each f l = Ok ys -> Forall2 (fun x y => f x = Ok y) l ys.
Proof.
  revert ys. induction l as [|x t IH]; intros ys H; cbn in H.
  - apply Ok_inj in H. subst ys. constructor.
  - destruct (f x) as [y|e] eqn:Ex; cbn in H; [|discriminate].
    destruct (SummaryTables.for_each f t) as [zs|e] eqn:Et; cbn in H; [|discriminate].
    apply Ok_inj in H. subst ys. constructor; [exact Ex | now apply IH].
Qed.

Lemma for_each_Raise_inv {A B} (f : A -> result B) (l : list A) (e : exn) :
  SummaryTables.for_each f l = Raise e -> exists x, In x l /\ f x = Raise e.
Proof.
  induction l as [|x t IH]; intros H; cbn in H; [discriminate|].
  destruct (f x) as [y|e'] eqn:Ex; cbn in H.
  - destruct (SummaryTables.for_each f t) as [zs|e'] eqn:Et; cbn in H; [discriminate|].
    destruct (IH H) as (x' & Hin & Hx'). exists x'. split; [now right | exact Hx'].
  - exists x. split; [now left | congruence].
Qed.

Lemma for_each_Raise_intro {A B} (f : A -> result B) (l : list A) (e : exn) (x : A) :
  In x l -> f x = Raise e ->
  (forall x' e', In x' l -> f x' = Raise e' -> e' = e) ->
  SummaryTables.for_each f l = Raise e.
Proof.
  intros Hin Hx Hall.
  destruct (SummaryTables.for_each f l) as [ys|e'] eqn:E.
  - apply for_each_Ok_inv in E. exfalso.
    clear Hall. induction E as [|x0 y l0 ys0 H0 _ IH]; [contradiction|].
    destruct Hin as [-> | Hin]; [congruence | now apply IH].
  - apply for_each_Raise_inv in E as (x' & Hin' & Hx'). f_equal. now apply (Hall x').
Qed.

Lemma non_null_le (isna : list bool) : Completeness.non_null isna <= length isna.
Proof. unfold Completeness.non_null. apply filter_length_le. Qed.

Lemma non_null_all (isna : list bool) :
  forallb negb isna = true -> Completeness.non_null isna = length isna.
Proof.
  unfold Completeness.non_null. induction isna as [|b t IH]; [reflexivity|].
  cbn [forallb filter]. intros H. apply andb_true_iff in H as [Hb Ht].
  rewrite Hb. cbn [length]. now rewrite IH.
Qed.

Lemma non_null_none (isna : list bool) :
  forallb (fun b => b) isna = true -> Completeness.non_null isna = 0.
Proof.
  unfold Completeness.non_null. induction isna as [|b t IH]; [reflexivity|].
  cbn [forallb filter]. intros H. apply andb_true_iff in H as [Hb Ht].
  rewrite Hb. cbn [negb]. now apply IH.
Qed.

Lemma column_pct_cons (b : bool) (t : list bool) :
  Completeness.column_pct (b :: t)
  = Ok (round_half_even (100 * Completeness.non_null (b :: t)) (length (b :: t))).
Proof. reflexivity. Qed.

Lemma column_pct_near (isna : list bool) :
  isna <> [] ->
  exists p, Completeness.column_pct isna = Ok p /\ p <= 100 /\
    2 * length isna * p <= 200 * Completeness.non_null isna + length isna /\
    200 * Completeness.non_null isna <= 2 * length isna * p + length isna.
Proof.
  intros Hne. destruct isna as [|b t]; [contradiction|].
  rewrite column_pct_cons.
  set (col := b :: t). assert (Hn : 0 < length col) by (cbn [col length]; lia).
  pose proof (non_null_le col) as Hk.
  pose proof (round_half_even_near (100 * Completeness.non_null col) (length col) Hn)
    as [B1 B2].
  set (p := round_half_even _ _) in *. set (n := length col) in *.
  set (k := Completeness.non_null col) in *.
  exists p. split; [reflexivity|]. split; [nia|]. split; lia.
Qed.

(** X20.  The percentage of a column with at least one row is an integer
    from 0 to 100 within half a point of the exact share of its cells that
    are not NULL; it is 100 for a column without NULL and 0 for a column of
    NULLs.  A column with no row raises ValueError (the
    mean of no value is NaN, which [astype(int)] refuses). *)
Theorem column_completeness_outcome (isna : list bool) :
  (Completeness.column_pct isna = Raise ValueError <-> isna = []) /\
  (isna <> [] ->
   exists p, Completeness.column_pct isna = Ok p /\ p <= 100 /\
     2 * length isna * p <= 200 * Completeness.non_null isna + length isna /\
     200 * Completeness.non_null isna <= 2 * length isna * p + length isna /\
     (forallb negb isna = true -> p = 100) /\
     (forallb (fun b => b) isna = true -> p = 0)).
Proof.
  split.
  - split; [|intros ->; reflexivity].
    destruct isna as [|b t]; [reflexivity|]. rewrite column_pct_cons. discriminate.
  - intros Hne. destruct (column_pct_near isna Hne) as (p & Hp & H100 & B1 & B2).
    exists p. split; [exact Hp|]. split; [exact H100|]. split; [exact B1|].
    split; [exact B2|].
    assert (Hn : 0 < length isna) by (destruct isna; [contradiction | cbn [length]; lia]).
    split; intros Hall.
    + rewrite (non_null_all _ Hall) in B2. nia.
    + rewrite (non_null_none _ Hall) in B1. nia.
Qed.

(** X21.  A column shows 100 as soon as fewer than one cell in 200 is NULL, and
    only if at most one in 200 is; it shows 0 as soon as fewer than one
    cell in 200 is not NULL, and only if at most one in 200 is.  So the
    columns counted as complete and as empty by the summary may hold NULL
    cells and values. *)
Theorem completeness_rounding_thresholds (isna : list bool) :
  (200 * (length isna - Completeness.non_null isna) < length isna ->
   Completeness.column_pct isna = Ok 100) /\
  (Completeness.column_pct isna = Ok 100 ->
   200 * (length isna - Completeness.non_null isna) <= length isna) /\
  (200 * Completeness.non_null isna < length isna ->
   Completeness.column_pct isna = Ok 0) /\
  (Completeness.column_pct isna = Ok 0 ->
   200 * Completeness.non_null isna <= length isna).
Proof.
  destruct isna as [|b t].
  - cbn. repeat split; intros H; try lia; discriminate.
  - assert (Hne : b :: t <> []) by discriminate.
    destruct (column_pct_near _ Hne) as (p & Hp & H100 & B1 & B2).
    pose proof (non_null_le (b :: t)) as Hk.
    set (col := b :: t) in *. assert (Hn : 0 < length col) by (cbn [col length]; lia).
    set (n := length col) in *. set (k := Completeness.non_null col) in *.
    rewrite Hp.
    split; [intros H; f_equal; nia|].
    split; [intros H; apply Ok_inj in H; subst p; lia|].
    split; [intros H; f_equal; nia|].
    intros H; apply Ok_inj in H; subst p; lia.
Qed.

Example complete_mark_with_a_null :
  Completeness.column_pct (true :: repeat false 200) = Ok 100 /\
  Completeness.icon 100 = "✓" /\
  Completeness.column_pct (false :: repeat true 200) = Ok 0.
Proof. vm_compute. repeat split. Qed.

Lemma frame_completeness_Ok (name : string) (df : Completeness.NullFrame)
      (pct : list (string * nat)) :
  Completeness.frame_completeness name df = Ok pct ->
  map fst pct
  = filter (fun c => negb (Completeness.mem c (Completeness.exclude_map name))) (map fst df) /\
  Forall (fun c => snd c <= 100) pct.
Proof.
  unfold Completeness.frame_completeness. intros H. apply for_each_Ok_inv in H.
  revert pct H. induction df as [|c t IH]; intros pct H.
  - inversion H. split; [reflexivity | constructor].
  - cbn [filter map] in *.
    destruct (negb (Completeness.mem (fst c) (Completeness.exclude_map name))) eqn:Ek.
    + inversion H as [|c0 y l0 ys Hy Hrest]; subst.
      destruct (IH _ Hrest) as [IH1 IH2].
      destruct (Completeness.column_pct (snd c)) as [p|e] eqn:Ep; cbn in Hy; [|discriminate].
      apply Ok_inj in Hy. subst y. cbn [map fst]. split; [now rewrite IH1|].
      constructor; [|exact IH2]. cbn [snd].
      destruct (snd c) as [|b l]; [discriminate|].
      destruct (column_pct_near (b :: l)) as (p' & Hp' & H100 & _); [discriminate|].
      congruence.
    + now apply IH.
Qed.

Lemma frame_completeness_outcome (name : string) (df : Completeness.NullFrame) :
  (Completeness.frame_completeness name df = Raise ValueError <->
   exists col, In (col, []) df /\
               Completeness.mem col (Completeness.exclude_map name) = false) /\
  (forall e, Completeness.frame_completeness name df = Raise e -> e = ValueError).
Proof.
  unfold Completeness.frame_completeness.
  set (f := fun c : string * list bool =>
              pct <- Completeness.column_pct (snd c) ;; Ok (fst c, pct)).
  assert (Hf : forall c e, f c = Raise e -> e = ValueError /\ snd c = []).
  { intros [col isna] e. unfold f. cbn [fst snd].
    destruct isna as [|b t]; [cbn; intros H; split; congruence|].
    rewrite column_pct_cons. discriminate. }
  assert (Hall : forall e, SummaryTables.for_each f
                   (filter (fun c => negb (Completeness.mem (fst c)
                                             (Completeness.exclude_map name))) df)
                 = Raise e -> e = ValueError).
  { intros e H. apply for_each_Raise_inv in H as (c & _ & Hc). now apply Hf in Hc. }
  split; [|exact Hall]. split.
  - intros H. apply for_each_Raise_inv in H as ([col isna] & Hin & Hc).
    apply filter_In in Hin as [Hin Hk]. apply Hf in Hc as [_ Hc]. cbn [fst snd] in *.
    subst isna. exists col. split; [exact Hin|]. now apply negb_true_iff.
  - intros (col & Hin & Hk).
    apply (for_each_Raise_intro f _ ValueError (col, [])).
    + apply filter_In. split; [exact Hin|]. cbn [fst]. now rewrite Hk.
    + reflexivity.
    + intros c e _ Hc. now apply Hf in Hc.
Qed.

(** X22.  [calculate_completeness] raises ValueError exactly when a column it
    keeps has no row (so for a table without rows), and raises nothing
    else. *)
Theorem calculate_completeness_outcome (dfs : list (string * Completeness.NullFrame)) :
  (Completeness.calculate_completeness dfs = Raise ValueError <-> kept_without_rows dfs) /\
  ((exists out, Completeness.calculate_completeness dfs = Ok out) \/
   Completeness.calculate_completeness dfs = Raise ValueError).
Proof.
  unfold Completeness.calculate_completeness, kept_without_rows.
  set (f := fun '(name, df) =>
              pct <- Completeness.frame_completeness name df ;; Ok (name, pct)).
  assert (Hf : forall name df e, f (name, df) = Raise e ->
                                 Completeness.frame_completeness name df = Raise e).
  { intros name df e. unfold f.
    destruct (Completeness.frame_completeness name df) as [pct|e']; cbn [bind];
      [discriminate | intros H; congruence]. }
  assert (Hall : forall e, SummaryTables.for_each f dfs = Raise e -> e = ValueError).
  { intros e H. apply for_each_Raise_inv in H as ([name df] & _ & Hc).
    apply Hf in Hc. now apply (proj2 (frame_completeness_outcome name df)). }
  split.
  - split.
    + intros H. apply for_each_Raise_inv in H as ([name df] & Hin & Hc).
      apply Hf in Hc. apply (proj1 (frame_completeness_outcome name df)) in Hc
        as (col & Hcol & Hk).
      now exists name, df, col.
    + intros (name & df & col & Hin & Hcol & Hk).
      apply (for_each_Raise_intro f _ ValueError (name, df) Hin).
      * unfold f.
        assert (E : Completeness.frame_completeness name df = Raise ValueError)
          by (apply (proj1 (frame_completeness_outcome name df)); now exists col).
        now rewrite E.
      * intros [name' df'] e _ Hc. apply Hf in Hc.
        now apply (proj2 (frame_completeness_outcome name' df')).
  - destruct (SummaryTables.for_each f dfs) as [out|e] eqn:E.
    + left. now exists out.
    + right. f_equal. now apply Hall.
Qed.

Lemma calculate_completeness_Ok (dfs : list (string * Completeness.NullFrame))
      (out : list (string * list (string * nat))) :
  Completeness.calculate_completeness dfs = Ok out ->
  Forall2 (fun d o => fst o = fst d /\
                      Completeness.frame_completeness (fst d) (snd d) = Ok (snd o)) dfs out.
Proof.
  unfold Completeness.calculate_completeness. intros H. apply for_each_Ok_inv in H.
  induction H as [|[name df] o l ys Hx _ IH]; constructor; [|exact IH].
  destruct (Completeness.frame_completeness name df) as [pct|e] eqn:E; cbn in Hx;
    [|discriminate].
  apply Ok_inj in Hx. subst o. now split.
Qed.

(** X23.  When [calculate_completeness] returns, it has one entry for each
    frame, under the frame's name and in the order of the frames; the entry
    lists the columns of the frame in their order without those of the set
    of derived columns of that frame, so no derived column is shown; and
    every percentage is at most 100. *)
Theorem completeness_columns (dfs : list (string * Completeness.NullFrame))
        (out : list (string * list (string * nat))) :
  Completeness.calculate_completeness dfs = Ok out ->
  map fst out = map fst dfs /\
  Forall2 (fun d o =>
             map fst (snd o)
             = filter (fun c => negb (Completeness.mem c (Completeness.exclude_map (fst d))))
                      (map fst (snd d))) dfs out /\
  (forall name pct c,
      In (name, pct) out -> In c (Completeness.exclude_map name) -> ~ In c (map fst pct)) /\
  Forall (fun o => Forall (fun c => snd c <= 100) (snd o)) out.
Proof.
  intros H. apply calculate_completeness_Ok in H.
  induction H as [|d o l ys [Hname Hd] _ (IH1 & IH2 & IH3 & IH4)].
  - split; [reflexivity|]. split; [constructor|]. split; [intros ? ? ? []|constructor].
  - destruct (frame_completeness_Ok _ _ _ Hd) as [Hcols Hle].
    split; [cbn [map]; now rewrite Hname, IH1|].
    split; [constructor; assumption|].
    split; [|constructor; assumption].
    intros name pct c [Ho | Hin] Hex; [|now apply (IH3 name pct c)].
    subst o. cbn [fst snd] in *. subst name. rewrite Hcols. intros Hc.
    apply filter_In in Hc as [_ Hk]. apply negb_true_iff in Hk.
    assert (Hm : Completeness.mem c (Completeness.exclude_map (fst d)) = true).
    { unfold Completeness.mem. apply existsb_exists. exists c.
      split; [exact Hex | apply String.eqb_refl]. }
    congruence.
Qed.

Lemma completeness_columns_witness :
  exists out,
    Completeness.calculate_completeness sample_frames = Ok out /\
    map fst out = ["01_Screening"; "02_Classification"; "03_WaterValue"] /\
    map snd out = [ [("ID", 100); ("Abstract", 50)];
                    [("ID", 100); ("Notes", 0)];
                    [("ID", 100)] ].
Proof.
  eexists. split; [vm_compute; reflexivity|].
  split; [|reflexivity].
  apply (proj1 (completeness_columns sample_frames _ eq_refl)).
Defined.

Lemma summary_counts_sum (pct : list nat) :
  Forall (fun v => v <= 100) pct ->
  let '(n_complete, n_partial, n_empty) := Completeness.summary_counts pct in
  n_complete + n_partial + n_empty = length pct.
Proof.
  unfold Completeness.summary_counts. induction 1 as [|v l Hv _ IH]; [reflexivity|].
  cbv beta iota zeta in IH. cbn [filter].
  destruct (Nat.eqb_spec v 100) as [E1|E1]; destruct (Nat.eqb_spec v 0) as [E0|E0];
    destruct (Nat.ltb_spec 0 v) as [E2|E2]; destruct (Nat.ltb_spec v 100) as [E3|E3];
    cbn [andb length]; lia.
Qed.

(** X24.  In the summary of each frame the three counts (columns at 100 %,
    columns between, columns at 0 %) add up to the number of columns. *)
Theorem summary_counts_partition (dfs : list (string * Completeness.NullFrame))
        (out : list (string * list (string * nat))) :
  Completeness.calculate_completeness dfs = Ok out ->
  Forall (fun o =>
            let '(n_complete, n_partial, n_empty) :=
              Completeness.summary_counts (map snd (snd o)) in
            n_complete + n_partial + n_empty = length (snd o)) out.
Proof.
  intros H. apply calculate_completeness_Ok in H.
  induction H as [|d o l ys [_ Hd] _ IH]; constructor; [|exact IH].
  destruct (frame_completeness_Ok _ _ _ Hd) as [_ Hle].
  rewrite <- (length_map snd (snd o)). apply summary_counts_sum.
  apply Forall_map. exact Hle.
Qed.

Lemma summary_counts_partition_witness :
  exists out,
    Completeness.calculate_completeness sample_frames = Ok out /\
    map (fun o => Completeness.summary_counts (map snd (snd o))) out
    = [ (1, 1, 0); (1, 0, 1); (1, 0, 0) ] /\
    Forall (fun o =>
              let '(n_complete, n_partial, n_empty) :=
                Completeness.summary_counts (map snd (snd o)) in
              n_complete + n_partial + n_empty = length (snd o)) out.
Proof.
  eexists. split; [vm_compute; reflexivity|]. split; [reflexivity|].
  apply (summary_counts_partition sample_frames). reflexivity.
Defined.

(** ** Tables 1, 2 and 4 by label and count *)

Lemma StronglySorted_map_inv {A B} (f : A -> B) (R : B -> B -> Prop) (l : list A) :
  StronglySorted R (map f l) -> StronglySorted (fun a b => R (f a) (f b)) l.
Proof.
  induction l as [|a l IH]; intros H; [constructor|].
  cbn [map] in H. inversion H as [|? ? Hl Ha]; subst.
  constructor; [now apply IH|].
  rewrite Forall_map in Ha. exact Ha.
Qed.

Lemma Sorted_by_key_desc {A} (key : A -> nat) (l : list A) :
  StronglySorted (fun a b => key b <= key a) l ->
  StronglySorted ge (map key l).
Proof.
  induction 1 as [|a l Hl IH Ha]; cbn [map]; constructor; [exact IH|].
  rewrite Forall_map. exact Ha.
Qed.

(** X12.  Table 2 has, ahead of the Total row, exactly one row for each
    method that occurs in Method_clean, with the number of its
    occurrences, the rows in descending order of count; every row has the
    cells Method, Count and Percentage, the percentage being the share of
    the count in the number of papers rounded to one decimal place; the
    Total row holds the number of papers and 100.0. *)
Theorem method_table_rows (df : ClassFrame) :
  exists methods,
    NoDup methods /\
    (forall method, In method methods <-> In (Some method) (map Method_clean df)) /\
    map (entry_of "Method") (body (SummaryTables.generate_method_table df))
    = map (fun method => Some (method, occurrences method (map Method_clean df))) methods /\
    StronglySorted ge (map (fun method => occurrences method (map Method_clean df)) methods) /\
    total_row (SummaryTables.generate_method_table df)
    = [ ("Method", VStr "Total"); ("Count", VInt (length df));
        ("Percentage", VFloat (Tenths 1000)) ] /\
    Forall (fun row => map fst row = ["Method"; "Count"; "Percentage"] /\
                       share_rounded (length df) row)
           (body (SummaryTables.generate_method_table df)).
Proof.
  destruct (method_table_model df) as (methods & Hnd & Hin & Heq & Hsorted).
  exists methods. rewrite Heq. unfold body, total_row. rewrite removelast_last, last_last.
  split; [exact Hnd|]. split; [exact Hin|].
  split; [rewrite map_map; apply map_ext; reflexivity|].
  split.
  - apply (Sorted_by_key_desc (fun method => occurrences method (map Method_clean df))).
    apply StronglySorted_map_inv in Hsorted. exact Hsorted.
  - split; [reflexivity|].
    apply Forall_forall. intros row Hrow. apply in_map_iff in Hrow as [method [<- Hm]].
    split; [reflexivity|].
    apply (share_rounded_intro _ (occurrences method (map Method_clean df)));
      [|reflexivity|reflexivity].
    apply Hin in Hm. destruct df; [destruct Hm | cbn [length]; lia].
Qed.

Example method_table_sample :
  map (entry_of "Method") (body (SummaryTables.generate_method_table sample_class))
  = [ Some ("LP", 2); Some ("SDP", 1) ].
Proof. reflexivity. Qed.

(** X13.  Table 1 has, ahead of the Total row, exactly one row for each
    category that occurs in Classification, in ascending order of the
    category label, with the number of its occurrences and its name from
    CATEGORY_NAMES (the placeholder text for a label that is not one of
    the nine); every row has the cells Category, Category_Name, Count and
    Percentage, the percentage being the share of the count in the number
    of papers rounded to one decimal place; the Total row holds an empty
    name, the number of papers and 100.0. *)
Theorem classification_table_rows (df : ClassFrame) :
  exists cats,
    NoDup cats /\
    (forall cat, In cat cats <-> In (Some cat) (map Classification df)) /\
    Sorted (fun a b => String.leb a b = true) cats /\
    map (fun row => (entry_of "Category" row, get "Category_Name" row))
        (body (SummaryTables.generate_classification_table df))
    = map (fun cat =>
             (Some (cat, occurrences cat (map Classification df)),
              Some (VStr (SummaryTables.dict_get cat SummaryTables.CATEGORY_NAMES
                            "[Category name — see article.txt]"))))
          cats /\
    total_row (SummaryTables.generate_classification_table df)
    = [ ("Category", VStr "Total"); ("Category_Name", VStr EmptyString);
        ("Count", VInt (length df)); ("Percentage", VFloat (Tenths 1000)) ] /\
    Forall (fun row => map fst row = ["Category"; "Category_Name"; "Count"; "Percentage"] /\
                       share_rounded (length df) row)
           (body (SummaryTables.generate_classification_table df)).
Proof.
  destruct (classification_table_model df) as (cats & Hnd & Hin & Hsorted & Heq).
  exists cats. rewrite Heq. unfold body, total_row. rewrite removelast_last, last_last.
  split; [exact Hnd|]. split; [exact Hin|]. split; [exact Hsorted|].
  split; [rewrite map_map; apply map_ext; reflexivity|].
  split; [reflexivity|].
  apply Forall_forall. intros row Hrow. apply in_map_iff in Hrow as [cat [<- Hc]].
  split; [reflexivity|].
  apply (share_rounded_intro _ (occurrences cat (map Classification df)));
    [|reflexivity|reflexivity].
  apply Hin in Hc. destruct df; [destruct Hc | cbn [length]; lia].
Qed.

Lemma indicator_sum (x : string) (K : list string) :
  NoDup K ->
  list_sum (map (fun k => if String.eqb x k then 1 else 0) K)
  = if existsb (String.eqb x) K then 1 else 0.
Proof.
  intros Hnd. destruct (existsb (String.eqb x) K) eqn:E.
  - apply sum_indicator; [exact Hnd | now apply existsb_eqb_In].
  - rewrite (map_ext_in _ (fun _ => 0)); [apply list_sum_map_zero|].
    intros k Hk. destruct (String.eqb_spec x k) as [->|]; [|reflexivity].
    apply existsb_eqb_In in Hk. congruence.
Qed.

(** The counts of the six year ranges add up to the papers whose label
    is one of the six. *)
Lemma decade_counts_sum (df : ClassFrame) :
  list_sum (map (fun decade => occurrences decade (map Decade df))
                SummaryTables.decade_order)
  = length (filter in_year_ranges df).
Proof.
  induction df as [|r df IH].
  - cbn [map filter length]. apply list_sum_map_zero.
  - rewrite (map_ext _ (fun decade =>
                          (match Decade r with
                           | Some x => if String.eqb x decade then 1 else 0
                           | None => 0
                           end) + occurrences decade (map Decade df))).
    + rewrite list_sum_map_add, IH. cbn [filter]. unfold in_year_ranges at 2.
      change ["Pre-2000"; "2000–2004"; "2005–2009"; "2010–2014"; "2015–2019"; "2020–2025"]
        with SummaryTables.decade_order.
      destruct (Decade r) as [x|].
      * rewrite (indicator_sum x _ decade_order_NoDup).
        destruct (existsb (String.eqb x) SummaryTables.decade_order); reflexivity.
      * rewrite list_sum_map_zero. reflexivity.
    + intros decade. unfold occurrences. cbn [map filter].
      destruct (Decade r) as [x|]; [|reflexivity].
      destruct (String.eqb x decade); reflexivity.
Qed.

(** X11.  When Table 4 is produced it has, ahead of the Total row, one
    row for each of the six year ranges, in their fixed chronological
    order whatever the data, each with the number of papers that carry its
    label; a range that no paper carries is shown with count 0 and 0.0 %.
    The six counts add up to the number of papers whose label is one of
    the six: a paper with another label, or with none, is counted in the
    Total row alone.  Every row has the cells Year_Range, Count and
    Percentage, the percentage being the share of the count in the number
    of papers rounded to one decimal place. *)
Theorem year_table_shape (df : ClassFrame) (t : table) :
  SummaryTables.generate_year_table df = Ok t ->
  map (entry_of "Year_Range") (body t)
  = map (fun decade => Some (decade, occurrences decade (map Decade df)))
        ["Pre-2000"; "2000–2004"; "2005–2009"; "2010–2014"; "2015–2019"; "2020–2025"] /\
  total_row t
  = [ ("Year_Range", VStr "Total"); ("Count", VInt (length df));
      ("Percentage", VFloat (Tenths 1000)) ] /\
  (forall row, In row (body t) -> get "Count" row = Some (VInt 0) ->
               get "Percentage" row = Some (VFloat (Tenths 0))) /\
  list_sum (map (Count_of "Count") (body t)) = length (filter in_year_ranges df) /\
  Forall (fun row => map fst row = ["Year_Range"; "Count"; "Percentage"] /\
                     share_rounded (length df) row)
         (body t).
Proof.
  intros Ht.
  assert (Hn : 0 < length df) by (destruct df; [discriminate | cbn [length]; lia]).
  destruct (year_table_model df t Ht) as (-> & _ & _).
  unfold body, total_row. rewrite removelast_last, last_last.
  split; [rewrite map_map; apply map_ext; reflexivity|].
  split; [reflexivity|].
  split; [|split].
  - intros row Hrow Hzero. apply in_map_iff in Hrow as [decade [<- _]].
    cbn in Hzero. injection Hzero as Hzero. cbn. rewrite Hzero.
    rewrite np_percentage_pos, Nat.mul_0_r, round_half_even_zero by exact Hn.
    reflexivity.
  - rewrite map_map. rewrite <- decade_counts_sum. reflexivity.
  - apply Forall_forall. intros row Hrow. apply in_map_iff in Hrow as [decade [<- _]].
    split; [reflexivity|].
    now apply (share_rounded_intro _ (occurrences decade (map Decade df))).
Qed.

Lemma year_table_shape_witness :
  exists t,
    SummaryTables.generate_year_table
      (sample_class ++ [paper "A" "LP" "Norway" "2026–2030" 2027]) = Ok t /\
    map (entry_of "Year_Range") (body t)
    = [ Some ("Pre-2000", 0); Some ("2000–2004", 0); Some ("2005–2009", 0);
        Some ("2010–2014", 1); Some ("2015–2019", 2); Some ("2020–2025", 0) ] /\
    list_sum (map (Count_of "Count") (body t)) = 3 /\
    get "Count" (total_row t) = Some (VInt 4).
Proof.
  eexists. split; [vm_compute; reflexivity|].
  destruct (year_table_shape (sample_class ++ [paper "A" "LP" "Norway" "2026–2030" 2027]) _
              eq_refl) as (H1 & H2 & _ & H4 & _).
  split; [exact H1|]. split; [exact H4|]. exact (f_equal (get "Count") H2).
Defined.
